(** * Municipal employment-page dataset scripts

    A shallow embedding of the three batch scripts of the repository
    ([migrate_schema.py], [apply_url_check_summary.py] and the configuration
    part of [rediscover_employment_links.py]) and the properties their
    specification states about them.

    Conventions.
    - A Python [str] is a [string] whose character of code [n] stands for
      the code point [n]: the model covers the strings whose code points are
      below 256.  On these [str.isspace], [str.lower] and the class [\d] of
      [re] are as [PyStr] has them; a string with a code point from 256 on
      (for which [\d] also holds the decimal digits of other scripts) is
      outside the model.
    - A JSON value loaded by [json.loads] is a [value]; a record (a Python
      [dict] with string keys) is a [gmap string value].  A key bound to
      [None] is a key bound to [VNone]: it is present.
    - Python library calls whose code is not part of the repository
      ([urlparse], [int(float(_))], [json.loads], [json.dumps],
      [csv.DictReader], [datetime.now]) are the fields of the class
      [Runtime]; every theorem holds for every instance.  [RefRuntime] is an
      executable instance used to run the scripts on concrete inputs. *)

From Stdlib Require Import ZArith Ascii String List Lia Bool.
From stdpp Require Import gmap strings list fin_maps pretty.

Local Open Scope Z_scope.
Local Open Scope string_scope.

(** ** Python values *)

#[warnings="-register-all"]
Inductive value : Type :=
  | VNone
  | VBool (b : bool)
  | VInt (z : Z)
  | VFloat (literal : string)
  | VStr (s : string)
  | VArr (items : list value)
  | VObj (fields : gmap string value).

Abbreviation record := (gmap string value) (only parsing).

(** [rec.get(k)]: the value bound to [k], [None] when the key is absent. *)
Definition get (rec : record) (k : string) : value := default VNone (rec !! k).

(** A Python [Optional[str]] / [Optional[int]] stored into a record. *)
Definition of_opt_str (o : option string) : value := from_option VStr VNone o.
Definition of_opt_int (o : option Z) : value := from_option VInt VNone o.

(** ** Python string operations *)

Module PyStr.

(** [str.isspace] on the code points below 256: TAB..CR, FS..US, the
    space, NEL (133) and the no-break space (160). *)
Definition is_space (a : ascii) : bool :=
  let n := N_of_ascii a in
  ((9 <=? n) && (n <=? 13) || (28 <=? n) && (n <=? 32)
   || (n =? 133) || (n =? 160))%N.

(** The class [\d] of a [str] pattern on the code points below 256: the
    decimal digits there are [0]..[9] (the superscript digits are not
    decimal). *)
Definition is_digit (a : ascii) : bool :=
  let n := N_of_ascii a in ((48 <=? n) && (n <=? 57))%N.

Fixpoint lstrip (s : string) : string :=
  match s with
  | EmptyString => EmptyString
  | String a s' => if is_space a then lstrip s' else s
  end.

Fixpoint rstrip (s : string) : string :=
  match s with
  | EmptyString => EmptyString
  | String a s' =>
      match rstrip s' with
      | EmptyString => if is_space a then EmptyString else String a EmptyString
      | r => String a r
      end
  end.

(** [s.strip()] *)
Definition strip (s : string) : string := rstrip (lstrip s).

(** [c.lower()] on the code points below 256: [A]..[Z] and the capital
    letters 192..222 of Latin-1 (215, the multiplication sign, is none). *)
Definition lower_ascii (a : ascii) : ascii :=
  let n := N_of_ascii a in
  if ((65 <=? n) && (n <=? 90)
      || (192 <=? n) && (n <=? 222) && negb (n =? 215))%N
  then ascii_of_N (n + 32) else a.

(** [s.lower()] *)
Fixpoint lower (s : string) : string :=
  match s with
  | EmptyString => EmptyString
  | String a s' => String (lower_ascii a) (lower s')
  end.

(** Every character of [s] satisfies [p]. *)
Fixpoint all_chars (p : ascii -> bool) (s : string) : bool :=
  match s with
  | EmptyString => true
  | String a s' => p a && all_chars p s'
  end.

(** Some character of [s] satisfies [p]. *)
Fixpoint any_char (p : ascii -> bool) (s : string) : bool :=
  match s with
  | EmptyString => false
  | String a s' => p a || any_char p s'
  end.

(** Truth value of a string: the empty string is false. *)
Definition truthy (s : string) : bool := negb (String.eqb s EmptyString).

(** [a or b] on strings. *)
Definition or_str (a b : string) : string := if truthy a then a else b.

(** [a or None] *)
Definition or_none (a : string) : option string :=
  if truthy a then Some a else None.

(** Truth value of an [Optional[str]]. *)
Definition truthy_opt (o : option string) : bool :=
  match o with Some s => truthy s | None => false end.

(** [a or b] on [Optional[str]]. *)
Definition or_opt (a b : option string) : option string :=
  if truthy_opt a then a else b.

End PyStr.

(** ** Exceptions *)

Inductive exn : Type :=
  | ValueError (msg : string)
  | JSONDecodeError
  | FileNotFoundError (path : string).

Inductive result (A : Type) : Type :=
  | Ok (a : A)
  | Raise (e : exn).
Arguments Ok {A} a.
Arguments Raise {A} e.

Definition rbind {A B : Type} (m : result A) (k : A -> result B) : result B :=
  match m with
  | Ok a => k a
  | Raise e => Raise e
  end.

#[global] Instance result_bind : MBind result := fun A B k m => rbind m k.

(** ** Files, standard output and exit status *)

Module IO.

(** The file system (the text of each file that exists), the paths the
    script opened for reading and for writing, in order, and the lines it
    printed. *)
Record world : Type := mkWorld {
  files : gmap string string;
  reads : list string;
  writes : list string;
  stdout : list string
}.

(** How [main] ends: it returns a code, which [raise SystemExit(main())]
    makes the exit status, or an exception leaves it, which the
    interpreter reports with exit status 1. *)
Inductive outcome : Type :=
  | Returned (code : Z)
  | Uncaught (e : exn).

Definition exit_status (o : outcome) : Z :=
  match o with
  | Returned code => code
  | Uncaught _ => 1
  end.

(** [Path(p).read_text(encoding="utf-8")], also the opening of a file for
    reading. *)
Definition read_text (p : string) (w : world) : result string * world :=
  let w' := mkWorld (files w) (reads w ++ [p]) (writes w) (stdout w) in
  match files w !! p with
  | Some text => (Ok text, w')
  | None => (Raise (FileNotFoundError p), w')
  end.

(** [Path(p).write_text(text, encoding="utf-8")] *)
Definition write_text (p text : string) (w : world) : world :=
  mkWorld (<[p := text]> (files w)) (reads w) (writes w ++ [p]) (stdout w).

Definition print (line : string) (w : world) : world :=
  mkWorld (files w) (reads w) (writes w) (stdout w ++ [line]).

End IO.

(** ** The Python library the scripts call *)

(** The three components of [urllib.parse.urlparse(u)] the scripts read. *)
Record ParseResult : Type := mkParse {
  scheme : string;
  netloc : string;
  path : string
}.

(** A CSV row as [csv.DictReader] yields it; a missing column and a column
    holding [None] both read as [None] through [row.get]. *)
Abbreviation csvrow := (gmap string string) (only parsing).

Class Runtime : Type := {
  (** [urlparse(u)]; [None] when it raises [ValueError]. *)
  urlparse : string -> option ParseResult;
  (** [int(float(s))]; [None] when either conversion raises. *)
  int_of_float : string -> option Z;
  (** [json.loads(text)]; [None] when it raises [JSONDecodeError]. *)
  json_loads : string -> option value;
  (** [json.dumps(data, indent=2, ensure_ascii=False)] *)
  json_dumps : value -> string;
  (** The rows [csv.DictReader] reads from a file's text. *)
  csv_rows : string -> list csvrow;
  (** [datetime.now().isoformat()] while the [n]-th row is processed. *)
  now_isoformat : nat -> string
}.

(** The characters that cannot occur in the scheme, and in the network
    location, that [urlparse] returns: the scheme ends before the first
    colon and is made of letters, digits, [+], [-] and [.]; the network
    location ends before the first [/], [?] or [#]. *)
Definition scheme_delimiter (a : ascii) : bool :=
  Ascii.eqb a ":" || Ascii.eqb a "/".

Definition netloc_delimiter (a : ascii) : bool :=
  Ascii.eqb a "/" || Ascii.eqb a "?" || Ascii.eqb a "#".

(** This property of [urllib.parse], for a runtime: a theorem that relies
    on it has it as a hypothesis. *)
Definition urlparse_delimits `{Runtime} : Prop :=
  forall (u : string) (r : ParseResult),
    urlparse u = Some r ->
    PyStr.any_char scheme_delimiter (scheme r) = false
    /\ PyStr.any_char netloc_delimiter (netloc r) = false.

(** ** apply_url_check_summary.py *)

Module ApplyUrlCheckSummary.

(** The longest prefix of decimal digits of [s]: its length and the rest. *)
Fixpoint span_digits (s : string) : nat * string :=
  match s with
  | EmptyString => (O, EmptyString)
  | String a s' =>
      if PyStr.is_digit a
      then let '(n, r) := span_digits s' in (S n, r)
      else (O, s)
  end.

(** [CIVICPLUS_PAGEID_RE.match(p)] is not [None], for the pattern
    [^/(\d{2,6})/[^/]+], on the strings of the model, where the class [\d]
    is [PyStr.is_digit].  The greedy digit group is followed by a slash,
    so it has to take the whole run of digits after the leading slash,
    which therefore has 2 to 6 digits; one character other than a slash
    has to follow the second slash. *)
Definition CIVICPLUS_PAGEID_RE_match (p : string) : bool :=
  match p with
  | String a s =>
      let '(n, r) := span_digits s in
      Ascii.eqb a "/" && (2 <=? n)%nat && (n <=? 6)%nat &&
      match r with
      | String b (String c _) => Ascii.eqb b "/" && negb (Ascii.eqb c "/")
      | _ => false
      end
  | EmptyString => false
  end.

Definition UPDATE_CANONICAL_ON_REDIRECT : bool := true.
Definition UPDATE_CANONICAL_ON_CIVICPLUS_PAGEID : bool := true.

Definition DO_NOT_REWRITE_STATUSES : gset Z := {[ 401; 403 ]}.

(** [parse_iso_any(s)]; [now] is what the clock returns if it is read. *)
Definition parse_iso_any (s : string) (now : string) : string :=
  if PyStr.truthy (PyStr.strip s) then PyStr.strip s else now.

Definition field_to_prefix (field : string) : option string :=
  if String.eqb field "Employment Page URL" then Some "employment"
  else if String.eqb field "Application Form URL" then Some "application"
  else None.

(** [h or v], where [h] is the result of [homepage]. *)
Definition or_value (h : option string) (v : value) : value :=
  match h with
  | Some s => if PyStr.truthy s then VStr s else v
  | None => v
  end.

(** [row.get(k) or e], where [e] is the empty string. *)
Definition row_get (row : csvrow) (k : string) : string := default EmptyString (row !! k).

Definition row_town (row : csvrow) : string := PyStr.strip (row_get row "Town").
Definition row_field (row : csvrow) : string := PyStr.strip (row_get row "Field").

Definition row_checked_at (row : csvrow) (now : string) : string :=
  parse_iso_any
    (PyStr.or_str (row_get row "checked_at_utc") (row_get row "checked_at")) now.

Definition row_status_str (row : csvrow) : string :=
  PyStr.strip (row_get row "Status").

Definition row_final_url (row : csvrow) : option string :=
  PyStr.or_none (PyStr.strip (row_get row "Final URL")).

Definition row_soft404 (row : csvrow) : bool :=
  String.eqb (PyStr.lower (PyStr.strip (row_get row "Soft404"))) "true".

Definition row_error (row : csvrow) : option string :=
  PyStr.or_none (PyStr.strip (row_get row "Error")).

(** Lines 123-127: the five metadata keys of the row's URL field. *)
Definition stamp_metadata (prefix : string) (status : option Z)
    (final_url : option string) (checked_at : string) (soft404 : bool)
    (err : option string) (rec : record) : record :=
  <[prefix ++ "_url_error" := of_opt_str err]>
    (<[prefix ++ "_url_soft404" := VBool soft404]>
      (<[prefix ++ "_url_last_checked_at" := VStr checked_at]>
        (<[prefix ++ "_url_final" := of_opt_str final_url]>
          (<[prefix ++ "_url_status_code" := of_opt_int status]> rec)))).

(** Lines 140-145: the guards in front of the two rewrite rules; the
    current URL, the final URL and the status when the last [else] is
    entered. *)
Definition rewrite_branch (cur_url : value) (final_url : option string)
    (status : option Z) (soft404 : bool) : option (string * string * Z) :=
  match cur_url, final_url, status with
  | VStr cur, Some fin, Some st =>
      if PyStr.truthy fin then
        if bool_decide (st ∈ DO_NOT_REWRITE_STATUSES) then None
        else if soft404 then None
        else Some (cur, fin, st)
      else None
  | _, _, _ => None
  end.

(** Lines 147-151; the state is the record and the [updates] counter. *)
Definition redirect_rule (field prefix cur fin : string) (st : Z)
    (s : record * nat) : record * nat :=
  if UPDATE_CANONICAL_ON_REDIRECT && (st <? 400)%Z && negb (String.eqb fin cur)
  then (<[prefix ++ "_url_confidence" := VInt 95]>
          (<[prefix ++ "_url_change_reason" := VStr "redirect_canonicalized"]>
            (<[field := VStr fin]> s.1)),
        S s.2)
  else s.

Section WithRuntime.
Context `{Runtime}.

(** [int(float(status_str)) if status_str else None], [None] on any
    exception (lines 118-121). *)
Definition parse_status (status_str : string) : option Z :=
  if PyStr.truthy status_str then int_of_float status_str else None.

Definition row_status (row : csvrow) : option Z :=
  parse_status (row_status_str row).

(** [homepage(url)]; the call of [urlparse] is not guarded here, so its
    [ValueError] propagates. *)
Definition homepage (url : value) : result (option string) :=
  match url with
  | VStr s =>
      if negb (PyStr.truthy (PyStr.strip s)) then Ok None
      else match urlparse (PyStr.strip s) with
           | None => Raise (ValueError "urlparse")
           | Some u =>
               if negb (PyStr.truthy (scheme u)) || negb (PyStr.truthy (netloc u))
               then Ok None
               else Ok (Some (scheme u ++ "://" ++ netloc u ++ "/"))
           end
  | _ => Ok None
  end.

(** [civicplus_pageid_path(u)]; any exception gives [None]. *)
Definition civicplus_pageid_path (u : string) : option string :=
  match urlparse u with
  | Some r => if CIVICPLUS_PAGEID_RE_match (path r) then Some (path r) else None
  | None => None
  end.

(** Lines 130-136. *)
Definition ensure_town_website (field : string) (rec : record) : result record :=
  match get rec "Town Website" with
  | VStr tw =>
      h ← homepage (VStr tw);
      Ok (<["Town Website" := or_value h (VStr tw)]> rec)
  | _ =>
      match get rec field with
      | VStr cur =>
          h ← homepage (VStr cur);
          Ok (<["Town Website" := or_value h (get rec "Town Website")]> rec)
      | _ => Ok rec
      end
  end.

(** Lines 154-161. *)
Definition civicplus_rule (field prefix cur fin : string) (st : Z)
    (s : record * nat) : record * nat :=
  if UPDATE_CANONICAL_ON_CIVICPLUS_PAGEID && (st <? 400)%Z && PyStr.truthy fin then
    let cur_pid := bool_decide (is_Some (civicplus_pageid_path cur)) in
    let fin_pid := bool_decide (is_Some (civicplus_pageid_path fin)) in
    if fin_pid && negb cur_pid
    then (<[prefix ++ "_url_confidence" := VInt 95]>
            (<[prefix ++ "_url_change_reason" := VStr "civicplus_pageid_canonicalized"]>
              (<[field := VStr fin]> s.1)),
          S s.2)
    else s
  else s.

(** The state after line 151: the guards and the redirect rule. *)
Definition redirect_phase (field prefix : string) (final_url : option string)
    (status : option Z) (soft404 : bool) (s : record * nat) : record * nat :=
  match rewrite_branch (get s.1 field) final_url status soft404 with
  | Some (cur, fin, st) => redirect_rule field prefix cur fin st s
  | None => s
  end.

(** Lines 154-161 under the guards of lines 140-145, from the state the
    redirect rule left; [cur_url] is the URL read at line 139. *)
Definition civicplus_phase (field prefix : string) (cur_url : value)
    (final_url : option string) (status : option Z) (soft404 : bool)
    (s : record * nat) : record * nat :=
  match rewrite_branch cur_url final_url status soft404 with
  | Some (cur, fin, st) => civicplus_rule field prefix cur fin st s
  | None => s
  end.

(** Lines 139-161: both rules, each testing the URL read at line 139. *)
Definition canonicalize (field prefix : string) (final_url : option string)
    (status : option Z) (soft404 : bool) (s : record * nat) : record * nat :=
  match rewrite_branch (get s.1 field) final_url status soft404 with
  | Some (cur, fin, st) =>
      civicplus_rule field prefix cur fin st
        (redirect_rule field prefix cur fin st s)
  | None => s
  end.

(** The state at line 139: metadata stamped, Town Website ensured. *)
Definition row_prepare (now field prefix : string) (row : csvrow)
    (rec : record) : result record :=
  ensure_town_website field
    (stamp_metadata prefix (row_status row) (row_final_url row)
       (row_checked_at row now) (row_soft404 row) (row_error row) rec).

(** Lines 111-161: the body of the loop for a row that names the URL
    field [field] of the record [s.1]. *)
Definition row_body (now field prefix : string) (row : csvrow)
    (s : record * nat) : result (record * nat) :=
  rec2 ← row_prepare now field prefix row s.1;
  Ok (canonicalize field prefix (row_final_url row) (row_status row)
        (row_soft404 row) (rec2, s.2)).

(** Lines 93-96: the index of the record each town name refers to; a
    later record with the same name replaces an earlier one. *)
Fixpoint index_by_town (data : list value) (i : nat) (by_town : gmap string nat)
    : gmap string nat :=
  match data with
  | [] => by_town
  | VObj rec :: rest =>
      match get rec "Town" with
      | VStr town => index_by_town rest (S i) (<[town := i]> by_town)
      | _ => index_by_town rest (S i) by_town
      end
  | _ :: rest => index_by_town rest (S i) by_town
  end.

(** Lines 101-161: one iteration of the loop over the CSV rows.  The
    records are shared between [data] and [by_town], so the updated
    record is written back at its position in [data]. *)
Definition process_row (by_town : gmap string nat) (now : string)
    (row : csvrow) (s : list value * nat) : result (list value * nat) :=
  let town := row_town row in
  let field := row_field row in
  match field_to_prefix field with
  | Some prefix =>
      if negb (PyStr.truthy town) || negb (PyStr.truthy prefix) then Ok s
      else match by_town !! town with
           | Some i =>
               match s.1 !! i with
               | Some (VObj rec) =>
                   if bool_decide (rec = ∅) then Ok s
                   else
                     '(rec', updates) ← row_body now field prefix row (rec, s.2);
                     Ok (<[i := VObj rec']> s.1, updates)
               | _ => Ok s
               end
           | None => Ok s
           end
  | None => Ok s
  end.

(** The loop over the rows; the clock is read at a row's position. *)
Fixpoint process_rows (by_town : gmap string nat) (n : nat)
    (rows : list csvrow) (s : list value * nat) : result (list value * nat) :=
  match rows with
  | [] => Ok s
  | row :: rest =>
      s' ← process_row by_town (now_isoformat n) row s;
      process_rows by_town (S n) rest s'
  end.

(** [main()], with [sys.argv] and the world it runs in. *)
Definition main (argv : list string) (w : IO.world) : IO.outcome * IO.world :=
  match argv with
  | [_; json_in; csv_in; json_out] =>
      let '(r, w1) := IO.read_text json_in w in
      match r with
      | Raise e => (IO.Uncaught e, w1)
      | Ok text =>
          match json_loads text with
          | None => (IO.Uncaught JSONDecodeError, w1)
          | Some (VArr data) =>
              let by_town := index_by_town data 0 ∅ in
              let '(r2, w2) := IO.read_text csv_in w1 in
              match r2 with
              | Raise e => (IO.Uncaught e, w2)
              | Ok csv_text =>
                  match process_rows by_town 0 (csv_rows csv_text) (data, O) with
                  | Raise e => (IO.Uncaught e, w2)
                  | Ok (data', updates) =>
                      let w3 := IO.write_text json_out (json_dumps (VArr data')) w2 in
                      (IO.Returned 0,
                       IO.print ("Done. Wrote " ++ json_out
                                 ++ ". Canonical URL rewrites applied: "
                                 ++ pretty updates) w3)
                  end
              end
          | Some _ =>
              (IO.Uncaught (ValueError "Expected JSON to be a list (array) of objects."),
               w1)
          end
      end
  | _ =>
      (IO.Returned 2,
       IO.print "Usage: python apply_url_check_summary.py <input.json> <url_check_summary.csv> <output.json>" w)
  end.

End WithRuntime.

End ApplyUrlCheckSummary.

(** ** migrate_schema.py *)

Module MigrateSchema.

(** [v != s] for a string [s]. *)
Definition differs_from_str (v : value) (s : string) : bool :=
  match v with
  | VStr t => negb (String.eqb t s)
  | _ => true
  end.

(** Lines 67-69 and 71-73, which differ in the name of the URL field only:
    the frozen copy is written when its key is not in the record and the
    current URL is a string. *)
Definition freeze_original (field : string) (s : record * nat) : record * nat :=
  match s.1 !! (field ++ " (original)"), get s.1 field with
  | None, VStr url => (<[field ++ " (original)" := VStr url]> s.1, S s.2)
  | _, _ => s
  end.

(** The two frozen copies an element of the dataset holds. *)
Definition originals_of (v : value) : option value * option value :=
  match v with
  | VObj rec =>
      (rec !! "Employment Page URL (original)",
       rec !! "Application Form URL (original)")
  | _ => (None, None)
  end.

Section WithRuntime.
Context `{Runtime}.

(** [homepage_from_url(url)]; an exception of [urlparse] gives [None]. *)
Definition homepage_from_url (url : value) : option string :=
  match url with
  | VStr s =>
      if negb (PyStr.truthy (PyStr.strip s)) then None
      else match urlparse (PyStr.strip s) with
           | None => None
           | Some u =>
               if negb (PyStr.truthy (scheme u)) || negb (PyStr.truthy (netloc u))
               then None
               else Some (scheme u ++ "://" ++ netloc u ++ "/")
           end
  | _ => None
  end.

(** Lines 53-60: the homepage the record is given, if any. *)
Definition derive_home (rec : record) : option string :=
  let town_site := get rec "Town Website" in
  let home :=
    match town_site with
    | VStr _ => homepage_from_url town_site
    | _ => None
    end in
  if negb (PyStr.truthy_opt home)
  then PyStr.or_opt (homepage_from_url (get rec "Employment Page URL"))
                    (homepage_from_url (get rec "Application Form URL"))
  else home.

(** Lines 62-64. *)
Definition set_town_website (home : option string) (s : record * nat)
    : record * nat :=
  match home with
  | Some h =>
      if PyStr.truthy h && differs_from_str (get s.1 "Town Website") h
      then (<["Town Website" := VStr h]> s.1, S s.2)
      else s
  | None => s
  end.

(** Lines 52-73: the body of the loop for a record that is a [dict];
    the state is the record and the [changed] counter. *)
Definition migrate_record (s : record * nat) : record * nat :=
  let home := derive_home s.1 in
  freeze_original "Application Form URL"
    (freeze_original "Employment Page URL"
      (set_town_website home s)).

(** Lines 48-73: the loop over the dataset; an element that is not a
    [dict] is skipped. *)
Fixpoint migrate_all (data : list value) (changed : nat) : list value * nat :=
  match data with
  | [] => ([], changed)
  | VObj rec :: rest =>
      let '(rec', changed1) := migrate_record (rec, changed) in
      let '(rest', changed2) := migrate_all rest changed1 in
      (VObj rec' :: rest', changed2)
  | v :: rest =>
      let '(rest', changed') := migrate_all rest changed in
      (v :: rest', changed')
  end.

(** [main()], with [sys.argv] and the world it runs in. *)
Definition main (argv : list string) (w : IO.world) : IO.outcome * IO.world :=
  match argv with
  | [_; in_path; out_path] =>
      let '(r, w1) := IO.read_text in_path w in
      match r with
      | Raise e => (IO.Uncaught e, w1)
      | Ok text =>
          match json_loads text with
          | None => (IO.Uncaught JSONDecodeError, w1)
          | Some (VArr data) =>
              let '(data', changed) := migrate_all data O in
              let w2 := IO.write_text out_path (json_dumps (VArr data')) w1 in
              (IO.Returned 0,
               IO.print ("Done. Wrote " ++ out_path ++ ". Records updated: "
                         ++ pretty changed) w2)
          | Some _ =>
              (IO.Uncaught
                 (ValueError "Expected input JSON to be a list (array) of objects."),
               w1)
          end
      end
  | _ =>
      (IO.Returned 2,
       IO.print "Usage: python migrate_schema.py <input.json> <output.json>" w)
  end.

End WithRuntime.

End MigrateSchema.

(** ** rediscover_employment_links.py

    The source holds the configuration of this script (its lines 48-81); the
    functions that use it are cut off.  They are modelled from section 4.1
    of the specification, over the configuration the source gives. *)

Module Rediscover.

Definition TIMEOUT_SECS : Z := 25.
Definition VERIFY_TLS : bool := true.

(** [None] and [-1] stand for an error or a status never set. *)
Definition REDISCOVER_IF_STATUS_IN : gset (option Z) :=
  {[ Some 404; Some 410; None; Some (-1) ]}.
Definition REDISCOVER_IF_SOFT404_TRUE : bool := true.

Definition DO_NOT_REWRITE_IF_STATUS_IN : gset Z := {[ 401; 403 ]}.

Definition COMMON_PATHS : list string :=
  [ "/employment";
    "/employment-opportunities";
    "/jobs";
    "/job-opportunities";
    "/careers";
    "/career-opportunities";
    "/human-resources";
    "/departments/human-resources";
    "/government/departments/human-resources" ].

(** Modelled from the spec: the [statusCode] metadata of the employment
    URL ("integer or absent"), read from the key the other scripts write;
    the reading function is in the missing part of the script. *)
Definition current_status (rec : record) : option Z :=
  match get rec "employment_url_status_code" with
  | VInt z => Some z
  | _ => None
  end.

(** Modelled from the spec: the [soft404] metadata ("boolean"); the
    reading function is in the missing part of the script. *)
Definition current_soft404 (rec : record) : bool :=
  match get rec "employment_url_soft404" with
  | VBool b => b
  | _ => false
  end.

(** Modelled from the spec: "a record whose employment URL is considered
    broken, defined by: current status code is one of {404, 410, absent,
    error-sentinel}, OR soft404 is true"; the test is in the missing part
    of the script. *)
Definition is_broken (rec : record) : bool :=
  bool_decide (current_status rec ∈ REDISCOVER_IF_STATUS_IN)
  || (REDISCOVER_IF_SOFT404_TRUE && current_soft404 rec).

(** Modelled from the spec: the result of the HTTP fetcher (section 6,
    "fetch(url, timeout) -> {statusCode, finalUrl, body, error}"). *)
Record fetched : Type := mkFetched {
  statusCode : option Z;
  finalUrl : option string;
  body : string;
  error : option string
}.

(** Modelled from the spec: a link of the HTML link extractor (section 6,
    "{href (absolute), text}"). *)
Record link : Type := mkLink {
  href : string;
  text : string
}.

(** Modelled from the spec: "one of three outcomes". *)
Inductive outcome : Type := changed | not_found | needs_review.

(** Modelled from the spec: one row of the report (section 6). *)
Record report_row : Type := mkReportRow {
  report_town : value;
  report_old_url : value;
  report_new_url : option string;
  report_outcome : outcome
}.

(** Modelled from the spec: the collaborators the specification leaves
    outside the engine (sections 1 and 6). *)
Record collaborators : Type := mkCollaborators {
  fetch : string -> fetched;
  flags_soft404 : fetched -> bool;
  extractLinks : string -> string -> list link;
  render_report : list report_row -> string
}.

(** Modelled from the spec: what section 9 leaves to the implementer, the
    score of a homepage link (keywords, same domain, depth, known
    vendors), the minimum score and the confidence of a rediscovery. *)
Record scoring : Type := mkScoring {
  score : string -> link -> Z;
  min_score : Z;
  rediscovered_confidence : Z
}.

(** Modelled from the spec: "reachable (status < 400)"; a fetch that
    errors is "not reachable". *)
Definition reachable (f : fetched) : bool :=
  match error f, statusCode f with
  | None, Some st => (st <? 400)%Z
  | _, _ => false
  end.

(** Modelled from the spec: "construct homepage + path"; the homepage
    ends with the slash the path starts with, as in the example of
    section 8. *)
Fixpoint join_home (home p : string) : string :=
  match home with
  | EmptyString => p
  | String "/" EmptyString => p
  | String a home' => String a (join_home home' p)
  end.

(** Modelled from the spec: "first-seen order in the document"; the links
    with their positions, counted from [k]. *)
Fixpoint enumerate (k : nat) (links : list link) : list (nat * link) :=
  match links with
  | [] => []
  | l :: rest => (k, l) :: enumerate (S k) rest
  end.

Section Engine.
Context `{Runtime}.
Variable web : collaborators.
Variable cfg : scoring.

(** Modelled from the spec: step 1: "scheme + host + "/", preferring a
    stored homepage field, else derived from the current employment or
    application URL". *)
Definition anchor (rec : record) : option string :=
  match MigrateSchema.homepage_from_url (get rec "Town Website") with
  | Some h => Some h
  | None =>
      match MigrateSchema.homepage_from_url (get rec "Employment Page URL") with
      | Some h => Some h
      | None => MigrateSchema.homepage_from_url (get rec "Application Form URL")
      end
  end.

(** Modelled from the spec: step 2: "accept the first response that is
    reachable (status < 400) and not flagged soft-404". *)
Fixpoint probe (home : string) (paths : list string) : option string :=
  match paths with
  | [] => None
  | p :: rest =>
      let f := fetch web (join_home home p) in
      if reachable f && negb (flags_soft404 web f)
      then Some (join_home home p)
      else probe home rest
  end.

(** Modelled from the spec: the path of a link's target, empty when the
    link cannot be parsed. *)
Definition link_path (l : link) : string :=
  match urlparse (href l) with
  | Some u => path u
  | None => EmptyString
  end.

(** Modelled from the spec: step 3: [a] ranks strictly before [b] when it
    has the higher score or, with equal scores, the shorter path. *)
Definition outranks (home : string) (a b : nat * link) : bool :=
  (score cfg home b.2 <? score cfg home a.2)%Z
  || ((score cfg home a.2 =? score cfg home b.2)%Z
      && (String.length (link_path a.2) <? String.length (link_path b.2))%nat).

(** Modelled from the spec: step 3: a link seen earlier in the document
    is put in front of every later link that does not outrank it. *)
Fixpoint insert_ranked (home : string) (c : nat * link)
    (ranked : list (nat * link)) : list (nat * link) :=
  match ranked with
  | [] => [c]
  | d :: rest =>
      if outranks home d c then d :: insert_ranked home c rest
      else c :: d :: rest
  end.

(** Modelled from the spec: step 3: "Rank candidates by score
    descending; tie-break by shorter path, then by first-seen order in
    the document".  Each link carries its position in the document. *)
Definition rank (home : string) (links : list link) : list (nat * link) :=
  foldr (insert_ranked home) [] (enumerate 0 links).

(** Modelled from the spec: step 3: "Select the top-scoring candidate";
    the candidate comes with its position. *)
Definition select_candidate (home : string) (links : list link)
    : option (nat * link) :=
  head (rank home links).

(** Modelled from the spec: step 3: "fetch the homepage, extract all
    links"; a fetch that fails yields no link. *)
Definition homepage_links (home : string) : list link :=
  let f := fetch web home in
  if reachable f then extractLinks web (body f) home else [].

(** Modelled from the spec: the rewrite of a rediscovery, the employment
    URL "with reason+confidence recorded". *)
Definition rewrite_employment (url : string) (rec : record) : record :=
  <["employment_url_confidence" := VInt (rediscovered_confidence cfg)]>
    (<["employment_url_change_reason" := VStr "rediscovered"]>
      (<["Employment Page URL" := VStr url]> rec)).

(** Modelled from the spec: "Status codes 401/403 are explicitly exempt
    from triggering rewrites"; a candidate found for such a record is
    left for review. *)
Definition accept (url : string) (rec : record) : record * option outcome :=
  match current_status rec with
  | Some st =>
      if bool_decide (st ∈ DO_NOT_REWRITE_IF_STATUS_IN)
      then (rec, Some needs_review)
      else (rewrite_employment url rec, Some changed)
  | None => (rewrite_employment url rec, Some changed)
  end.

(** Modelled from the spec: steps 1-3 and "Output per record"; [None] is
    a record the engine does not process.  Step 5, which the
    specification calls optional, is left out; the vendor rule of step 4
    is part of [score]. *)
Definition rediscover_record (rec : record) : record * option outcome :=
  if negb (is_broken rec) then (rec, None)
  else
    match anchor rec with
    | None => (rec, Some not_found)
    | Some home =>
        match probe home COMMON_PATHS with
        | Some url => accept url rec
        | None =>
            match select_candidate home (homepage_links home) with
            | None => (rec, Some not_found)
            | Some (_, l) =>
                if (min_score cfg <? score cfg home l)%Z
                then accept (href l) rec
                else (rec, Some needs_review)
            end
        end
    end.

(** Modelled from the spec: the row the report gets for a processed
    record. *)
Definition report_of (rec rec' : record) (o : outcome) : report_row :=
  mkReportRow (get rec "Town") (get rec "Employment Page URL")
    (match o, get rec' "Employment Page URL" with
     | changed, VStr u => Some u
     | _, _ => None
     end) o.

(** Modelled from the spec: the loop over the dataset; every record that
    is a [dict] goes through the engine. *)
Fixpoint rediscover_all (data : list value) : list value * list report_row :=
  match data with
  | [] => ([], [])
  | VObj rec :: rest =>
      let '(rec', o) := rediscover_record rec in
      let '(rest', rows) := rediscover_all rest in
      (VObj rec' :: rest',
       match o with
       | Some o' => report_of rec rec' o' :: rows
       | None => rows
       end)
  | v :: rest =>
      let '(rest', rows) := rediscover_all rest in
      (v :: rest', rows)
  end.

(** Modelled from the spec: section 6, "CLI surface": the arguments are
    the input dataset, the output dataset and the report; "exit code 0
    on success, non-zero on malformed input (e.g., dataset is not a
    list) or missing required CLI arguments", the latter with the code 2
    of the two other scripts; section 7: a malformed input "aborts with
    a non-zero exit and no partial output written". *)
Definition main (argv : list string) (w : IO.world) : IO.outcome * IO.world :=
  match argv with
  | [_; json_in; json_out; report_out] =>
      let '(r, w1) := IO.read_text json_in w in
      match r with
      | Raise e => (IO.Uncaught e, w1)
      | Ok text =>
          match json_loads text with
          | None => (IO.Uncaught JSONDecodeError, w1)
          | Some (VArr data) =>
              let '(data', rows) := rediscover_all data in
              let w2 := IO.write_text json_out (json_dumps (VArr data')) w1 in
              let w3 := IO.write_text report_out (render_report web rows) w2 in
              (IO.Returned 0, w3)
          | Some _ =>
              (IO.Uncaught (ValueError "Expected JSON to be a list (array) of objects."),
               w1)
          end
      end
  | _ => (IO.Returned 2, w)
  end.

End Engine.

End Rediscover.

(** ** An executable instance of the Python library

    [urlparse] follows [urllib.parse.urlsplit] and [urlparse] of CPython 3.12
    on one-byte strings, without the checks of a bracketed host beyond the
    pairing of the brackets.  [int_of_float] reads plain decimal literals
    (an optional sign, digits, an optional fraction) and fails on anything
    else; it agrees with Python on such a literal while a float holds the
    integer part exactly.  The JSON decoder reads the empty list and the empty object, the
    CSV reader unquoted comma-separated lines.  The instance serves to run
    the scripts on concrete inputs; no general theorem depends on it. *)

Module RefRuntime.

Definition is_alpha (a : ascii) : bool :=
  let n := N_of_ascii a in
  ((65 <=? n) && (n <=? 90) || (97 <=? n) && (n <=? 122))%N.

Definition is_scheme_char (a : ascii) : bool :=
  is_alpha a || PyStr.is_digit a
  || Ascii.eqb a "+" || Ascii.eqb a "-" || Ascii.eqb a ".".

(** The part of [s] before the first character satisfying [p], and the
    part from that character on, if there is one. *)
Fixpoint break_at (p : ascii -> bool) (s : string) : string * option string :=
  match s with
  | EmptyString => (EmptyString, None)
  | String a s' =>
      if p a then (EmptyString, Some s)
      else let '(pre, post) := break_at p s' in (String a pre, post)
  end.

Fixpoint lstrip_c0 (s : string) : string :=
  match s with
  | EmptyString => EmptyString
  | String a s' => if (N_of_ascii a <=? 32)%N then lstrip_c0 s' else s
  end.

(** Tab, line feed and carriage return are removed from a URL. *)
Fixpoint remove_unsafe (s : string) : string :=
  match s with
  | EmptyString => EmptyString
  | String a s' =>
      let n := N_of_ascii a in
      if ((n =? 9) || (n =? 10) || (n =? 13))%N then remove_unsafe s'
      else String a (remove_unsafe s')
  end.

Definition split_scheme (url : string) : string * string :=
  match break_at (Ascii.eqb ":") url with
  | (String a pre, Some (String _ rest)) =>
      if is_alpha a && PyStr.all_chars is_scheme_char (String a pre)
      then (PyStr.lower (String a pre), rest)
      else (EmptyString, url)
  | _ => (EmptyString, url)
  end.

Definition is_netloc_end (a : ascii) : bool :=
  Ascii.eqb a "/" || Ascii.eqb a "?" || Ascii.eqb a "#".

(** The network location after a leading double slash and the rest;
    [None] for a host with an unpaired bracket. *)
Definition split_netloc (url : string) : option (string * string) :=
  match url with
  | String "/" (String "/" r) =>
      let '(nl, rest) := break_at is_netloc_end r in
      if xorb (PyStr.any_char (Ascii.eqb "[") nl) (PyStr.any_char (Ascii.eqb "]") nl)
      then None
      else Some (nl, default EmptyString rest)
  | _ => Some (EmptyString, url)
  end.

Definition uses_params : list string :=
  [ EmptyString; "ftp"; "hdl"; "prospero"; "http"; "imap"; "https"; "shttp";
    "rtsp"; "rtspu"; "sip"; "sips"; "mms"; "sftp"; "tel" ].

(** The path without the parameters of its last segment. *)
Fixpoint split_params (s : string) : string :=
  match s with
  | EmptyString => EmptyString
  | String a s' =>
      if PyStr.any_char (Ascii.eqb "/") s' then String a (split_params s')
      else if Ascii.eqb a "/" then String a (break_at (Ascii.eqb ";") s').1
      else (break_at (Ascii.eqb ";") s).1
  end.

Definition ref_urlparse (url : string) : option ParseResult :=
  let '(sch, url1) := split_scheme (remove_unsafe (lstrip_c0 url)) in
  match split_netloc url1 with
  | None => None
  | Some (nl, url2) =>
      let url3 := (break_at (Ascii.eqb "#") url2).1 in
      let url4 := (break_at (Ascii.eqb "?") url3).1 in
      let p := if bool_decide (sch ∈ uses_params) then split_params url4 else url4 in
      Some (mkParse sch nl p)
  end.

Fixpoint digits_value (s : string) (acc : Z) : Z :=
  match s with
  | EmptyString => acc
  | String a s' => digits_value s' (10 * acc + (Z.of_N (N_of_ascii a) - 48))
  end.

(** The integer part of an unsigned decimal literal. *)
Definition unsigned_decimal (s : string) : option Z :=
  let '(int_part, frac) := break_at (Ascii.eqb ".") s in
  let frac_digits :=
    match frac with
    | Some (String _ f) => f
    | _ => EmptyString
    end in
  if PyStr.all_chars PyStr.is_digit int_part && PyStr.all_chars PyStr.is_digit frac_digits
     && negb (String.eqb (int_part ++ frac_digits) EmptyString)
  then Some (digits_value int_part 0)
  else None.

Definition ref_int_of_float (s : string) : option Z :=
  match PyStr.strip s with
  | String "-" s' => Z.opp <$> unsigned_decimal s'
  | String "+" s' => unsigned_decimal s'
  | s' => unsigned_decimal s'
  end.

Definition ref_json_loads (text : string) : option value :=
  if String.eqb (PyStr.strip text) "[]" then Some (VArr [])
  else if String.eqb (PyStr.strip text) "{}" then Some (VObj ∅)
  else None.

Definition ref_json_dumps (v : value) : string :=
  match v with
  | VArr [] => "[]"
  | VArr _ => "[...]"
  | VObj _ => "{...}"
  | VNone => "null"
  | VBool true => "true"
  | VBool false => "false"
  | VInt z => pretty z
  | VFloat l => l
  | VStr s => s
  end.

(** The pieces of [s] between the occurrences of [sep]. *)
Fixpoint split_on (sep : ascii) (s : string) : list string :=
  match s with
  | EmptyString => [EmptyString]
  | String a s' =>
      if Ascii.eqb a sep then EmptyString :: split_on sep s'
      else match split_on sep s' with
           | piece :: pieces => String a piece :: pieces
           | [] => [String a EmptyString]
           end
  end.

Definition ref_csv_rows (text : string) : list csvrow :=
  match filter (fun l => l <> EmptyString) (split_on "010" text) with
  | [] => []
  | header :: lines =>
      let names := split_on "," header in
      (fun l => list_to_map (zip names (split_on "," l))) <$> lines
  end.

#[export] Instance runtime : Runtime := {|
  urlparse := ref_urlparse;
  int_of_float := ref_int_of_float;
  json_loads := ref_json_loads;
  json_dumps := ref_json_dumps;
  csv_rows := ref_csv_rows;
  now_isoformat := fun _ => "2026-01-01T00:00:00"
|}.

End RefRuntime.

(** ** Sample data *)

Module Example.

Definition checked_at : string := "2026-01-05T09:30:00".

(** A record with a legacy employment URL. *)
Definition ashford : record :=
  <["Town" := VStr "Ashford"]>
    (<["Town Website" := VStr "http://ashford.gov/"]>
      (<["Employment Page URL" := VStr "http://ashford.gov/home/pages/jobs"]> ∅)).

(** A record whose Town Website is a deep path without a scheme and that
    has no URL to derive a homepage from. *)
Definition bolton : record :=
  <["Town" := VStr "Bolton"]>
    (<["Town Website" := VStr "www.bolton.gov/departments/hr"]> ∅).

(** A record with a frozen employment URL and a healthy status. *)
Definition canton : record :=
  <["Town" := VStr "Canton"]>
    (<["Employment Page URL" := VStr "https://canton.gov/jobs"]>
      (<["Employment Page URL (original)" := VStr "https://canton.gov/old-jobs"]>
        (<["employment_url_status_code" := VInt 200]>
          (<["employment_url_soft404" := VBool false]> ∅)))).

(** A row of the report of URL checks, about the employment page. *)
Definition row (town status final_url : string) : csvrow :=
  list_to_map
    [ ("Town", town); ("Field", "Employment Page URL");
      ("Status", status); ("Final URL", final_url);
      ("checked_at_utc", checked_at); ("Soft404", "False") ].

(** A redirect to the same path on another host. *)
Definition row_redirect : csvrow :=
  row "Ashford" "200" "https://www.ashford.gov/home/pages/jobs".

(** A redirect to a CivicPlus page-id path. *)
Definition row_pageid : csvrow :=
  row "Ashford" "200.0" "http://ashford.gov/354/Employment-Opportunities".

(** A bot-blocked check. *)
Definition row_blocked : csvrow :=
  row "Ashford" "403" "https://www.ashford.gov/home/pages/jobs".

(** A check without a usable status. *)
Definition row_unparsed : csvrow :=
  row "Ashford" "n/a" "https://www.ashford.gov/home/pages/jobs".

(** A check of a town that has no employment URL. *)
Definition row_bolton : csvrow :=
  row "Bolton" "404" "https://www.bolton.gov/".

(** The record [rec] at line 139 for a row [row town status final_url]
    whose status parses to [st]; the Town Website of the sample records
    is left as it is. *)
Definition prepared (st : option Z) (final_url : string) (rec : record) : record :=
  ApplyUrlCheckSummary.stamp_metadata "employment" st (Some final_url)
    checked_at false None rec.

(** A dataset and a report of URL checks: a redirect of Ashford to a
    page-id path, a dead link of Bolton, and a town the dataset lacks. *)
Definition dataset : list value := [VObj ashford; VObj bolton; VObj canton].

Definition nl : string := String "010" EmptyString.

Definition checks_csv : string :=
  "Town,Field,Status,Final URL,Soft404,checked_at_utc" ++ nl
  ++ "Ashford,Employment Page URL,200,http://ashford.gov/354/Employment-Opportunities,False,2026-01-05T09:30:00" ++ nl
  ++ "Bolton,Employment Page URL,404,,False,2026-01-05T09:30:00" ++ nl
  ++ "Dover,Employment Page URL,200,http://dover.gov/jobs,False,2026-01-05T09:30:00" ++ nl.

(** What a run leaves in the [i]-th record: the employment URL, its change
    reason, its status code and the Town Website. *)
Definition digest (data : list value) (i : nat) : list (option value) :=
  match data !! i with
  | Some (VObj rec) =>
      [ rec !! "Employment Page URL"; rec !! "employment_url_change_reason";
        rec !! "employment_url_status_code"; rec !! "Town Website" ]
  | _ => []
  end.

(** Two homepage links with the same score. *)
Definition link_long : Rediscover.link :=
  Rediscover.mkLink "http://ashford.gov/departments/human-resources" "Human Resources".
Definition link_short : Rediscover.link :=
  Rediscover.mkLink "http://ashford.gov/jobs" "Jobs".

(** A scoring that gives every link the score 10. *)
Definition flat_scoring : Rediscover.scoring :=
  Rediscover.mkScoring (fun _ _ => 10) 5 60.

(** A web in which nothing can be fetched. *)
Definition dead_web : Rediscover.collaborators :=
  Rediscover.mkCollaborators
    (fun _ => Rediscover.mkFetched None None EmptyString (Some "timeout"))
    (fun _ => false) (fun _ _ => []) (fun _ => "town,old,new,outcome").

(** A file system with an empty dataset, a dataset that is no list and an
    empty report of URL checks. *)
Definition disk : IO.world :=
  IO.mkWorld
    (<["towns.json" := "[]"]>
      (<["object.json" := "{}"]>
        (<["checks.csv" := "Town,Field,Status"]> ∅)))
    [] [] [].

End Example.

(** ** The properties the specification states *)

Module Spec.

(** "a path beginning with /<2-to-6-digit-number>/<segment>" *)
Definition pageid_pattern (p : string) : Prop :=
  exists (ds : string) (c : ascii) (rest : string),
    p = String "/" (ds ++ String "/" (String c rest))
    /\ PyStr.all_chars PyStr.is_digit ds = true
    /\ (2 <= String.length ds <= 6)%nat
    /\ c <> "/"%char.

(** The number of characters of [s] that satisfy [p]. *)
Fixpoint count_chars (p : ascii -> bool) (s : string) : nat :=
  match s with
  | EmptyString => O
  | String a s' => ((if p a then 1 else 0) + count_chars p s')%nat
  end.

(** "a bare homepage (scheme + host + trailing slash), never a deep
    path": a scheme that holds no colon and no slash, then [://], then a
    host that holds no slash (and no [?] or [#]), then one slash, which is
    the last character. *)
Definition bare_homepage (v : value) : Prop :=
  exists sch host : string,
    sch <> EmptyString /\ host <> EmptyString
    /\ PyStr.any_char scheme_delimiter sch = false
    /\ PyStr.any_char netloc_delimiter host = false
    /\ v = VStr (sch ++ "://" ++ host ++ "/").

Section WithRuntime.
Context `{Runtime}.

(** The path of the URL [u] matches the CivicPlus page-id pattern. *)
Definition has_pageid_path (u : string) : Prop :=
  exists r : ParseResult, urlparse u = Some r /\ pageid_pattern (path r).

(** The conditions under which the redirect rule rewrites the URL field
    [field] of [rec] for a row with the given final URL, status and
    soft-404 flag. *)
Definition redirect_conditions (field : string) (rec : record)
    (final_url : option string) (status : option Z) (soft404 : bool)
    (cur fin : string) : Prop :=
  rec !! field = Some (VStr cur)
  /\ final_url = Some fin /\ fin <> EmptyString
  /\ (exists st : Z, status = Some st /\ (st < 400)%Z /\ st <> 401%Z /\ st <> 403%Z)
  /\ soft404 = false
  /\ fin <> cur.

(** "missing required CLI arguments": with another number of arguments
    than [n] (the program name included) [main] returns 2, a non-zero
    exit status, and has opened no file. *)
Definition usage_exit (main : list string -> IO.world -> IO.outcome * IO.world)
    (n : nat) : Prop :=
  forall (argv : list string) (w : IO.world),
    length argv <> n ->
    exists w' : IO.world,
      main argv w = (IO.Returned 2, w')
      /\ IO.exit_status (IO.Returned 2) <> 0%Z
      /\ IO.files w' = IO.files w
      /\ IO.reads w' = IO.reads w
      /\ IO.writes w' = IO.writes w.

(** "dataset is not a list": when the input file decodes to a JSON value
    that is no list, an exception leaves [main], the exit status is not
    zero and no file has been written. *)
Definition malformed_abort (main : list string -> IO.world -> IO.outcome * IO.world)
    (n : nat) : Prop :=
  forall (argv : list string) (w : IO.world) (in_path text : string) (v : value),
    length argv = n ->
    argv !! 1%nat = Some in_path ->
    IO.files w !! in_path = Some text ->
    json_loads text = Some v ->
    (forall items, v <> VArr items) ->
    exists (e : exn) (w' : IO.world),
      main argv w = (IO.Uncaught e, w')
      /\ IO.exit_status (IO.Uncaught e) <> 0%Z
      /\ IO.files w' = IO.files w
      /\ IO.writes w' = IO.writes w.

(** A healthy employment URL: the status code is none of 404, 410,
    absent and the error sentinel -1, and the soft-404 flag is false. *)
Definition healthy (rec : record) : Prop :=
  (exists st : Z, Rediscover.current_status rec = Some st
                  /\ st <> 404%Z /\ st <> 410%Z /\ st <> (-1)%Z)
  /\ Rediscover.current_soft404 rec = false.

End WithRuntime.

End Spec.

(** ** The keys the scripts assign, and more sample data *)

Module Frame.

(** The keys lines 62-73 of [migrate_schema.py] assign. *)
Definition migrate_keys : list string :=
  [ "Town Website"; "Employment Page URL (original)";
    "Application Form URL (original)" ].

(** The keys lines 123-160 of [apply_url_check_summary.py] assign for a row
    about the URL field [field]. *)
Definition row_keys (field prefix : string) : list string :=
  [ "Town Website"; field;
    prefix ++ "_url_status_code"; prefix ++ "_url_final";
    prefix ++ "_url_last_checked_at"; prefix ++ "_url_soft404";
    prefix ++ "_url_error";
    prefix ++ "_url_change_reason"; prefix ++ "_url_confidence" ].

Section WithRuntime.
Context `{Runtime}.

(** What the loop of [migrate_schema.py] makes of one element of the
    dataset, whatever the counter is. *)
Definition migrate_value (v : value) : value :=
  match v with
  | VObj rec => VObj (MigrateSchema.migrate_record (rec, O)).1
  | _ => v
  end.

(** The state the body of the loop of [apply_url_check_summary.py] ends in
    when its lines 111-136 left [rec2]. *)
Definition after_rules (field prefix : string) (row : csvrow) (rec2 : record)
    (u : nat) : record * nat :=
  ApplyUrlCheckSummary.canonicalize field prefix
    (ApplyUrlCheckSummary.row_final_url row) (ApplyUrlCheckSummary.row_status row)
    (ApplyUrlCheckSummary.row_soft404 row) (rec2, u).

End WithRuntime.

(** A record whose Town Website has an unpaired bracket. *)
Definition egremont : record :=
  <["Town" := VStr "Egremont"]>
    (<["Town Website" := VStr "http://[::1"]>
      (<["Employment Page URL" := VStr "http://egremont.gov/jobs"]> ∅)).

(** A check of Egremont. *)
Definition row_egremont : csvrow :=
  Example.row "Egremont" "200" "http://egremont.gov/jobs".

(** A dead link and a soft 404. *)
Definition row_dead : csvrow :=
  Example.row "Ashford" "404" "https://www.ashford.gov/home/pages/jobs".

(** A dataset with two records of the same town. *)
Definition twins : list value :=
  [VObj Example.ashford; VObj Example.bolton; VObj Example.ashford].

(** The reference library with a dataset and a report of URL checks given
    as decoded: whatever the files hold, the dataset is [data] and the rows
    are [rows]. *)
Definition canned (data : list value) (rows : list csvrow) : Runtime := {|
  urlparse := RefRuntime.ref_urlparse;
  int_of_float := RefRuntime.ref_int_of_float;
  json_loads := fun _ => Some (VArr data);
  json_dumps := RefRuntime.ref_json_dumps;
  csv_rows := fun _ => rows;
  now_isoformat := fun _ => Example.checked_at
|}.

(** A file system with a dataset and a report of URL checks. *)
Definition desk : IO.world :=
  IO.mkWorld (<["towns.json" := "(dataset)"]> (<["checks.csv" := "(rows)"]> ∅))
    [] [] [].

End Frame.

(** * Proofs *)

(** ** Strings and keys *)

Lemma truthy_true (s : string) : PyStr.truthy s = true <-> s <> EmptyString.
Proof.
  unfold PyStr.truthy. destruct (String.eqb_spec s EmptyString); simpl; split; congruence.
Qed.

Lemma truthy_false (s : string) : PyStr.truthy s = false <-> s = EmptyString.
Proof.
  unfold PyStr.truthy. destruct (String.eqb_spec s EmptyString); simpl; split; congruence.
Qed.

Lemma or_none_Some (s t : string) : PyStr.or_none s = Some t -> t = s /\ t <> EmptyString.
Proof.
  unfold PyStr.or_none. destruct (PyStr.truthy s) eqn:E; [|discriminate].
  intros [= <-]. split; [done|]. by apply truthy_true.
Qed.

Lemma get_lookup (rec : gmap string value) (k : string) (v : value) :
  rec !! k = Some v -> get rec k = v.
Proof. unfold get. by intros ->. Qed.

Lemma get_VStr (rec : gmap string value) (k s : string) :
  get rec k = VStr s <-> rec !! k = Some (VStr s).
Proof.
  unfold get. destruct (rec !! k) as [v|]; simpl; split; intros; simplify_eq; done.
Qed.

(** ** The CivicPlus page-id pattern *)

Section PageId.
Import ApplyUrlCheckSummary.

Lemma span_digits_split (s : string) :
  exists ds : string,
    s = ds ++ (span_digits s).2
    /\ PyStr.all_chars PyStr.is_digit ds = true
    /\ String.length ds = (span_digits s).1.
Proof.
  induction s as [|a s (ds & Hs & Hd & Hl)]; simpl.
  - by exists EmptyString.
  - destruct (PyStr.is_digit a) eqn:Ea.
    + destruct (span_digits s) as [n r]. simpl in *.
      exists (String a ds). simpl. rewrite Ea, Hd, Hl. by rewrite Hs at 1.
    + by exists EmptyString.
Qed.

Lemma span_digits_run (ds r : string) :
  PyStr.all_chars PyStr.is_digit ds = true ->
  match r with
  | EmptyString => True
  | String a _ => PyStr.is_digit a = false
  end ->
  span_digits (ds ++ r) = (String.length ds, r).
Proof.
  intros Hd Hr. induction ds as [|a ds IH]; simpl in *.
  - destruct r as [|a r]; [done|]. simpl. by rewrite Hr.
  - apply andb_prop in Hd as [Ha Hd]. rewrite Ha, (IH Hd). done.
Qed.

(** The matcher of the source accepts exactly the paths the
    specification describes. *)
Lemma CIVICPLUS_PAGEID_RE_match_spec (p : string) :
  CIVICPLUS_PAGEID_RE_match p = true <-> Spec.pageid_pattern p.
Proof.
  unfold CIVICPLUS_PAGEID_RE_match, Spec.pageid_pattern. split.
  - destruct p as [|a s]; [discriminate|].
    destruct (span_digits_split s) as (ds & Hs & Hd & Hl).
    destruct (span_digits s) as [n r]. simpl in *.
    intros Hm. repeat (apply andb_prop in Hm as [Hm ?]).
    destruct r as [|b [|c rest]]; try discriminate.
    repeat match goal with
           | Hb : _ && _ = true |- _ => apply andb_prop in Hb as [? ?]
           end.
    exists ds, c, rest.
    assert (a = "/"%char) as -> by by apply Ascii.eqb_eq.
    assert (b = "/"%char) as -> by by apply Ascii.eqb_eq.
    repeat split; try done.
    + by rewrite Hs.
    + rewrite Hl. by apply Nat.leb_le.
    + rewrite Hl. by apply Nat.leb_le.
    + intros ->. discriminate.
  - intros (ds & c & rest & -> & Hd & [Hlo Hhi] & Hc).
    rewrite (span_digits_run ds (String "/" (String c rest)) Hd) by done.
    rewrite (proj2 (Nat.leb_le _ _) Hlo), (proj2 (Nat.leb_le _ _) Hhi). simpl.
    by rewrite (proj2 (Ascii.eqb_neq c "/")).
Qed.

End PageId.

Section ApplyFacts.
Context `{Runtime}.
Import ApplyUrlCheckSummary.

Lemma field_to_prefix_Some (field prefix : string) :
  field_to_prefix field = Some prefix ->
  (field = "Employment Page URL" /\ prefix = "employment")
  \/ (field = "Application Form URL" /\ prefix = "application").
Proof.
  unfold field_to_prefix.
  destruct (String.eqb_spec field "Employment Page URL"); [intros [= <-]; auto|].
  destruct (String.eqb_spec field "Application Form URL"); [intros [= <-]; auto|].
  discriminate.
Qed.

Lemma do_not_rewrite_iff (st : Z) :
  st ∈ DO_NOT_REWRITE_STATUSES <-> st = 401 \/ st = 403.
Proof.
  unfold DO_NOT_REWRITE_STATUSES. by rewrite elem_of_union, !elem_of_singleton.
Qed.

Lemma rewrite_branch_Some cur_url final_url status soft404 cur fin st :
  rewrite_branch cur_url final_url status soft404 = Some (cur, fin, st) <->
  cur_url = VStr cur /\ final_url = Some fin /\ fin <> EmptyString
  /\ status = Some st /\ st <> 401 /\ st <> 403 /\ soft404 = false.
Proof.
  unfold rewrite_branch. split.
  - destruct cur_url; try discriminate.
    destruct final_url as [f|]; [|discriminate].
    destruct status as [z|]; [|discriminate].
    destruct (PyStr.truthy f) eqn:Ef; [|discriminate].
    case_bool_decide as Hin; [discriminate|].
    destruct soft404; [discriminate|]. intros [= ? ? ?]; subst.
    apply truthy_true in Ef. rewrite do_not_rewrite_iff in Hin. tauto.
  - intros (-> & -> & Hf & -> & H1 & H3 & ->).
    apply truthy_true in Hf. rewrite Hf.
    rewrite bool_decide_eq_false_2; [done|]. rewrite do_not_rewrite_iff. tauto.
Qed.

Lemma stamp_metadata_lookup_other prefix status final_url checked_at soft404 err
    (rec : gmap string value) (k : string) :
  k <> prefix ++ "_url_status_code" -> k <> prefix ++ "_url_final" ->
  k <> prefix ++ "_url_last_checked_at" -> k <> prefix ++ "_url_soft404" ->
  k <> prefix ++ "_url_error" ->
  stamp_metadata prefix status final_url checked_at soft404 err rec !! k = rec !! k.
Proof.
  intros. unfold stamp_metadata. by rewrite !lookup_insert_ne.
Qed.

Lemma ensure_town_website_Ok field (rec rec2 : gmap string value) :
  ensure_town_website field rec = Ok rec2 ->
  rec2 = rec \/ exists v : value, rec2 = <["Town Website" := v]> rec.
Proof.
  unfold ensure_town_website, mbind, result_bind, rbind. intros Hok.
  repeat case_match; simplify_eq; eauto.
Qed.

Lemma ensure_town_website_lookup_other field (rec rec2 : gmap string value) (k : string) :
  ensure_town_website field rec = Ok rec2 -> k <> "Town Website" ->
  rec2 !! k = rec !! k.
Proof.
  intros [->|[v ->]]%ensure_town_website_Ok Hk; [done|].
  by rewrite lookup_insert_ne.
Qed.

(** What lines 111-136 leave untouched. *)
Lemma row_prepare_lookup_other now field prefix row (rec rec2 : gmap string value) k :
  row_prepare now field prefix row rec = Ok rec2 ->
  k <> "Town Website" ->
  k <> prefix ++ "_url_status_code" -> k <> prefix ++ "_url_final" ->
  k <> prefix ++ "_url_last_checked_at" -> k <> prefix ++ "_url_soft404" ->
  k <> prefix ++ "_url_error" ->
  rec2 !! k = rec !! k.
Proof.
  unfold row_prepare. intros Hok **.
  rewrite (ensure_town_website_lookup_other _ _ _ _ Hok) by done.
  by apply stamp_metadata_lookup_other.
Qed.

(** The URL field, its change reason and its confidence at line 139. *)
Lemma row_prepare_canonical now field prefix row (rec rec2 : gmap string value) :
  field_to_prefix field = Some prefix ->
  row_prepare now field prefix row rec = Ok rec2 ->
  rec2 !! field = rec !! field
  /\ rec2 !! (prefix ++ "_url_change_reason") = rec !! (prefix ++ "_url_change_reason")
  /\ rec2 !! (prefix ++ "_url_confidence") = rec !! (prefix ++ "_url_confidence").
Proof.
  intros Hp Hok.
  destruct (field_to_prefix_Some _ _ Hp) as [[-> ->]|[-> ->]];
    repeat split; by apply (row_prepare_lookup_other _ _ _ _ _ _ _ Hok).
Qed.

(** The metadata at line 139. *)
Lemma row_prepare_stamps now field prefix row (rec rec2 : gmap string value) :
  field_to_prefix field = Some prefix ->
  row_prepare now field prefix row rec = Ok rec2 ->
  rec2 !! (prefix ++ "_url_status_code") = Some (of_opt_int (row_status row))
  /\ rec2 !! (prefix ++ "_url_final") = Some (of_opt_str (row_final_url row))
  /\ rec2 !! (prefix ++ "_url_last_checked_at") = Some (VStr (row_checked_at row now))
  /\ rec2 !! (prefix ++ "_url_soft404") = Some (VBool (row_soft404 row))
  /\ rec2 !! (prefix ++ "_url_error") = Some (of_opt_str (row_error row)).
Proof.
  intros Hp Hok. unfold row_prepare in Hok.
  destruct (field_to_prefix_Some _ _ Hp) as [[-> ->]|[-> ->]];
    repeat split;
    rewrite (ensure_town_website_lookup_other _ _ _ _ Hok) by done;
    unfold stamp_metadata; by simplify_map_eq.
Qed.

Lemma redirect_rule_lookup_other field prefix cur fin st (s : gmap string value * nat) k :
  k <> field -> k <> prefix ++ "_url_change_reason" ->
  k <> prefix ++ "_url_confidence" ->
  (redirect_rule field prefix cur fin st s).1 !! k = s.1 !! k.
Proof.
  intros. unfold redirect_rule.
  destruct (_ && _); [|done]. simpl. by rewrite !lookup_insert_ne.
Qed.

Lemma civicplus_rule_lookup_other field prefix cur fin st (s : gmap string value * nat) k :
  k <> field -> k <> prefix ++ "_url_change_reason" ->
  k <> prefix ++ "_url_confidence" ->
  (civicplus_rule field prefix cur fin st s).1 !! k = s.1 !! k.
Proof.
  intros. unfold civicplus_rule.
  destruct (_ && _ && _); [|done]. destruct (_ && _); [|done].
  simpl. by rewrite !lookup_insert_ne.
Qed.

(** The two rules write the URL field, its reason and its confidence only. *)
Lemma canonicalize_lookup_other field prefix final_url status soft404
    (s : gmap string value * nat) k :
  k <> field -> k <> prefix ++ "_url_change_reason" ->
  k <> prefix ++ "_url_confidence" ->
  (canonicalize field prefix final_url status soft404 s).1 !! k = s.1 !! k.
Proof.
  intros. unfold canonicalize.
  destruct (rewrite_branch _ _ _ _) as [[[cur fin] st]|]; [|done].
  rewrite civicplus_rule_lookup_other by done.
  by apply redirect_rule_lookup_other.
Qed.

Lemma canonicalize_phases field prefix final_url status soft404
    (s : gmap string value * nat) :
  canonicalize field prefix final_url status soft404 s
  = civicplus_phase field prefix (get s.1 field) final_url status soft404
      (redirect_phase field prefix final_url status soft404 s).
Proof.
  unfold canonicalize, civicplus_phase, redirect_phase.
  by destruct (rewrite_branch _ _ _ _) as [[[cur fin] st]|].
Qed.

(** The preparation is the Town Website step of the record followed by the
    stamping of the row's metadata: it completes exactly when [homepage]
    does not raise on the record, whatever the row holds. *)
Lemma row_prepare_ensure now field prefix row (rec : gmap string value) :
  field_to_prefix field = Some prefix ->
  row_prepare now field prefix row rec
  = (rtw ← ensure_town_website field rec;
     Ok (stamp_metadata prefix (row_status row) (row_final_url row)
           (row_checked_at row now) (row_soft404 row) (row_error row) rtw)).
Proof.
  intros Hp. unfold row_prepare, ensure_town_website.
  assert (Hget : forall k, k = "Town Website" \/ k = field ->
            get (stamp_metadata prefix (row_status row) (row_final_url row)
                   (row_checked_at row now) (row_soft404 row) (row_error row) rec) k
            = get rec k).
  { intros k Hk. unfold get.
    destruct (field_to_prefix_Some _ _ Hp) as [[-> ->]|[-> ->]];
      destruct Hk as [-> | ->]; by rewrite stamp_metadata_lookup_other. }
  rewrite !Hget by auto.
  assert (Hcomm : forall v : value,
            <["Town Website" := v]>
              (stamp_metadata prefix (row_status row) (row_final_url row)
                 (row_checked_at row now) (row_soft404 row) (row_error row) rec)
            = stamp_metadata prefix (row_status row) (row_final_url row)
                (row_checked_at row now) (row_soft404 row) (row_error row)
                (<["Town Website" := v]> rec)).
  { intros v. unfold stamp_metadata.
    destruct (field_to_prefix_Some _ _ Hp) as [[_ ->]|[_ ->]];
      by rewrite !(insert_insert_ne _ "Town Website"). }
  unfold mbind, result_bind, rbind.
  repeat case_match; simplify_eq; try done; by rewrite Hcomm.
Qed.

(** The body of the loop is the preparation followed by the two phases. *)
Lemma row_body_phases now field prefix row (rec rec2 : gmap string value) (u : nat) :
  row_prepare now field prefix row rec = Ok rec2 ->
  row_body now field prefix row (rec, u)
  = Ok (civicplus_phase field prefix (get rec2 field) (row_final_url row)
          (row_status row) (row_soft404 row)
          (redirect_phase field prefix (row_final_url row) (row_status row)
             (row_soft404 row) (rec2, u))).
Proof.
  intros Hok. unfold row_body. simpl. rewrite Hok. simpl.
  by rewrite canonicalize_phases.
Qed.

(** The body of the loop raises exactly when the preparation does. *)
Lemma row_body_raise now field prefix row (s : gmap string value * nat) e :
  row_body now field prefix row s = Raise e
  <-> row_prepare now field prefix row s.1 = Raise e.
Proof.
  unfold row_body. destruct (row_prepare _ _ _ _ _); simpl; split; congruence.
Qed.

(** The rewrite both rules perform, with the reason of the rule. *)
Lemma rewritten_lookups field prefix fin reason (rec : gmap string value) :
  field_to_prefix field = Some prefix ->
  let rec' := <[prefix ++ "_url_confidence" := VInt 95]>
                (<[prefix ++ "_url_change_reason" := VStr reason]>
                  (<[field := VStr fin]> rec)) in
  rec' !! field = Some (VStr fin)
  /\ rec' !! (prefix ++ "_url_change_reason") = Some (VStr reason)
  /\ rec' !! (prefix ++ "_url_confidence") = Some (VInt 95).
Proof.
  intros Hp. destruct (field_to_prefix_Some _ _ Hp) as [[-> ->]|[-> ->]];
    simpl; repeat split; by simplify_map_eq.
Qed.

(** The redirect rule fires on the conditions of the specification. *)
Lemma redirect_phase_fires field prefix final_url status soft404
    (rec2 : gmap string value) (u : nat) cur fin :
  Spec.redirect_conditions field rec2 final_url status soft404 cur fin ->
  redirect_phase field prefix final_url status soft404 (rec2, u)
  = (<[prefix ++ "_url_confidence" := VInt 95]>
       (<[prefix ++ "_url_change_reason" := VStr "redirect_canonicalized"]>
         (<[field := VStr fin]> rec2)), S u).
Proof.
  intros (Hcur & -> & Hfin & (st & -> & Hlt & H1 & H3) & -> & Hne).
  unfold redirect_phase. simpl.
  rewrite (proj2 (rewrite_branch_Some (get rec2 field) (Some fin) (Some st)
                    false cur fin st)).
  2:{ repeat split; try done. by apply get_lookup. }
  unfold redirect_rule, UPDATE_CANONICAL_ON_REDIRECT. simpl.
  rewrite (proj2 (Z.ltb_lt st 400)) by done.
  by rewrite (proj2 (String.eqb_neq fin cur)).
Qed.

(** The redirect rule leaves the state alone in every other case. *)
Lemma redirect_phase_idle field prefix final_url status soft404
    (rec2 : gmap string value) (u : nat) :
  ~ (exists cur fin,
       Spec.redirect_conditions field rec2 final_url status soft404 cur fin) ->
  redirect_phase field prefix final_url status soft404 (rec2, u) = (rec2, u).
Proof.
  intros Hno. unfold redirect_phase. simpl.
  destruct (rewrite_branch _ _ _ _) as [[[cur fin] st]|] eqn:Eb; [|done].
  apply rewrite_branch_Some in Eb as (Hcur & -> & Hfin & -> & H1 & H3 & ->).
  unfold redirect_rule, UPDATE_CANONICAL_ON_REDIRECT. simpl.
  destruct (Z.ltb_spec st 400) as [Hlt|Hge]; [|done].
  destruct (String.eqb_spec fin cur) as [->|Hne]; [done|].
  exfalso. apply Hno. exists cur, fin.
  repeat split; try done; [by apply get_VStr|by exists st].
Qed.

Lemma redirect_conditions_dec field (rec2 : gmap string value) final_url status soft404 :
  (exists cur fin, Spec.redirect_conditions field rec2 final_url status soft404 cur fin)
  \/ ~ (exists cur fin,
          Spec.redirect_conditions field rec2 final_url status soft404 cur fin).
Proof.
  destruct (rewrite_branch (get rec2 field) final_url status soft404)
    as [[[cur fin] st]|] eqn:Eb.
  - apply rewrite_branch_Some in Eb as (Hcur & -> & Hfin & -> & H1 & H3 & ->).
    apply get_VStr in Hcur.
    destruct (Z.ltb_spec st 400) as [Hlt|Hge].
    + destruct (String.eqb_spec fin cur) as [->|Hne].
      * right. intros (c & f & Hc & [= <-] & _ & _ & _ & Hn). congruence.
      * left. exists cur, fin. repeat split; try done. by exists st.
    + right. intros (c & f & _ & _ & _ & (st' & [= <-] & ? & _) & _). lia.
  - right. intros (c & f & Hc & -> & Hf & (st' & -> & Hlt & H1 & H3) & -> & Hn).
    apply get_lookup in Hc.
    by rewrite (proj2 (rewrite_branch_Some (get rec2 field) (Some f) (Some st')
                         false c f st')) in Eb.
Qed.

Lemma redirect_conditions_prepared now field prefix row (rec rec2 : gmap string value)
    final_url status soft404 cur fin :
  field_to_prefix field = Some prefix ->
  row_prepare now field prefix row rec = Ok rec2 ->
  Spec.redirect_conditions field rec final_url status soft404 cur fin
  <-> Spec.redirect_conditions field rec2 final_url status soft404 cur fin.
Proof.
  intros Hp Hok. unfold Spec.redirect_conditions.
  by destruct (row_prepare_canonical _ _ _ _ _ _ Hp Hok) as (-> & _ & _).
Qed.

(** C1.  For a row applied to a record (lines 111-136 done, [rec2] being
    the record at line 139), the state [s1] after the redirect rule
    (line 151), from which the body of the loop goes on with the CivicPlus
    rule, has the URL field rewritten exactly when the field holds a
    string, the final URL is non-empty, the status is present, below 400
    and neither 401 nor 403, the soft-404 flag is false and the final URL
    differs from the field.  In that case the same update sets the field
    to the final URL, the change reason to [redirect_canonicalized] and
    the confidence to 95 (and counts one rewrite); in every other case
    the rule changes nothing. *)
Theorem redirect_rule_exact now field prefix row (rec rec2 : gmap string value) (u : nat) :
  field_to_prefix field = Some prefix ->
  row_prepare now field prefix row rec = Ok rec2 ->
  let s1 := redirect_phase field prefix (row_final_url row) (row_status row)
              (row_soft404 row) (rec2, u) in
  let conds := Spec.redirect_conditions field rec (row_final_url row)
                 (row_status row) (row_soft404 row) in
  row_body now field prefix row (rec, u)
  = Ok (civicplus_phase field prefix (get rec2 field) (row_final_url row)
          (row_status row) (row_soft404 row) s1)
  /\ ((exists cur fin, conds cur fin) <-> s1.1 !! field <> rec !! field)
  /\ (forall cur fin, conds cur fin ->
        s1 = (<[prefix ++ "_url_confidence" := VInt 95]>
                (<[prefix ++ "_url_change_reason" := VStr "redirect_canonicalized"]>
                  (<[field := VStr fin]> rec2)), S u)
        /\ s1.1 !! field = Some (VStr fin)
        /\ s1.1 !! (prefix ++ "_url_change_reason") = Some (VStr "redirect_canonicalized")
        /\ s1.1 !! (prefix ++ "_url_confidence") = Some (VInt 95))
  /\ (~ (exists cur fin, conds cur fin) -> s1 = (rec2, u)).
Proof.
  intros Hp Hok s1 conds.
  assert (Hfire : forall cur fin, conds cur fin ->
            s1 = (<[prefix ++ "_url_confidence" := VInt 95]>
                    (<[prefix ++ "_url_change_reason" := VStr "redirect_canonicalized"]>
                      (<[field := VStr fin]> rec2)), S u)).
  { intros cur fin Hc. apply (redirect_phase_fires _ _ _ _ _ _ _ cur).
    by apply (redirect_conditions_prepared now field prefix row rec rec2). }
  assert (Hidle : ~ (exists cur fin, conds cur fin) -> s1 = (rec2, u)).
  { intros Hno. apply redirect_phase_idle. intros (cur & fin & Hc).
    apply Hno. exists cur, fin.
    by apply (redirect_conditions_prepared now field prefix row rec rec2). }
  destruct (row_prepare_canonical _ _ _ _ _ _ Hp Hok) as (Hfield & _ & _).
  split; [by apply row_body_phases|]. split; [|split; [|done]].
  - split.
    + intros (cur & fin & Hc). rewrite (Hfire _ _ Hc). simpl.
      destruct (rewritten_lookups field prefix fin "redirect_canonicalized" rec2 Hp)
        as (-> & _ & _).
      destruct Hc as (-> & _ & _ & _ & _ & Hne). congruence.
    + intros Hch.
      destruct (redirect_conditions_dec field rec2 (row_final_url row)
                  (row_status row) (row_soft404 row)) as [(cur & fin & Hc)|Hno].
      * exists cur, fin.
        by apply (redirect_conditions_prepared now field prefix row rec rec2).
      * exfalso. apply Hch. subst s1. rewrite redirect_phase_idle by done.
        done.
  - intros cur fin Hc. split; [by apply (Hfire cur)|].
    rewrite (Hfire _ _ Hc). simpl.
    by apply rewritten_lookups.
Qed.

Lemma civicplus_pageid_path_Some (u : string) :
  is_Some (civicplus_pageid_path u) <-> Spec.has_pageid_path u.
Proof.
  unfold civicplus_pageid_path, Spec.has_pageid_path. split.
  - intros [p Hp]. destruct (urlparse u) as [r|]; [|discriminate].
    destruct (CIVICPLUS_PAGEID_RE_match (path r)) eqn:Em; [|discriminate].
    exists r. split; [done|]. by apply CIVICPLUS_PAGEID_RE_match_spec.
  - intros (r & -> & Hm). apply CIVICPLUS_PAGEID_RE_match_spec in Hm.
    rewrite Hm. eauto.
Qed.

Lemma row_final_url_nonempty row (fin : string) :
  row_final_url row = Some fin -> fin <> EmptyString.
Proof. intros Hf. by apply or_none_Some in Hf as [_ ?]. Qed.

(** The guards let a row through when its URL field is a string, its
    status is present and neither 401 nor 403, and it is no soft 404. *)
Lemma rewrite_branch_open row (rec2 : gmap string value) field cur fin st :
  rec2 !! field = Some (VStr cur) -> row_final_url row = Some fin ->
  row_status row = Some st -> st <> 401 -> st <> 403 ->
  row_soft404 row = false ->
  rewrite_branch (get rec2 field) (row_final_url row) (row_status row)
    (row_soft404 row) = Some (cur, fin, st).
Proof.
  intros Hcur Hfin Hst H1 H3 Hsoft. apply rewrite_branch_Some.
  repeat split; try done; [by apply get_lookup|by eapply row_final_url_nonempty].
Qed.

Lemma civicplus_rule_fires field prefix cur fin st (s : gmap string value * nat) :
  st < 400 -> fin <> EmptyString ->
  Spec.has_pageid_path fin -> ~ Spec.has_pageid_path cur ->
  civicplus_rule field prefix cur fin st s
  = (<[prefix ++ "_url_confidence" := VInt 95]>
       (<[prefix ++ "_url_change_reason" := VStr "civicplus_pageid_canonicalized"]>
         (<[field := VStr fin]> s.1)), S s.2).
Proof.
  intros Hlt Hne Hfin Hcur. unfold civicplus_rule, UPDATE_CANONICAL_ON_CIVICPLUS_PAGEID.
  rewrite (proj2 (Z.ltb_lt st 400)), (proj2 (truthy_true fin)) by done. simpl.
  rewrite bool_decide_eq_true_2 by by apply civicplus_pageid_path_Some.
  rewrite bool_decide_eq_false_2; [done|]. by rewrite civicplus_pageid_path_Some.
Qed.

Lemma civicplus_rule_idle field prefix cur fin st (s : gmap string value * nat) :
  Spec.has_pageid_path cur \/ ~ Spec.has_pageid_path fin ->
  civicplus_rule field prefix cur fin st s = s.
Proof.
  intros Hidle. unfold civicplus_rule.
  destruct (_ && _ && _); [|done].
  destruct Hidle as [Hcur|Hfin].
  - rewrite (bool_decide_eq_true_2 (is_Some (civicplus_pageid_path cur)))
      by by apply civicplus_pageid_path_Some.
    by rewrite andb_false_r.
  - rewrite (bool_decide_eq_false_2 (is_Some (civicplus_pageid_path fin))); [done|].
    by rewrite civicplus_pageid_path_Some.
Qed.

(** C2.  For a row applied to a record whose URL field holds the string
    [cur], with the status present, below 400 and neither 401 nor 403,
    the soft-404 flag false and the final URL [fin] non-empty, [s1] being
    the state the redirect rule left and [s2] the state the body of the
    loop ends in: if the path of [fin] matches the CivicPlus page-id
    pattern and the path of [cur] does not, the URL field is rewritten to
    [fin], the change reason is [civicplus_pageid_canonicalized] and the
    confidence is 95; if the path of [cur] matches already or the path of
    [fin] does not, the CivicPlus rule rewrites nothing. *)
Theorem civicplus_rule_exact now field prefix row (rec rec2 : gmap string value)
    (u : nat) (st : Z) (cur fin : string) :
  field_to_prefix field = Some prefix ->
  row_prepare now field prefix row rec = Ok rec2 ->
  rec !! field = Some (VStr cur) ->
  row_status row = Some st -> st < 400 -> st <> 401 -> st <> 403 ->
  row_soft404 row = false ->
  row_final_url row = Some fin ->
  let s1 := redirect_phase field prefix (row_final_url row) (row_status row)
              (row_soft404 row) (rec2, u) in
  exists s2 : gmap string value * nat,
    row_body now field prefix row (rec, u) = Ok s2
    /\ (Spec.has_pageid_path fin -> ~ Spec.has_pageid_path cur ->
          s2 = (<[prefix ++ "_url_confidence" := VInt 95]>
                  (<[prefix ++ "_url_change_reason" :=
                       VStr "civicplus_pageid_canonicalized"]>
                    (<[field := VStr fin]> s1.1)), S s1.2)
          /\ s2.1 !! field = Some (VStr fin)
          /\ s2.1 !! (prefix ++ "_url_change_reason")
               = Some (VStr "civicplus_pageid_canonicalized")
          /\ s2.1 !! (prefix ++ "_url_confidence") = Some (VInt 95))
    /\ (Spec.has_pageid_path cur \/ ~ Spec.has_pageid_path fin -> s2 = s1).
Proof.
  intros Hp Hok Hcur Hst Hlt H1 H3 Hsoft Hfin s1.
  destruct (row_prepare_canonical _ _ _ _ _ _ Hp Hok) as (Hfield & _ & _).
  rewrite <- Hfield in Hcur.
  eexists. split; [by apply row_body_phases|].
  unfold civicplus_phase.
  rewrite (rewrite_branch_open row rec2 field cur fin st) by done.
  split.
  - intros Hf Hc.
    rewrite civicplus_rule_fires by (try done; by eapply row_final_url_nonempty).
    split; [done|]. simpl. by apply rewritten_lookups.
  - intros Hidle. by apply civicplus_rule_idle.
Qed.

(** C9.  When a row meets the conditions of both rules (the status
    present, below 400 and neither 401 nor 403, no soft 404, the final URL
    non-empty and different from the URL [cur] the field held before the
    row, the path of the final URL matching the CivicPlus page-id pattern
    and the path of [cur] not), the redirect rule fires first and the
    CivicPlus rule, which still tests [cur], fires after it: two rewrites
    are counted and the record ends with the URL field set to the final
    URL, the change reason [civicplus_pageid_canonicalized] written over
    [redirect_canonicalized], and the confidence 95. *)
Theorem both_rules_fire now field prefix row (rec rec2 : gmap string value)
    (u : nat) (st : Z) (cur fin : string) :
  field_to_prefix field = Some prefix ->
  row_prepare now field prefix row rec = Ok rec2 ->
  rec !! field = Some (VStr cur) ->
  row_status row = Some st -> st < 400 -> st <> 401 -> st <> 403 ->
  row_soft404 row = false ->
  row_final_url row = Some fin -> fin <> cur ->
  Spec.has_pageid_path fin -> ~ Spec.has_pageid_path cur ->
  let s1 := redirect_phase field prefix (row_final_url row) (row_status row)
              (row_soft404 row) (rec2, u) in
  s1 = (<[prefix ++ "_url_confidence" := VInt 95]>
          (<[prefix ++ "_url_change_reason" := VStr "redirect_canonicalized"]>
            (<[field := VStr fin]> rec2)), S u)
  /\ s1.1 !! (prefix ++ "_url_change_reason") = Some (VStr "redirect_canonicalized")
  /\ exists rec' : gmap string value,
       row_body now field prefix row (rec, u) = Ok (rec', S (S u))
       /\ rec' = <[prefix ++ "_url_confidence" := VInt 95]>
                   (<[prefix ++ "_url_change_reason" :=
                        VStr "civicplus_pageid_canonicalized"]>
                     (<[field := VStr fin]> s1.1))
       /\ rec' !! field = Some (VStr fin)
       /\ rec' !! (prefix ++ "_url_change_reason")
            = Some (VStr "civicplus_pageid_canonicalized")
       /\ rec' !! (prefix ++ "_url_confidence") = Some (VInt 95).
Proof.
  intros Hp Hok Hcur Hst Hlt H1 H3 Hsoft Hfin Hne Hf Hc s1.
  destruct (row_prepare_canonical _ _ _ _ _ _ Hp Hok) as (Hfield & _ & _).
  assert (Hs1 : s1 = (<[prefix ++ "_url_confidence" := VInt 95]>
                        (<[prefix ++ "_url_change_reason" :=
                             VStr "redirect_canonicalized"]>
                          (<[field := VStr fin]> rec2)), S u)).
  { apply (redirect_phase_fires _ _ _ _ _ _ _ cur).
    repeat split; try done; [congruence|by eapply row_final_url_nonempty|].
    by exists st. }
  split; [done|]. split.
  { rewrite Hs1. simpl. by apply rewritten_lookups. }
  eexists. split; [|split; [reflexivity|]].
  - rewrite (row_body_phases _ _ _ _ _ _ _ Hok). unfold civicplus_phase.
    rewrite (rewrite_branch_open row rec2 field cur fin st) by (try done; congruence).
    rewrite civicplus_rule_fires by (try done; by eapply row_final_url_nonempty).
    fold s1. by rewrite Hs1.
  - by apply rewritten_lookups.
Qed.

Lemma parse_status_None (status_str : string) :
  status_str = EmptyString \/ int_of_float status_str = None ->
  parse_status status_str = None.
Proof.
  unfold parse_status. intros [->|Hf]; [done|].
  by destruct (PyStr.truthy status_str).
Qed.

(** When the guards of lines 140-144 stop a row, the body of the loop
    ends in the state of line 139. *)
Lemma row_body_guarded now field prefix row (rec rec2 : gmap string value) (u : nat) :
  row_prepare now field prefix row rec = Ok rec2 ->
  rewrite_branch (get rec2 field) (row_final_url row) (row_status row)
    (row_soft404 row) = None ->
  row_body now field prefix row (rec, u) = Ok (rec2, u).
Proof.
  intros Hok Hb. unfold row_body. simpl. rewrite Hok. simpl.
  unfold canonicalize. simpl. by rewrite Hb.
Qed.

(** A record whose URL field holds no string is never rewritten. *)
Lemma row_body_without_url now field prefix row (rec rec2 : gmap string value) (u : nat) :
  field_to_prefix field = Some prefix ->
  row_prepare now field prefix row rec = Ok rec2 ->
  (forall cur, rec !! field <> Some (VStr cur)) ->
  row_body now field prefix row (rec, u) = Ok (rec2, u).
Proof.
  intros Hp Hok Hno. apply row_body_guarded; [done|].
  destruct (rewrite_branch _ _ _ _) as [[[c f] z]|] eqn:Eb; [|done].
  apply rewrite_branch_Some in Eb as (Hc & _).
  destruct (row_prepare_canonical _ _ _ _ _ _ Hp Hok) as (Hfield & _ & _).
  apply get_VStr in Hc. rewrite Hfield in Hc. by destruct (Hno c).
Qed.

(** C3.  For a row applied to a record whose parsed status is 401 or 403,
    the body of the loop ends without a rewrite: the record it leaves has
    the URL field, its change reason and its confidence as they were
    before the row, no rewrite is counted, and the status, the final URL,
    the time of the check, the soft-404 flag and the error of the row are
    stamped. *)
Theorem bot_block_status_frame now field prefix row (rec rec2 : gmap string value)
    (u : nat) (st : Z) :
  field_to_prefix field = Some prefix ->
  row_prepare now field prefix row rec = Ok rec2 ->
  row_status row = Some st -> st = 401 \/ st = 403 ->
  row_body now field prefix row (rec, u) = Ok (rec2, u)
  /\ rec2 !! field = rec !! field
  /\ rec2 !! (prefix ++ "_url_change_reason") = rec !! (prefix ++ "_url_change_reason")
  /\ rec2 !! (prefix ++ "_url_confidence") = rec !! (prefix ++ "_url_confidence")
  /\ rec2 !! (prefix ++ "_url_status_code") = Some (VInt st)
  /\ rec2 !! (prefix ++ "_url_final") = Some (of_opt_str (row_final_url row))
  /\ rec2 !! (prefix ++ "_url_last_checked_at") = Some (VStr (row_checked_at row now))
  /\ rec2 !! (prefix ++ "_url_soft404") = Some (VBool (row_soft404 row))
  /\ rec2 !! (prefix ++ "_url_error") = Some (of_opt_str (row_error row)).
Proof.
  intros Hp Hok Hst Hblock.
  destruct (row_prepare_canonical _ _ _ _ _ _ Hp Hok) as (Hf & Hr & Hc).
  destruct (row_prepare_stamps _ _ _ _ _ _ Hp Hok) as (S1 & S2 & S3 & S4 & S5).
  rewrite Hst in S1. repeat split; try done.
  apply row_body_guarded; [done|].
  destruct (rewrite_branch _ _ _ _) as [[[c f] z]|] eqn:Eb; [|done].
  apply rewrite_branch_Some in Eb as (_ & _ & _ & Hz & H1 & H3 & _).
  rewrite Hst in Hz. simplify_eq. lia.
Qed.

(** C10.  For a row applied to a record whose Status column is empty or
    is not converted by [int(float(_))], the status is parsed as absent
    (the conversion is guarded, so nothing is raised), the body of the
    loop ends without a rewrite, the status code is stamped as null, the
    final URL, the time of the check, the soft-404 flag and the error of
    the row are stamped, and the URL field, its change reason and its
    confidence are as they were before the row. *)
Theorem unparsed_status_no_rewrite now field prefix row (rec rec2 : gmap string value)
    (u : nat) :
  field_to_prefix field = Some prefix ->
  row_prepare now field prefix row rec = Ok rec2 ->
  row_status_str row = EmptyString \/ int_of_float (row_status_str row) = None ->
  row_status row = None
  /\ row_body now field prefix row (rec, u) = Ok (rec2, u)
  /\ rec2 !! (prefix ++ "_url_status_code") = Some VNone
  /\ rec2 !! (prefix ++ "_url_final") = Some (of_opt_str (row_final_url row))
  /\ rec2 !! (prefix ++ "_url_last_checked_at") = Some (VStr (row_checked_at row now))
  /\ rec2 !! (prefix ++ "_url_soft404") = Some (VBool (row_soft404 row))
  /\ rec2 !! (prefix ++ "_url_error") = Some (of_opt_str (row_error row))
  /\ rec2 !! field = rec !! field
  /\ rec2 !! (prefix ++ "_url_change_reason") = rec !! (prefix ++ "_url_change_reason")
  /\ rec2 !! (prefix ++ "_url_confidence") = rec !! (prefix ++ "_url_confidence").
Proof.
  intros Hp Hok Hbad.
  assert (Hst : row_status row = None) by by apply parse_status_None.
  destruct (row_prepare_canonical _ _ _ _ _ _ Hp Hok) as (Hf & Hr & Hc).
  destruct (row_prepare_stamps _ _ _ _ _ _ Hp Hok) as (S1 & S2 & S3 & S4 & S5).
  rewrite Hst in S1. repeat split; try done.
  apply row_body_guarded; [done|].
  destruct (rewrite_branch _ _ _ _) as [[[c f] z]|] eqn:Eb; [|done].
  apply rewrite_branch_Some in Eb as (_ & _ & _ & Hz & _).
  congruence.
Qed.

(** The preparation raises only through [urlparse], called on the Town
    Website or, when that is no string, on the URL field. *)
Lemma row_prepare_raise now field prefix row (rec : gmap string value) e :
  row_prepare now field prefix row rec = Raise e ->
  exists s : string, urlparse (PyStr.strip s) = None.
Proof.
  unfold row_prepare, ensure_town_website, homepage, mbind, result_bind, rbind.
  intros Hr. repeat case_match; simplify_eq; eauto.
Qed.

(** A row's preparation completes when [urlparse] raises on no input. *)
Lemma row_prepare_total now field prefix row (rec : gmap string value) :
  (forall s, urlparse s <> None) ->
  exists rec2, row_prepare now field prefix row rec = Ok rec2.
Proof.
  intros Hparse. destruct (row_prepare now field prefix row rec) as [r|e] eqn:E; [eauto|].
  apply row_prepare_raise in E as [s Hs]. by destruct (Hparse (PyStr.strip s)).
Qed.

(** A row that names a record's town and one of the two URL fields goes
    through the body of the loop, and the record it leaves is written
    back in place. *)
Lemma process_row_applied by_town now row (data : list value) (u i : nat)
    (rec : gmap string value) prefix :
  row_town row <> EmptyString ->
  field_to_prefix (row_field row) = Some prefix ->
  by_town !! row_town row = Some i ->
  data !! i = Some (VObj rec) -> rec <> ∅ ->
  process_row by_town now row (data, u)
  = ('(rec', u') ← row_body now (row_field row) prefix row (rec, u);
     Ok (<[i := VObj rec']> data, u')).
Proof.
  intros Ht Hp Hi Hd Hne. unfold process_row. rewrite Hp. simpl.
  rewrite (proj2 (truthy_true _) Ht). simpl.
  destruct (field_to_prefix_Some _ _ Hp) as [[_ ->]|[_ ->]]; simpl;
    rewrite Hi, Hd; by rewrite bool_decide_eq_false_2.
Qed.

End ApplyFacts.

(** ** migrate_schema.py: the frozen originals and the homepage *)

Section MigrateFacts.
Context `{Runtime}.
Import MigrateSchema.

Lemma freeze_original_lookup_other field (s : gmap string value * nat) (k : string) :
  k <> field ++ " (original)" ->
  (freeze_original field s).1 !! k = s.1 !! k.
Proof.
  intros Hk. unfold freeze_original.
  destruct (s.1 !! (field ++ " (original)")); [done|].
  destruct (get s.1 field); try done. simpl. by rewrite lookup_insert_ne.
Qed.

Lemma freeze_original_lookup field (s : gmap string value * nat) :
  (freeze_original field s).1 !! (field ++ " (original)")
  = match s.1 !! (field ++ " (original)") with
    | Some v => Some v
    | None =>
        match get s.1 field with
        | VStr url => Some (VStr url)
        | _ => None
        end
    end.
Proof.
  unfold freeze_original.
  destruct (s.1 !! (field ++ " (original)")) eqn:E; [done|].
  destruct (get s.1 field); try done. simpl. by rewrite lookup_insert_eq.
Qed.

Lemma set_town_website_lookup_other home (s : gmap string value * nat) (k : string) :
  k <> "Town Website" -> (set_town_website home s).1 !! k = s.1 !! k.
Proof.
  intros Hk. unfold set_town_website.
  destruct home as [h|]; [|done]. destruct (_ && _); [|done].
  simpl. by rewrite lookup_insert_ne.
Qed.

(** The frozen copy of a URL field after the migration of a record. *)
Lemma migrate_record_original field (s : gmap string value * nat) :
  field = "Employment Page URL" \/ field = "Application Form URL" ->
  (migrate_record s).1 !! (field ++ " (original)")
  = match s.1 !! (field ++ " (original)") with
    | Some v => Some v
    | None =>
        match get s.1 field with
        | VStr url => Some (VStr url)
        | _ => None
        end
    end.
Proof.
  unfold migrate_record. intros [-> | ->].
  - rewrite freeze_original_lookup_other by done.
    rewrite freeze_original_lookup. unfold get.
    by rewrite !set_town_website_lookup_other.
  - rewrite freeze_original_lookup. unfold get.
    rewrite !freeze_original_lookup_other by done.
    by rewrite !set_town_website_lookup_other.
Qed.

(** The migration leaves the two current URL fields as they are. *)
Lemma migrate_record_url field (s : gmap string value * nat) :
  field = "Employment Page URL" \/ field = "Application Form URL" ->
  (migrate_record s).1 !! field = s.1 !! field.
Proof.
  unfold migrate_record. intros [-> | ->];
    rewrite !freeze_original_lookup_other by done;
    by rewrite set_town_website_lookup_other.
Qed.

(** A second migration of a record changes no frozen copy. *)
Lemma migrate_record_original_idem field (s : gmap string value * nat) (m : nat) :
  field = "Employment Page URL" \/ field = "Application Form URL" ->
  (migrate_record ((migrate_record s).1, m)).1 !! (field ++ " (original)")
  = (migrate_record s).1 !! (field ++ " (original)").
Proof.
  intros Hf. rewrite (migrate_record_original field (_, m)) by done. simpl.
  destruct ((migrate_record s).1 !! (field ++ " (original)")) eqn:E; [done|].
  rewrite migrate_record_original in E by done.
  unfold get. rewrite migrate_record_url by done. fold (get s.1 field).
  destruct (s.1 !! (field ++ " (original)")); [done|].
  by destruct (get s.1 field).
Qed.

Lemma migrate_all_cons (v : value) (data : list value) (n : nat) :
  (migrate_all (v :: data) n).1
  = match v with
    | VObj r =>
        VObj (migrate_record (r, n)).1
        :: (migrate_all data (migrate_record (r, n)).2).1
    | _ => v :: (migrate_all data n).1
    end.
Proof.
  simpl. destruct v; try by destruct (migrate_all data n).
  destruct (migrate_record (fields, n)) as [r1 c1]. simpl.
  by destruct (migrate_all data c1).
Qed.

(** A second migration of a dataset changes no frozen copy. *)
Lemma migrate_all_originals_idem (data : list value) (n m : nat) :
  originals_of <$> (migrate_all (migrate_all data n).1 m).1
  = originals_of <$> (migrate_all data n).1.
Proof.
  revert n m. induction data as [|v data IH]; intros n m; [done|].
  rewrite (migrate_all_cons v data n).
  destruct v as [| | | | | |r];
    rewrite migrate_all_cons, !fmap_cons, IH; try done.
  f_equal. unfold originals_of. f_equal.
  - by apply (migrate_record_original_idem "Employment Page URL"); left.
  - by apply (migrate_record_original_idem "Application Form URL"); right.
Qed.

(** C5.  For a record and either URL field, the migration sets the frozen
    copy ("... (original)") only when its key is absent and the current
    URL is a string: a key that is present keeps its value, an absent key
    is bound to the current URL when that is a string and stays absent
    otherwise.  A second migration of the result changes no frozen copy,
    for one record and for a whole dataset. *)
Theorem originals_write_once (field : string) (rec : gmap string value) (n m : nat)
    (data : list value) :
  field = "Employment Page URL" \/ field = "Application Form URL" ->
  let rec' := (migrate_record (rec, n)).1 in
  (forall v, rec !! (field ++ " (original)") = Some v ->
             rec' !! (field ++ " (original)") = Some v)
  /\ (forall url, rec !! (field ++ " (original)") = None ->
                  get rec field = VStr url ->
                  rec' !! (field ++ " (original)") = Some (VStr url))
  /\ (rec !! (field ++ " (original)") = None ->
      (forall url, get rec field <> VStr url) ->
      rec' !! (field ++ " (original)") = None)
  /\ (migrate_record (rec', m)).1 !! (field ++ " (original)")
     = rec' !! (field ++ " (original)")
  /\ originals_of <$> (migrate_all (migrate_all data n).1 m).1
     = originals_of <$> (migrate_all data n).1.
Proof.
  intros Hf rec'. subst rec'.
  rewrite (migrate_record_original_idem field (rec, n) m Hf).
  rewrite (migrate_record_original field (rec, n) Hf). simpl.
  repeat split.
  - by intros v ->.
  - by intros url -> ->.
  - intros -> Hno. destruct (get rec field); try done. by destruct (Hno s).
  - apply migrate_all_originals_idem.
Qed.

End MigrateFacts.

(** ** The Town Website field *)

Section TownWebsite.
Context `{Runtime}.

(** The string both scripts build from a scheme and a host is not empty. *)
Lemma homepage_string_truthy (sch host : string) :
  PyStr.truthy (sch ++ "://" ++ host ++ "/") = true.
Proof. by destruct sch. Qed.

Lemma homepage_from_url_truthy (v : value) (h : string) :
  MigrateSchema.homepage_from_url v = Some h -> PyStr.truthy h = true.
Proof.
  unfold MigrateSchema.homepage_from_url. intros Hh.
  repeat case_match; simplify_eq. apply homepage_string_truthy.
Qed.

Lemma homepage_truthy (v : value) (h : string) :
  ApplyUrlCheckSummary.homepage v = Ok (Some h) -> PyStr.truthy h = true.
Proof.
  unfold ApplyUrlCheckSummary.homepage. intros Hh.
  repeat case_match; simplify_eq. apply homepage_string_truthy.
Qed.

(** Lines 53-60 take the homepage of the first of the stored Town
    Website, the Employment Page URL and the Application Form URL that has
    one. *)
Lemma derive_home_sources (rec : gmap string value) :
  MigrateSchema.derive_home rec
  = match MigrateSchema.homepage_from_url (get rec "Town Website") with
    | Some h => Some h
    | None =>
        match MigrateSchema.homepage_from_url (get rec "Employment Page URL") with
        | Some h => Some h
        | None => MigrateSchema.homepage_from_url (get rec "Application Form URL")
        end
    end.
Proof.
  unfold MigrateSchema.derive_home.
  assert (Hor : forall a b : option string,
            (forall h, a = Some h -> PyStr.truthy h = true) ->
            PyStr.or_opt a b = match a with Some h => Some h | None => b end).
  { intros [h|] b Ha; [|done]. unfold PyStr.or_opt. simpl. by rewrite (Ha h). }
  set (e := MigrateSchema.homepage_from_url (get rec "Employment Page URL")).
  set (a := MigrateSchema.homepage_from_url (get rec "Application Form URL")).
  assert (He : PyStr.or_opt e a = match e with Some h => Some h | None => a end)
    by (apply Hor; intros h; apply homepage_from_url_truthy).
  clearbody e a.
  destruct (get rec "Town Website") as [| | | |tw| |]; try exact He.
  destruct (MigrateSchema.homepage_from_url (VStr tw)) as [h|] eqn:Eh;
    [|exact He].
  unfold PyStr.truthy_opt. by rewrite (homepage_from_url_truthy _ _ Eh).
Qed.

Lemma derive_home_truthy (rec : gmap string value) (h : string) :
  MigrateSchema.derive_home rec = Some h -> PyStr.truthy h = true.
Proof.
  rewrite derive_home_sources. intros Hh.
  repeat case_match; simplify_eq; by eapply homepage_from_url_truthy.
Qed.

Lemma bare_homepage_intro (u : string) (r : ParseResult) :
  urlparse_delimits ->
  urlparse u = Some r ->
  PyStr.truthy (scheme r) = true -> PyStr.truthy (netloc r) = true ->
  Spec.bare_homepage (VStr (scheme r ++ "://" ++ netloc r ++ "/")).
Proof.
  intros Hlaw Hu Hs Hh. destruct (Hlaw u r Hu) as [Hsch Hnet].
  exists (scheme r), (netloc r). by rewrite <- !truthy_true.
Qed.

(** A bare homepage has a colon in it. *)
Lemma bare_homepage_colon (h : string) :
  Spec.bare_homepage (VStr h) -> PyStr.any_char (Ascii.eqb ":") h = true.
Proof.
  intros (sch & host & _ & _ & _ & _ & [= ->]).
  induction sch as [|a sch IH]; [done|]. simpl. rewrite IH. apply orb_true_r.
Qed.

(** A bare homepage has three slashes, the two after the colon and the
    last character: a URL with a path below the root has more. *)
Lemma bare_homepage_slashes (h : string) :
  Spec.bare_homepage (VStr h) -> Spec.count_chars (Ascii.eqb "/") h = 3%nat.
Proof.
  assert (Hnone : forall (p : ascii -> bool) (s : string),
            (forall a, Ascii.eqb "/" a = true -> p a = true) ->
            PyStr.any_char p s = false ->
            Spec.count_chars (Ascii.eqb "/") s = O).
  { intros p s Hp. induction s as [|a s IH]; [done|].
    change (PyStr.any_char p (String a s)) with (p a || PyStr.any_char p s).
    change (Spec.count_chars (Ascii.eqb "/") (String a s))
      with ((if Ascii.eqb "/" a then 1 else 0)
            + Spec.count_chars (Ascii.eqb "/") s)%nat.
    intros [Ha Hs]%orb_false_elim. rewrite (IH Hs).
    destruct (Ascii.eqb "/" a) eqn:Ea; [|done]. by rewrite (Hp a Ea) in Ha. }
  assert (Happ : forall s t : string,
            Spec.count_chars (Ascii.eqb "/") (s ++ t)
            = (Spec.count_chars (Ascii.eqb "/") s
               + Spec.count_chars (Ascii.eqb "/") t)%nat).
  { intros s t. induction s as [|a s IH]; [reflexivity|].
    change (String a s ++ t) with (String a (s ++ t)).
    change (Spec.count_chars (Ascii.eqb "/") (String a (s ++ t)))
      with ((if Ascii.eqb "/" a then 1 else 0)
            + Spec.count_chars (Ascii.eqb "/") (s ++ t))%nat.
    change (Spec.count_chars (Ascii.eqb "/") (String a s))
      with ((if Ascii.eqb "/" a then 1 else 0)
            + Spec.count_chars (Ascii.eqb "/") s)%nat.
    rewrite IH. lia. }
  intros (sch & host & _ & _ & Hsch & Hhost & [= ->]).
  rewrite !Happ.
  rewrite (Hnone scheme_delimiter sch), (Hnone netloc_delimiter host); try done.
  - intros a Ha. unfold netloc_delimiter. by rewrite (Ascii.eqb_sym a "/"), Ha.
  - intros a Ha. unfold scheme_delimiter.
    rewrite (Ascii.eqb_sym a "/"), Ha. apply orb_true_r.
Qed.

Lemma homepage_from_url_bare (v : value) (h : string) :
  urlparse_delimits ->
  MigrateSchema.homepage_from_url v = Some h -> Spec.bare_homepage (VStr h).
Proof.
  unfold MigrateSchema.homepage_from_url. intros Hlaw Hh.
  repeat case_match; simplify_eq.
  match goal with
  | Hb : _ || _ = false |- _ => apply orb_false_elim in Hb as [Hs Hn]
  end.
  eapply bare_homepage_intro; [done|done| |]; by apply negb_false_iff.
Qed.

Lemma homepage_bare (v : value) (h : string) :
  urlparse_delimits ->
  ApplyUrlCheckSummary.homepage v = Ok (Some h) -> Spec.bare_homepage (VStr h).
Proof.
  unfold ApplyUrlCheckSummary.homepage. intros Hlaw Hh.
  repeat case_match; simplify_eq.
  match goal with
  | Hb : _ || _ = false |- _ => apply orb_false_elim in Hb as [Hs Hn]
  end.
  eapply bare_homepage_intro; [done|done| |]; by apply negb_false_iff.
Qed.

(** The Town Website a record has after its migration. *)
Lemma migrate_record_town_website (rec : gmap string value) (n : nat) :
  (MigrateSchema.migrate_record (rec, n)).1 !! "Town Website"
  = match MigrateSchema.derive_home rec with
    | Some h => Some (VStr h)
    | None => rec !! "Town Website"
    end.
Proof.
  unfold MigrateSchema.migrate_record. simpl.
  rewrite !freeze_original_lookup_other by done.
  destruct (MigrateSchema.derive_home rec) as [h|] eqn:Eh; [|done].
  unfold MigrateSchema.set_town_website. simpl.
  rewrite (derive_home_truthy _ _ Eh). simpl.
  destruct (MigrateSchema.differs_from_str _ _) eqn:Ed; simpl.
  - by rewrite lookup_insert_eq.
  - unfold MigrateSchema.differs_from_str in Ed.
    destruct (get rec "Town Website") as [| | | |t| |] eqn:Eg; try discriminate.
    apply negb_false_iff, String.eqb_eq in Ed as ->. by apply get_VStr.
Qed.

Lemma stamp_metadata_get prefix status final_url checked_at soft404 err
    (rec : gmap string value) (field : string) :
  ApplyUrlCheckSummary.field_to_prefix field = Some prefix ->
  let rec1 := ApplyUrlCheckSummary.stamp_metadata prefix status final_url
                checked_at soft404 err rec in
  get rec1 "Town Website" = get rec "Town Website"
  /\ get rec1 field = get rec field
  /\ rec1 !! "Town Website" = rec !! "Town Website".
Proof.
  intros Hp. unfold get.
  destruct (field_to_prefix_Some _ _ Hp) as [[-> ->]|[-> ->]];
    simpl; by rewrite !stamp_metadata_lookup_other.
Qed.

Lemma or_value_truthy (h : string) (v : value) :
  PyStr.truthy h = true ->
  ApplyUrlCheckSummary.or_value (Some h) v = VStr h.
Proof.
  intros Hb. unfold ApplyUrlCheckSummary.or_value. by rewrite Hb.
Qed.

(** The Town Website the step of lines 130-136 leaves, from a source
    string [src] whose homepage is asked for and a fallback [v]. *)
Lemma town_website_set (src : string) (v : value) (rec1 rec2 : gmap string value) :
  (h ← ApplyUrlCheckSummary.homepage (VStr src);
   Ok (<["Town Website" := ApplyUrlCheckSummary.or_value h v]> rec1)) = Ok rec2 ->
  (exists h, ApplyUrlCheckSummary.homepage (VStr src) = Ok (Some h)
             /\ rec2 !! "Town Website" = Some (VStr h))
  \/ (ApplyUrlCheckSummary.homepage (VStr src) = Ok None
      /\ rec2 !! "Town Website" = Some v).
Proof.
  unfold mbind, result_bind, rbind.
  destruct (ApplyUrlCheckSummary.homepage (VStr src)) as [[h|]|e] eqn:Eh;
    intros [= <-].
  - left. exists h. split; [done|].
    rewrite lookup_insert_eq. f_equal.
    exact (or_value_truthy h v (homepage_truthy _ _ Eh)).
  - right. by rewrite lookup_insert_eq.
Qed.


End TownWebsite.

(** ** Command lines and exit statuses *)

Section Cli.
Context `{Runtime}.

Lemma migrate_main_usage : Spec.usage_exit MigrateSchema.main 3.
Proof.
  intros argv w Hlen.
  exists (IO.print "Usage: python migrate_schema.py <input.json> <output.json>" w).
  split; [|done]. unfold MigrateSchema.main.
  by destruct argv as [|a0 [|a1 [|a2 [|a3 argv]]]].
Qed.

Lemma migrate_main_malformed : Spec.malformed_abort MigrateSchema.main 3.
Proof.
  intros argv w in_path text v Hlen Hin Hfile Hjson Hv.
  destruct argv as [|a0 [|a1 [|a2 [|a3 argv]]]]; try done.
  simpl in Hin. injection Hin as ->.
  unfold MigrateSchema.main, IO.read_text. rewrite Hfile, Hjson.
  destruct v; try (by eexists _, _); by destruct (Hv items).
Qed.

Lemma migrate_main_success (prog in_path out_path text : string) (data : list value)
    (w : IO.world) :
  IO.files w !! in_path = Some text ->
  json_loads text = Some (VArr data) ->
  exists w' : IO.world,
    MigrateSchema.main [prog; in_path; out_path] w = (IO.Returned 0, w')
    /\ IO.files w'
       = <[out_path := json_dumps (VArr (MigrateSchema.migrate_all data O).1)]>
           (IO.files w).
Proof.
  intros Hfile Hjson. unfold MigrateSchema.main, IO.read_text.
  rewrite Hfile, Hjson. destruct (MigrateSchema.migrate_all data O) as [d c].
  by eexists.
Qed.

Lemma apply_main_usage : Spec.usage_exit ApplyUrlCheckSummary.main 4.
Proof.
  intros argv w Hlen.
  exists (IO.print "Usage: python apply_url_check_summary.py <input.json> <url_check_summary.csv> <output.json>" w).
  split; [|done]. unfold ApplyUrlCheckSummary.main.
  by destruct argv as [|a0 [|a1 [|a2 [|a3 [|a4 argv]]]]].
Qed.

Lemma apply_main_malformed : Spec.malformed_abort ApplyUrlCheckSummary.main 4.
Proof.
  intros argv w in_path text v Hlen Hin Hfile Hjson Hv.
  destruct argv as [|a0 [|a1 [|a2 [|a3 [|a4 argv]]]]]; try done.
  simpl in Hin. injection Hin as ->.
  unfold ApplyUrlCheckSummary.main, IO.read_text. rewrite Hfile, Hjson.
  destruct v; try (by eexists _, _); by destruct (Hv items).
Qed.

(** With the dataset a list and the CSV file there, [main] returns 0 and
    has written the updated dataset when no row raises, and ends by the
    exception with no file written when a row raises. *)
Lemma apply_main_rows (prog json_in csv_in json_out text csv_text : string)
    (data : list value) (w : IO.world) :
  IO.files w !! json_in = Some text ->
  json_loads text = Some (VArr data) ->
  IO.files w !! csv_in = Some csv_text ->
  match ApplyUrlCheckSummary.process_rows
          (ApplyUrlCheckSummary.index_by_town data 0 ∅) 0 (csv_rows csv_text)
          (data, O) with
  | Ok (data', updates) =>
      exists w' : IO.world,
        ApplyUrlCheckSummary.main [prog; json_in; csv_in; json_out] w
        = (IO.Returned 0, w')
        /\ IO.files w' = <[json_out := json_dumps (VArr data')]> (IO.files w)
  | Raise e =>
      exists w' : IO.world,
        ApplyUrlCheckSummary.main [prog; json_in; csv_in; json_out] w
        = (IO.Uncaught e, w')
        /\ IO.files w' = IO.files w /\ IO.writes w' = IO.writes w
  end.
Proof.
  intros Hfile Hjson Hcsv. unfold ApplyUrlCheckSummary.main, IO.read_text.
  rewrite Hfile, Hjson. simpl. rewrite Hcsv.
  destruct (ApplyUrlCheckSummary.process_rows _ _ _ _) as [[d c]|e];
    by eexists.
Qed.

Section Rediscovery.
Variable web : Rediscover.collaborators.
Variable cfg : Rediscover.scoring.

Lemma rediscover_main_usage : Spec.usage_exit (Rediscover.main web cfg) 4.
Proof.
  intros argv w Hlen. exists w. split; [|done].
  unfold Rediscover.main.
  by destruct argv as [|a0 [|a1 [|a2 [|a3 [|a4 argv]]]]].
Qed.

Lemma rediscover_main_malformed : Spec.malformed_abort (Rediscover.main web cfg) 4.
Proof.
  intros argv w in_path text v Hlen Hin Hfile Hjson Hv.
  destruct argv as [|a0 [|a1 [|a2 [|a3 [|a4 argv]]]]]; try done.
  simpl in Hin. injection Hin as ->.
  unfold Rediscover.main, IO.read_text. rewrite Hfile, Hjson.
  destruct v; try (by eexists _, _); by destruct (Hv items).
Qed.

Lemma rediscover_main_success (prog json_in json_out report_out text : string)
    (data : list value) (w : IO.world) :
  IO.files w !! json_in = Some text ->
  json_loads text = Some (VArr data) ->
  exists w' : IO.world,
    Rediscover.main web cfg [prog; json_in; json_out; report_out] w
    = (IO.Returned 0, w')
    /\ IO.files w' !! report_out
       = Some (Rediscover.render_report web (Rediscover.rediscover_all web cfg data).2).
Proof.
  intros Hfile Hjson. unfold Rediscover.main, IO.read_text.
  rewrite Hfile, Hjson.
  destruct (Rediscover.rediscover_all web cfg data) as [d rows].
  eexists. split; [done|]. simpl. by rewrite lookup_insert_eq.
Qed.

End Rediscovery.

(** C7.  Each script returns 2, a non-zero exit status, without opening a
    file when the number of its command-line arguments is wrong; ends by
    an exception, hence with a non-zero exit status and no file written,
    when the input dataset decodes to a JSON value that is no list; and
    returns 0 with its output written when the dataset is a list and its
    processing completes.  The main function of
    [rediscover_employment_links.py] is the one modelled from the
    specification. *)
Theorem cli_exit_codes (web : Rediscover.collaborators) (cfg : Rediscover.scoring) :
  (Spec.usage_exit MigrateSchema.main 3
   /\ Spec.malformed_abort MigrateSchema.main 3
   /\ forall prog in_path out_path text data w,
        IO.files w !! in_path = Some text ->
        json_loads text = Some (VArr data) ->
        exists w' : IO.world,
          MigrateSchema.main [prog; in_path; out_path] w = (IO.Returned 0, w')
          /\ IO.exit_status (IO.Returned 0) = 0
          /\ IO.files w'
             = <[out_path := json_dumps (VArr (MigrateSchema.migrate_all data O).1)]>
                 (IO.files w))
  /\ (Spec.usage_exit ApplyUrlCheckSummary.main 4
      /\ Spec.malformed_abort ApplyUrlCheckSummary.main 4
      /\ forall prog json_in csv_in json_out text csv_text data data' updates w,
           IO.files w !! json_in = Some text ->
           json_loads text = Some (VArr data) ->
           IO.files w !! csv_in = Some csv_text ->
           ApplyUrlCheckSummary.process_rows
             (ApplyUrlCheckSummary.index_by_town data 0 ∅) 0 (csv_rows csv_text)
             (data, O) = Ok (data', updates) ->
           exists w' : IO.world,
             ApplyUrlCheckSummary.main [prog; json_in; csv_in; json_out] w
             = (IO.Returned 0, w')
             /\ IO.exit_status (IO.Returned 0) = 0
             /\ IO.files w' = <[json_out := json_dumps (VArr data')]> (IO.files w))
  /\ (Spec.usage_exit (Rediscover.main web cfg) 4
      /\ Spec.malformed_abort (Rediscover.main web cfg) 4
      /\ forall prog json_in json_out report_out text data w,
           IO.files w !! json_in = Some text ->
           json_loads text = Some (VArr data) ->
           exists w' : IO.world,
             Rediscover.main web cfg [prog; json_in; json_out; report_out] w
             = (IO.Returned 0, w')
             /\ IO.exit_status (IO.Returned 0) = 0).
Proof.
  repeat split.
  - apply migrate_main_usage.
  - apply migrate_main_malformed.
  - intros prog in_path out_path text data w Hfile Hjson.
    destruct (migrate_main_success prog in_path out_path text data w Hfile Hjson)
      as (w' & Hm & Hf).
    by exists w'.
  - apply apply_main_usage.
  - apply apply_main_malformed.
  - intros prog json_in csv_in json_out text csv_text data data' updates w
      Hfile Hjson Hcsv Hrows.
    pose proof (apply_main_rows prog json_in csv_in json_out text csv_text data w
                  Hfile Hjson Hcsv) as Hmain.
    rewrite Hrows in Hmain. destruct Hmain as (w' & Hm & Hf). by exists w'.
  - apply rediscover_main_usage.
  - apply rediscover_main_malformed.
  - intros prog json_in json_out report_out text data w Hfile Hjson.
    destruct (rediscover_main_success web cfg prog json_in json_out report_out text data w
                Hfile Hjson) as (w' & Hm & _).
    by exists w'.
Qed.

End Cli.

(** ** The rediscovery engine *)

Section RediscoverFacts.
Context `{Runtime}.
Variable web : Rediscover.collaborators.
Variable cfg : Rediscover.scoring.
Import Rediscover.

Lemma healthy_not_broken (rec : gmap string value) :
  Spec.healthy rec -> is_broken rec = false.
Proof.
  intros [(st & Hst & H404 & H410 & Herr) Hsoft]. unfold is_broken.
  rewrite Hst, Hsoft, andb_false_r, orb_false_r.
  apply bool_decide_eq_false_2. unfold REDISCOVER_IF_STATUS_IN.
  rewrite !elem_of_union, !elem_of_singleton.
  intros [[[?|?]|?]|?]; congruence.
Qed.

Lemma rediscover_all_healthy (data : list value) :
  (forall rec, VObj rec ∈ data -> Spec.healthy rec) ->
  rediscover_all web cfg data = (data, []).
Proof.
  induction data as [|v data IH]; intros Hall; [done|].
  assert (Hrest : rediscover_all web cfg data = (data, [])).
  { apply IH. intros rec Hin. apply Hall. by right. }
  simpl. rewrite Hrest. destruct v; try done.
  unfold rediscover_record.
  rewrite healthy_not_broken; [done|]. apply Hall. by left.
Qed.

(** C4.  A record whose employment URL is healthy (its status code is
    none of 404, 410, absent and the error sentinel, and its soft-404
    flag is false) goes through the rediscovery engine unmodified and is
    not reported; a dataset of such records is returned as it is. *)
Theorem healthy_record_untouched (rec : gmap string value) (data : list value) :
  Spec.healthy rec ->
  (forall r, VObj r ∈ data -> Spec.healthy r) ->
  rediscover_record web cfg rec = (rec, None)
  /\ rediscover_all web cfg data = (data, []).
Proof.
  intros Hrec Hdata. split; [|by apply rediscover_all_healthy].
  unfold rediscover_record. by rewrite healthy_not_broken.
Qed.

(** The score and the path length the ranking compares. *)
Local Abbreviation sc home c := (score cfg home c).
Local Abbreviation pl c := (String.length (link_path c)).

Lemma outranks_spec home (a b : nat * link) :
  outranks cfg home a b = true
  <-> (sc home b.2 < sc home a.2)%Z
      \/ (sc home a.2 = sc home b.2 /\ (pl a.2 < pl b.2)%nat).
Proof.
  unfold outranks.
  rewrite orb_true_iff, andb_true_iff, Z.ltb_lt, Z.eqb_eq, Nat.ltb_lt. done.
Qed.

Lemma outranks_false home (a b : nat * link) :
  outranks cfg home a b = false
  <-> (sc home a.2 <= sc home b.2)%Z
      /\ (sc home a.2 = sc home b.2 -> (pl b.2 <= pl a.2)%nat).
Proof.
  rewrite <- not_true_iff_false, outranks_spec. lia.
Qed.

Lemma head_insert_ranked home (c : nat * link) (ranked : list (nat * link)) :
  head (insert_ranked cfg home c ranked)
  = Some match head ranked with
         | Some d => if outranks cfg home d c then d else c
         | None => c
         end.
Proof.
  destruct ranked as [|d rest]; [done|]. simpl.
  by destruct (outranks cfg home d c).
Qed.

Lemma enumerate_elem (k : nat) (links : list link) (d : nat * link) :
  d ∈ enumerate k links <-> (k <= d.1)%nat /\ links !! (d.1 - k)%nat = Some d.2.
Proof.
  revert k. induction links as [|l links IH]; intros k; simpl.
  - rewrite elem_of_nil. split; [done|]. by intros [_ ?].
  - rewrite elem_of_cons, IH. destruct d as [i x]. simpl. split.
    + intros [[= -> ->]|[Hle Hl]].
      * by rewrite Nat.sub_diag.
      * split; [lia|]. by replace (i - k)%nat with (S (i - S k)) by lia.
    + intros [Hle Hl]. destruct (decide (i = k)) as [->|Hne].
      * left. rewrite Nat.sub_diag in Hl. by injection Hl as ->.
      * right. split; [lia|].
        by replace (i - k)%nat with (S (i - S k)) in Hl by lia.
Qed.

Lemma rank_head_None home (k : nat) (links : list link) :
  head (foldr (insert_ranked cfg home) [] (enumerate k links)) = None ->
  links = [].
Proof.
  destruct links as [|l links]; [done|]. simpl.
  by rewrite head_insert_ranked.
Qed.

(** The head of the ranking is a candidate that no candidate outranks and
    that comes first among those it does not outrank. *)
Lemma rank_head_best home (k : nat) (links : list link) (c : nat * link) :
  head (foldr (insert_ranked cfg home) [] (enumerate k links)) = Some c ->
  c ∈ enumerate k links
  /\ forall d, d ∈ enumerate k links ->
       outranks cfg home d c = false
       /\ (outranks cfg home c d = false -> (c.1 <= d.1)%nat).
Proof.
  revert k c. induction links as [|l links IH]; intros k c; [done|].
  simpl. rewrite head_insert_ranked. intros [= Hc].
  destruct (head (foldr _ _ _)) as [d0|] eqn:Eh.
  - destruct (IH (S k) d0 Eh) as [Hin Hbest].
    destruct (outranks cfg home d0 (k, l)) eqn:Eo; subst c.
    + split; [by right|]. intros d [->|Hd]%elem_of_cons.
      * split; [|by rewrite Eo]. apply outranks_false.
        apply outranks_spec in Eo. simpl in *. lia.
      * by apply Hbest.
    + split; [by left|]. intros d [->|Hd]%elem_of_cons.
      * split; [|done]. apply outranks_false. simpl. lia.
      * destruct (Hbest d Hd) as [Hd0 _].
        apply outranks_false in Eo, Hd0. split.
        -- apply outranks_false. simpl in *. lia.
        -- intros _. apply enumerate_elem in Hd as [Hle _]. simpl. lia.
  - apply rank_head_None in Eh as ->. subst c. split; [by left|].
    intros d [->|Hd]%elem_of_cons; [|by apply elem_of_nil in Hd].
    split; [|done]. apply outranks_false. simpl. lia.
Qed.

(** C8.  In the crawl fallback, the engine selects a candidate whenever
    there is a link; the candidate it selects has the highest score,
    among the links of that score the shortest path, and among those the
    first position in the document.  Hence, of two links with equal
    scores, it never selects the one with the longer path, nor, with
    paths of equal length, the one that comes later; and from two links
    alone with equal scores it selects the second exactly when its path
    is strictly shorter. *)
Theorem crawl_tie_break (home : string) (links : list link) :
  (links <> [] -> exists k c, select_candidate cfg home links = Some (k, c))
  /\ (forall k c, select_candidate cfg home links = Some (k, c) ->
        links !! k = Some c
        /\ forall j d, links !! j = Some d ->
             (sc home d <= sc home c)%Z
             /\ (sc home d = sc home c ->
                 (pl c <= pl d)%nat /\ (pl d = pl c -> (k <= j)%nat)))
  /\ (forall i j a b,
        links !! i = Some a -> links !! j = Some b ->
        sc home a = sc home b ->
        (pl a < pl b)%nat \/ (pl a = pl b /\ (i < j)%nat) ->
        select_candidate cfg home links <> Some (j, b))
  /\ (forall a b, sc home a = sc home b ->
        select_candidate cfg home [a; b]
        = Some (if (pl b <? pl a)%nat then (1%nat, b) else (0%nat, a))).
Proof.
  assert (Hbest : forall k c, select_candidate cfg home links = Some (k, c) ->
            links !! k = Some c
            /\ forall j d, links !! j = Some d ->
                 (sc home d <= sc home c)%Z
                 /\ (sc home d = sc home c ->
                     (pl c <= pl d)%nat /\ (pl d = pl c -> (k <= j)%nat))).
  { intros k c Hsel. unfold select_candidate, rank in Hsel.
    apply rank_head_best in Hsel as [Hin Hall].
    apply enumerate_elem in Hin as [_ Hin]. simpl in Hin.
    rewrite Nat.sub_0_r in Hin. split; [done|].
    intros j d Hd.
    destruct (Hall (j, d)) as [Ho Hfirst].
    { apply enumerate_elem. simpl. split; [lia|by rewrite Nat.sub_0_r]. }
    apply outranks_false in Ho. simpl in Ho. split; [lia|].
    intros Heq. split; [lia|]. intros Hpl. apply Hfirst.
    apply outranks_false. simpl. lia. }
  split; [|split; [done|split]].
  - intros Hne. unfold select_candidate, rank.
    destruct (head _) as [[k c]|] eqn:Eh; [eauto|].
    by apply rank_head_None in Eh.
  - intros i j a b Ha Hb Heq Hlt Hsel.
    destruct (Hbest j b Hsel) as [_ Hall].
    destruct (Hall i a Ha) as [_ Htie]. lia.
  - intros a b Heq. unfold select_candidate, rank. simpl.
    unfold outranks. simpl. rewrite Heq, Z.ltb_irrefl, Z.eqb_refl. simpl.
    by destruct (pl b <? pl a)%nat.
Qed.

End RediscoverFacts.

(** ** The theorems on sample data *)

Section Samples.
Local Existing Instance RefRuntime.runtime.
Import ApplyUrlCheckSummary.

(** The reference [urlparse] delimits the scheme and the network location
    as [urllib.parse] does. *)
Lemma break_at_prefix (p : ascii -> bool) (s : string) :
  PyStr.any_char p (RefRuntime.break_at p s).1 = false.
Proof.
  induction s as [|a s IH]; [done|]. simpl.
  destruct (p a) eqn:Ea; [done|].
  destruct (RefRuntime.break_at p s) as [pre post]. simpl in *. by rewrite Ea.
Qed.

Lemma lower_scheme_char (a : ascii) :
  RefRuntime.is_scheme_char a = true ->
  scheme_delimiter (PyStr.lower_ascii a) = false.
Proof. destruct a as [[] [] [] [] [] [] [] []]; by vm_compute. Qed.

Lemma lower_scheme (s : string) :
  PyStr.all_chars RefRuntime.is_scheme_char s = true ->
  PyStr.any_char scheme_delimiter (PyStr.lower s) = false.
Proof.
  induction s as [|a s IH]; [done|]. simpl. intros [Ha Hs]%andb_prop.
  by rewrite (lower_scheme_char a Ha), (IH Hs).
Qed.

Lemma split_scheme_delimited (url : string) :
  PyStr.any_char scheme_delimiter (RefRuntime.split_scheme url).1 = false.
Proof.
  unfold RefRuntime.split_scheme.
  destruct (RefRuntime.break_at (Ascii.eqb ":") url) as [[|a pre] [[|b rest]|]];
    try done.
  destruct (RefRuntime.is_alpha a && _) eqn:E; [|done].
  apply andb_prop in E as [_ E]. by apply lower_scheme.
Qed.

Lemma split_netloc_delimited (url nl rest : string) :
  RefRuntime.split_netloc url = Some (nl, rest) ->
  PyStr.any_char netloc_delimiter nl = false.
Proof.
  unfold RefRuntime.split_netloc. intros Hs.
  pose proof (break_at_prefix RefRuntime.is_netloc_end) as Hpre.
  repeat case_match; simplify_eq; try done.
  match goal with
  | Hb : RefRuntime.break_at _ ?r = (_, _) |- _ =>
      specialize (Hpre r); rewrite Hb in Hpre; exact Hpre
  end.
Qed.

Lemma ref_urlparse_delimits : @urlparse_delimits RefRuntime.runtime.
Proof.
  intros u r Hu. change (RefRuntime.ref_urlparse u = Some r) in Hu.
  unfold RefRuntime.ref_urlparse in Hu.
  pose proof (split_scheme_delimited
                (RefRuntime.remove_unsafe (RefRuntime.lstrip_c0 u))) as Hsch.
  destruct (RefRuntime.split_scheme _) as [sch url1].
  destruct (RefRuntime.split_netloc url1) as [[nl url2]|] eqn:En; [|done].
  injection Hu as <-. simpl. split; [exact Hsch|].
  by eapply split_netloc_delimited.
Qed.

(** A record whose Town Website is its own homepage goes through lines
    130-136 unchanged. *)
Lemma ensure_town_website_fixed field (rec : gmap string value) (tw : string) :
  rec !! "Town Website" = Some (VStr tw) ->
  homepage (VStr tw) = Ok (Some tw) ->
  ensure_town_website field rec = Ok rec.
Proof.
  intros Htw Hh. unfold ensure_town_website.
  rewrite (get_lookup _ _ _ Htw), Hh. simpl.
  change (Ok (<["Town Website" := or_value (Some tw) (VStr tw)]> rec) = Ok rec).
  by rewrite (or_value_truthy tw _ (homepage_truthy _ _ Hh)), insert_id.
Qed.

Lemma sample_prepare (row : gmap string string) (st : option Z) (fin : string) :
  row_status row = st -> row_final_url row = Some fin ->
  row_checked_at row Example.checked_at = Example.checked_at ->
  row_soft404 row = false -> row_error row = None ->
  row_prepare Example.checked_at "Employment Page URL" "employment" row
    Example.ashford
  = Ok (Example.prepared st fin Example.ashford).
Proof.
  intros Hs Hf Hc Hsoft He. unfold row_prepare. rewrite Hs, Hf, Hc, Hsoft, He.
  apply (ensure_town_website_fixed _ _ "http://ashford.gov/").
  - unfold Example.prepared. by rewrite stamp_metadata_lookup_other.
  - vm_compute. reflexivity.
Qed.

(** The loop of [apply_url_check_summary.py] over the sample report: the
    row of Ashford fires both rules, the row of Bolton only stamps, the row
    of Dover is skipped. *)
Lemma sample_run :
  match process_rows (index_by_town Example.dataset 0 ∅) 0
          (csv_rows Example.checks_csv) (Example.dataset, O) with
  | Ok (data', updates) =>
      Some (updates, Example.digest data' 0, Example.digest data' 1)
  | Raise _ => None
  end
  = Some (2%nat,
          [ Some (VStr "http://ashford.gov/354/Employment-Opportunities");
            Some (VStr "civicplus_pageid_canonicalized");
            Some (VInt 200);
            Some (VStr "http://ashford.gov/") ],
          [ None; None; Some (VInt 404);
            Some (VStr "www.bolton.gov/departments/hr") ]).
Proof. vm_compute. reflexivity. Qed.

Lemma sample_has_pageid_path :
  Spec.has_pageid_path "http://ashford.gov/354/Employment-Opportunities".
Proof.
  eexists. split; [vm_compute; reflexivity|].
  apply CIVICPLUS_PAGEID_RE_match_spec. vm_compute. reflexivity.
Qed.

Lemma sample_no_pageid_path :
  ~ Spec.has_pageid_path "http://ashford.gov/home/pages/jobs".
Proof.
  intros (r & Hr & Hp). vm_compute in Hr. injection Hr as <-.
  apply CIVICPLUS_PAGEID_RE_match_spec in Hp. vm_compute in Hp. discriminate.
Qed.

Lemma redirect_rule_exact_witness :
  field_to_prefix "Employment Page URL" = Some "employment"
  /\ row_prepare Example.checked_at "Employment Page URL" "employment"
       Example.row_redirect Example.ashford
     = Ok (Example.prepared (Some 200) "https://www.ashford.gov/home/pages/jobs"
             Example.ashford)
  /\ (redirect_phase "Employment Page URL" "employment"
        (row_final_url Example.row_redirect) (row_status Example.row_redirect)
        (row_soft404 Example.row_redirect)
        (Example.prepared (Some 200) "https://www.ashford.gov/home/pages/jobs"
           Example.ashford, O)).1 !! "Employment Page URL"
     = Some (VStr "https://www.ashford.gov/home/pages/jobs").
Proof.
  assert (Hp : field_to_prefix "Employment Page URL" = Some "employment")
    by reflexivity.
  assert (Hok : row_prepare Example.checked_at "Employment Page URL" "employment"
                  Example.row_redirect Example.ashford
                = Ok (Example.prepared (Some 200)
                        "https://www.ashford.gov/home/pages/jobs" Example.ashford))
    by (apply sample_prepare; vm_compute; reflexivity).
  split; [exact Hp|]. split; [exact Hok|].
  destruct (redirect_rule_exact _ _ _ _ _ _ O Hp Hok) as (_ & _ & Hfire & _).
  apply (Hfire "http://ashford.gov/home/pages/jobs").
  unfold Spec.redirect_conditions.
  split; [vm_compute; reflexivity|]. split; [vm_compute; reflexivity|].
  split; [discriminate|]. split.
  - exists 200. split; [vm_compute; reflexivity|]. lia.
  - split; [vm_compute; reflexivity|discriminate].
Defined.

Lemma civicplus_rule_exact_witness :
  field_to_prefix "Employment Page URL" = Some "employment"
  /\ row_prepare Example.checked_at "Employment Page URL" "employment"
       Example.row_pageid Example.ashford
     = Ok (Example.prepared (Some 200)
             "http://ashford.gov/354/Employment-Opportunities" Example.ashford)
  /\ Example.ashford !! "Employment Page URL"
     = Some (VStr "http://ashford.gov/home/pages/jobs")
  /\ row_status Example.row_pageid = Some 200
  /\ 200 < 400 /\ 200 <> 401 /\ 200 <> 403
  /\ row_soft404 Example.row_pageid = false
  /\ row_final_url Example.row_pageid
     = Some "http://ashford.gov/354/Employment-Opportunities"
  /\ exists s2 : gmap string value * nat,
       row_body Example.checked_at "Employment Page URL" "employment"
         Example.row_pageid (Example.ashford, O) = Ok s2
       /\ s2.1 !! "Employment Page URL"
          = Some (VStr "http://ashford.gov/354/Employment-Opportunities")
       /\ s2.1 !! "employment_url_change_reason"
          = Some (VStr "civicplus_pageid_canonicalized")
       /\ s2.1 !! "employment_url_confidence" = Some (VInt 95).
Proof.
  assert (Hp : field_to_prefix "Employment Page URL" = Some "employment")
    by reflexivity.
  assert (Hok : row_prepare Example.checked_at "Employment Page URL" "employment"
                  Example.row_pageid Example.ashford
                = Ok (Example.prepared (Some 200)
                        "http://ashford.gov/354/Employment-Opportunities"
                        Example.ashford))
    by (apply sample_prepare; vm_compute; reflexivity).
  assert (Hcur : Example.ashford !! "Employment Page URL"
                 = Some (VStr "http://ashford.gov/home/pages/jobs"))
    by (vm_compute; reflexivity).
  assert (Hst : row_status Example.row_pageid = Some 200)
    by (vm_compute; reflexivity).
  assert (Hsoft : row_soft404 Example.row_pageid = false)
    by (vm_compute; reflexivity).
  assert (Hfin : row_final_url Example.row_pageid
                 = Some "http://ashford.gov/354/Employment-Opportunities")
    by (vm_compute; reflexivity).
  repeat (split; [first [assumption | lia]|]).
  destruct (civicplus_rule_exact Example.checked_at _ _ _ _ _ O 200 _ _
              Hp Hok Hcur Hst ltac:(lia) ltac:(lia) ltac:(lia) Hsoft Hfin)
    as (s2 & Hbody & Hfire & _).
  exists s2. split; [exact Hbody|].
  apply Hfire; [exact sample_has_pageid_path|exact sample_no_pageid_path].
Defined.

Lemma both_rules_fire_witness :
  field_to_prefix "Employment Page URL" = Some "employment"
  /\ row_prepare Example.checked_at "Employment Page URL" "employment"
       Example.row_pageid Example.ashford
     = Ok (Example.prepared (Some 200)
             "http://ashford.gov/354/Employment-Opportunities" Example.ashford)
  /\ Example.ashford !! "Employment Page URL"
     = Some (VStr "http://ashford.gov/home/pages/jobs")
  /\ row_status Example.row_pageid = Some 200
  /\ 200 < 400 /\ 200 <> 401 /\ 200 <> 403
  /\ row_soft404 Example.row_pageid = false
  /\ row_final_url Example.row_pageid
     = Some "http://ashford.gov/354/Employment-Opportunities"
  /\ "http://ashford.gov/354/Employment-Opportunities"
     <> "http://ashford.gov/home/pages/jobs"
  /\ Spec.has_pageid_path "http://ashford.gov/354/Employment-Opportunities"
  /\ ~ Spec.has_pageid_path "http://ashford.gov/home/pages/jobs"
  /\ exists rec' : gmap string value,
       row_body Example.checked_at "Employment Page URL" "employment"
         Example.row_pageid (Example.ashford, O) = Ok (rec', 2%nat)
       /\ rec' !! "Employment Page URL"
          = Some (VStr "http://ashford.gov/354/Employment-Opportunities")
       /\ rec' !! "employment_url_change_reason"
          = Some (VStr "civicplus_pageid_canonicalized")
       /\ rec' !! "employment_url_confidence" = Some (VInt 95).
Proof.
  assert (Hp : field_to_prefix "Employment Page URL" = Some "employment")
    by reflexivity.
  assert (Hok : row_prepare Example.checked_at "Employment Page URL" "employment"
                  Example.row_pageid Example.ashford
                = Ok (Example.prepared (Some 200)
                        "http://ashford.gov/354/Employment-Opportunities"
                        Example.ashford))
    by (apply sample_prepare; vm_compute; reflexivity).
  assert (Hcur : Example.ashford !! "Employment Page URL"
                 = Some (VStr "http://ashford.gov/home/pages/jobs"))
    by (vm_compute; reflexivity).
  assert (Hst : row_status Example.row_pageid = Some 200)
    by (vm_compute; reflexivity).
  assert (Hsoft : row_soft404 Example.row_pageid = false)
    by (vm_compute; reflexivity).
  assert (Hfin : row_final_url Example.row_pageid
                 = Some "http://ashford.gov/354/Employment-Opportunities")
    by (vm_compute; reflexivity).
  assert (Hne : "http://ashford.gov/354/Employment-Opportunities"
                <> "http://ashford.gov/home/pages/jobs") by discriminate.
  repeat (split; [first [assumption | lia | exact sample_has_pageid_path
                        | exact sample_no_pageid_path]|]).
  destruct (both_rules_fire Example.checked_at _ _ _ _ _ O 200 _ _
              Hp Hok Hcur Hst ltac:(lia) ltac:(lia) ltac:(lia) Hsoft Hfin Hne
              sample_has_pageid_path sample_no_pageid_path)
    as (_ & _ & rec' & Hbody & _ & Hlook).
  exists rec'. split; [exact Hbody|exact Hlook].
Defined.

Lemma bot_block_status_frame_witness :
  field_to_prefix "Employment Page URL" = Some "employment"
  /\ row_prepare Example.checked_at "Employment Page URL" "employment"
       Example.row_blocked Example.ashford
     = Ok (Example.prepared (Some 403) "https://www.ashford.gov/home/pages/jobs"
             Example.ashford)
  /\ row_status Example.row_blocked = Some 403
  /\ (403 = 401 \/ 403 = 403)
  /\ row_body Example.checked_at "Employment Page URL" "employment"
       Example.row_blocked (Example.ashford, O)
     = Ok (Example.prepared (Some 403) "https://www.ashford.gov/home/pages/jobs"
             Example.ashford, O)
  /\ Example.prepared (Some 403) "https://www.ashford.gov/home/pages/jobs"
       Example.ashford !! "Employment Page URL"
     = Example.ashford !! "Employment Page URL"
  /\ Example.prepared (Some 403) "https://www.ashford.gov/home/pages/jobs"
       Example.ashford !! "employment_url_status_code"
     = Some (VInt 403).
Proof.
  assert (Hp : field_to_prefix "Employment Page URL" = Some "employment")
    by reflexivity.
  assert (Hok : row_prepare Example.checked_at "Employment Page URL" "employment"
                  Example.row_blocked Example.ashford
                = Ok (Example.prepared (Some 403)
                        "https://www.ashford.gov/home/pages/jobs" Example.ashford))
    by (apply sample_prepare; vm_compute; reflexivity).
  assert (Hst : row_status Example.row_blocked = Some 403)
    by (vm_compute; reflexivity).
  assert (Hblock : 403 = 401 \/ 403 = 403) by (right; reflexivity).
  repeat (split; [assumption|]).
  destruct (bot_block_status_frame Example.checked_at _ _ _ _ _ O 403
              Hp Hok Hst Hblock) as (Hbody & Hfield & _ & _ & Hcode & _).
  split; [exact Hbody|]. split; [exact Hfield|exact Hcode].
Defined.

Lemma unparsed_status_no_rewrite_witness :
  field_to_prefix "Employment Page URL" = Some "employment"
  /\ row_prepare Example.checked_at "Employment Page URL" "employment"
       Example.row_unparsed Example.ashford
     = Ok (Example.prepared None "https://www.ashford.gov/home/pages/jobs"
             Example.ashford)
  /\ (row_status_str Example.row_unparsed = EmptyString
      \/ int_of_float (row_status_str Example.row_unparsed) = None)
  /\ row_status Example.row_unparsed = None
  /\ row_body Example.checked_at "Employment Page URL" "employment"
       Example.row_unparsed (Example.ashford, O)
     = Ok (Example.prepared None "https://www.ashford.gov/home/pages/jobs"
             Example.ashford, O)
  /\ Example.prepared None "https://www.ashford.gov/home/pages/jobs"
       Example.ashford !! "employment_url_status_code"
     = Some VNone.
Proof.
  assert (Hp : field_to_prefix "Employment Page URL" = Some "employment")
    by reflexivity.
  assert (Hok : row_prepare Example.checked_at "Employment Page URL" "employment"
                  Example.row_unparsed Example.ashford
                = Ok (Example.prepared None
                        "https://www.ashford.gov/home/pages/jobs" Example.ashford))
    by (apply sample_prepare; vm_compute; reflexivity).
  assert (Hbad : row_status_str Example.row_unparsed = EmptyString
                 \/ int_of_float (row_status_str Example.row_unparsed) = None)
    by (right; vm_compute; reflexivity).
  repeat (split; [assumption|]).
  destruct (unparsed_status_no_rewrite Example.checked_at _ _ _ _ _ O
              Hp Hok Hbad) as (Hnone & Hbody & Hcode & _).
  split; [exact Hnone|]. split; [exact Hbody|exact Hcode].
Defined.

Lemma sample_healthy : Spec.healthy Example.canton.
Proof.
  split; [|vm_compute; reflexivity].
  exists 200. split; [vm_compute; reflexivity|]. lia.
Defined.

Lemma healthy_record_untouched_witness :
  Spec.healthy Example.canton
  /\ (forall r, VObj r ∈ [VObj Example.canton] -> Spec.healthy r)
  /\ Rediscover.rediscover_record Example.dead_web Example.flat_scoring
       Example.canton = (Example.canton, None)
  /\ Rediscover.rediscover_all Example.dead_web Example.flat_scoring
       [VObj Example.canton] = ([VObj Example.canton], []).
Proof.
  assert (Hall : forall r, VObj r ∈ [VObj Example.canton] -> Spec.healthy r).
  { intros r Hin. apply list_elem_of_singleton in Hin. injection Hin as ->.
    exact sample_healthy. }
  split; [exact sample_healthy|]. split; [exact Hall|].
  exact (healthy_record_untouched Example.dead_web Example.flat_scoring
           Example.canton [VObj Example.canton] sample_healthy Hall).
Defined.

Lemma originals_write_once_witness :
  ("Employment Page URL" = "Employment Page URL"
   \/ "Employment Page URL" = "Application Form URL")
  /\ (MigrateSchema.migrate_record (Example.canton, O)).1
       !! "Employment Page URL (original)"
     = Some (VStr "https://canton.gov/old-jobs")
  /\ (MigrateSchema.migrate_record (Example.ashford, O)).1
       !! "Employment Page URL (original)"
     = Some (VStr "http://ashford.gov/home/pages/jobs").
Proof.
  assert (Hf : "Employment Page URL" = "Employment Page URL"
               \/ "Employment Page URL" = "Application Form URL")
    by (left; reflexivity).
  split; [exact Hf|]. split.
  - destruct (originals_write_once "Employment Page URL" Example.canton O O [] Hf)
      as (Hkeep & _).
    apply Hkeep. vm_compute. reflexivity.
  - destruct (originals_write_once "Employment Page URL" Example.ashford O O [] Hf)
      as (_ & Hset & _).
    apply Hset; vm_compute; reflexivity.
Defined.

(** A URL with a deep path is no bare homepage, with or without a slash
    at its end. *)
Lemma deep_path_not_bare :
  ~ Spec.bare_homepage (VStr "http://www.bolton.gov/departments/hr/")
  /\ ~ Spec.bare_homepage (VStr "http://www.bolton.gov/departments/hr").
Proof.
  split; intros Hb; apply bare_homepage_slashes in Hb; vm_compute in Hb;
    discriminate.
Qed.



Lemma cli_exit_codes_witness :
  (exists w', MigrateSchema.main ["migrate_schema.py"] Example.disk
              = (IO.Returned 2, w')
              /\ IO.reads w' = IO.reads Example.disk)
  /\ (exists e w', MigrateSchema.main
                     ["migrate_schema.py"; "object.json"; "out.json"] Example.disk
                   = (IO.Uncaught e, w')
                   /\ IO.exit_status (IO.Uncaught e) <> 0
                   /\ IO.files w' = IO.files Example.disk)
  /\ (exists w', MigrateSchema.main
                   ["migrate_schema.py"; "towns.json"; "out.json"] Example.disk
                 = (IO.Returned 0, w'))
  /\ (exists w', ApplyUrlCheckSummary.main
                   ["apply_url_check_summary.py"; "towns.json"; "checks.csv";
                    "out.json"] Example.disk
                 = (IO.Returned 0, w'))
  /\ (exists w', Rediscover.main Example.dead_web Example.flat_scoring
                   ["rediscover_employment_links.py"; "towns.json"; "out.json";
                    "report.csv"] Example.disk
                 = (IO.Returned 0, w')).
Proof.
  destruct (cli_exit_codes Example.dead_web Example.flat_scoring)
    as ((Musage & Mabort & Mok) & (_ & _ & Aok) & (_ & _ & Rok)).
  repeat split.
  - destruct (Musage ["migrate_schema.py"] Example.disk) as (w' & Hm & _ & _ & Hr & _);
      [discriminate|].
    by exists w'.
  - destruct (Mabort ["migrate_schema.py"; "object.json"; "out.json"] Example.disk
                "object.json" "{}" (VObj ∅)) as (e & w' & Hm & He & Hf & _);
      [reflexivity|reflexivity|vm_compute; reflexivity|vm_compute; reflexivity
      |discriminate|].
    by exists e, w'.
  - destruct (Mok "migrate_schema.py" "towns.json" "out.json" "[]" [] Example.disk)
      as (w' & Hm & _); [vm_compute; reflexivity|vm_compute; reflexivity|].
    by exists w'.
  - destruct (Aok "apply_url_check_summary.py" "towns.json" "checks.csv" "out.json"
                "[]" "Town,Field,Status" [] [] O Example.disk)
      as (w' & Hm & _);
      [vm_compute; reflexivity|vm_compute; reflexivity|vm_compute; reflexivity
      |vm_compute; reflexivity|].
    by exists w'.
  - destruct (Rok "rediscover_employment_links.py" "towns.json" "out.json"
                "report.csv" "[]" [] Example.disk)
      as (w' & Hm & _); [vm_compute; reflexivity|vm_compute; reflexivity|].
    by exists w'.
Defined.

Lemma crawl_tie_break_witness :
  Rediscover.select_candidate Example.flat_scoring "http://ashford.gov/"
    [Example.link_long; Example.link_short]
  = Some (1%nat, Example.link_short)
  /\ Rediscover.select_candidate Example.flat_scoring "http://ashford.gov/"
       [Example.link_short; Example.link_short]
     = Some (0%nat, Example.link_short).
Proof.
  split.
  - destruct (crawl_tie_break Example.flat_scoring "http://ashford.gov/" [])
      as (_ & _ & _ & Hpair).
    rewrite (Hpair Example.link_long Example.link_short) by reflexivity.
    vm_compute. reflexivity.
  - destruct (crawl_tie_break Example.flat_scoring "http://ashford.gov/" [])
      as (_ & _ & _ & Hpair).
    rewrite (Hpair Example.link_short Example.link_short) by reflexivity.
    vm_compute. reflexivity.
Defined.

End Samples.

(** * Further properties of the scripts *)

(** ** migrate_schema.py: what a migration touches *)

Section MigrateMore.
Context `{Runtime}.
Import MigrateSchema.

Lemma is_Some_insert (m : gmap string value) (j k : string) (v : value) :
  is_Some (m !! k) -> is_Some (<[j := v]> m !! k).
Proof.
  intros Hk. destruct (decide (j = k)) as [->|Hne].
  - rewrite lookup_insert_eq. eauto.
  - by rewrite lookup_insert_ne.
Qed.

Lemma set_town_website_is_Some home (s : gmap string value * nat) (k : string) :
  is_Some (s.1 !! k) -> is_Some ((set_town_website home s).1 !! k).
Proof.
  intros Hk. unfold set_town_website.
  destruct home as [h|]; [|done]. destruct (_ && _); [|done].
  by apply is_Some_insert.
Qed.

Lemma freeze_original_is_Some field (s : gmap string value * nat) (k : string) :
  is_Some (s.1 !! k) -> is_Some ((freeze_original field s).1 !! k).
Proof.
  intros Hk. unfold freeze_original.
  destruct (s.1 !! (field ++ " (original)")); [done|].
  destruct (get s.1 field); try done. by apply is_Some_insert.
Qed.

(** X1.  The migration of a record removes no key and assigns at most the
    Town Website and the two frozen copies: under every other key (the town
    name, the two current URLs, the metadata) the record holds what it held
    before. *)
Theorem migrate_keeps_keys (rec : gmap string value) (n : nat) (k : string) :
  (k ∉ Frame.migrate_keys -> (migrate_record (rec, n)).1 !! k = rec !! k)
  /\ (is_Some (rec !! k) -> is_Some ((migrate_record (rec, n)).1 !! k)).
Proof.
  unfold migrate_record. split.
  - unfold Frame.migrate_keys. rewrite !not_elem_of_cons. intros (Htw & He & Ha & _).
    rewrite !freeze_original_lookup_other by done.
    by rewrite set_town_website_lookup_other.
  - intros Hk. do 2 apply freeze_original_is_Some.
    by apply set_town_website_is_Some.
Qed.

Lemma set_town_website_counter home (s : gmap string value * nat) :
  set_town_website home s = s
  \/ ((set_town_website home s).2 = S s.2
      /\ (set_town_website home s).1 !! "Town Website" <> s.1 !! "Town Website"
      /\ exists v, (set_town_website home s).1 = <["Town Website" := v]> s.1).
Proof.
  unfold set_town_website. destruct home as [h|]; [|by left].
  destruct (PyStr.truthy h && differs_from_str (get s.1 "Town Website") h) eqn:E;
    [|by left].
  right. simpl. split; [done|]. split; [|eauto].
  rewrite lookup_insert_eq. intros Heq. symmetry in Heq.
  apply andb_prop in E as [_ Hd]. unfold differs_from_str in Hd.
  rewrite (get_lookup _ _ _ Heq) in Hd.
  by rewrite String.eqb_refl in Hd.
Qed.

Lemma freeze_original_counter field (s : gmap string value * nat) :
  freeze_original field s = s
  \/ ((freeze_original field s).2 = S s.2
      /\ s.1 !! (field ++ " (original)") = None
      /\ is_Some ((freeze_original field s).1 !! (field ++ " (original)"))).
Proof.
  unfold freeze_original.
  destruct (s.1 !! (field ++ " (original)")) eqn:E; [by left|].
  destruct (get s.1 field); try by left.
  right. simpl. rewrite lookup_insert_eq. eauto.
Qed.

(** Three keys of which each is either rebound to another value or left
    as it is, in a map that is otherwise unchanged: the keys whose binding
    changed, listed without repetition. *)
Lemma changed_keys (m m' : gmap string value) (k1 k2 k3 : string) (b1 b2 b3 : bool) :
  k1 <> k2 -> k1 <> k3 -> k2 <> k3 ->
  (if b1 then m' !! k1 <> m !! k1 else m' !! k1 = m !! k1) ->
  (if b2 then m' !! k2 <> m !! k2 else m' !! k2 = m !! k2) ->
  (if b3 then m' !! k3 <> m !! k3 else m' !! k3 = m !! k3) ->
  (forall k, k <> k1 -> k <> k2 -> k <> k3 -> m' !! k = m !! k) ->
  exists ks : list string,
    NoDup ks
    /\ (forall k, k ∈ ks <-> m' !! k <> m !! k)
    /\ length ks = (Nat.b2n b1 + Nat.b2n b2 + Nat.b2n b3)%nat.
Proof.
  intros N12 N13 N23 H1 H2 H3 Hother.
  exists ((if b1 then [k1] else []) ++ (if b2 then [k2] else [])
          ++ (if b3 then [k3] else []))%list.
  split; [|split].
  - destruct b1, b2, b3; simpl;
      rewrite ?NoDup_cons, ?not_elem_of_cons, ?elem_of_nil;
      repeat split; try done; try apply NoDup_nil_2; by intros [].
  - intros k. rewrite !elem_of_app. split.
    + intros [Hk|[Hk|Hk]].
      * destruct b1; [|by apply elem_of_nil in Hk].
        by apply list_elem_of_singleton in Hk as ->.
      * destruct b2; [|by apply elem_of_nil in Hk].
        by apply list_elem_of_singleton in Hk as ->.
      * destruct b3; [|by apply elem_of_nil in Hk].
        by apply list_elem_of_singleton in Hk as ->.
    + intros Hk.
      destruct (decide (k = k1)) as [->|Nk1].
      { left. destruct b1; [by apply list_elem_of_singleton|done]. }
      destruct (decide (k = k2)) as [->|Nk2].
      { right. left. destruct b2; [by apply list_elem_of_singleton|done]. }
      destruct (decide (k = k3)) as [->|Nk3].
      { right. right. destruct b3; [by apply list_elem_of_singleton|done]. }
      by destruct (Hk (Hother k Nk1 Nk2 Nk3)).
  - by destruct b1, b2, b3.
Qed.

(** X2.  The counter the migration reports grows by the number of keys it
    assigned to the record: every assignment of lines 63, 68 and 72 is
    guarded so that it changes what the key is bound to, and the counter
    grows by the number of keys whose binding the migration changed.  That
    number is at most three, and the counter stays as it was exactly when
    the record is unchanged. *)
Theorem migrate_counter (rec : gmap string value) (n : nat) :
  (exists assigned : list string,
     NoDup assigned
     /\ (forall k, k ∈ assigned <-> (migrate_record (rec, n)).1 !! k <> rec !! k)
     /\ (migrate_record (rec, n)).2 = (n + length assigned)%nat)
  /\ (n <= (migrate_record (rec, n)).2 <= n + 3)%nat
  /\ ((migrate_record (rec, n)).2 = n <-> (migrate_record (rec, n)).1 = rec).
Proof.
  unfold migrate_record.
  set (s1 := set_town_website (derive_home (rec, n).1) (rec, n)).
  set (s2 := freeze_original "Employment Page URL" s1).
  set (s3 := freeze_original "Application Form URL" s2).
  assert (H1 : s1 = (rec, n)
               \/ (s1.2 = S n /\ s1.1 !! "Town Website" <> rec !! "Town Website"))
    by (destruct (set_town_website_counter (derive_home (rec, n).1) (rec, n))
          as [?|(? & ? & _)]; auto).
  assert (H2 : s2 = s1
               \/ (s2.2 = S s1.2
                   /\ s1.1 !! "Employment Page URL (original)" = None
                   /\ is_Some (s2.1 !! "Employment Page URL (original)")))
    by apply (freeze_original_counter "Employment Page URL").
  assert (H3 : s3 = s2
               \/ (s3.2 = S s2.2
                   /\ s2.1 !! "Application Form URL (original)" = None
                   /\ is_Some (s3.1 !! "Application Form URL (original)")))
    by apply (freeze_original_counter "Application Form URL").
  assert (Htw : s3.1 !! "Town Website" = s1.1 !! "Town Website")
    by (unfold s3, s2; by rewrite !freeze_original_lookup_other).
  assert (He : s3.1 !! "Employment Page URL (original)"
               = s2.1 !! "Employment Page URL (original)")
    by (unfold s3; by rewrite freeze_original_lookup_other).
  assert (He1 : s1.1 !! "Employment Page URL (original)"
                = rec !! "Employment Page URL (original)")
    by (unfold s1; by rewrite set_town_website_lookup_other).
  assert (Ha2 : s2.1 !! "Application Form URL (original)"
                = rec !! "Application Form URL (original)").
  { unfold s2, s1. rewrite freeze_original_lookup_other by done.
    by rewrite set_town_website_lookup_other. }
  split.
  { assert (Hother : forall k, k <> "Town Website" ->
                       k <> "Employment Page URL (original)" ->
                       k <> "Application Form URL (original)" ->
                       s3.1 !! k = rec !! k).
    { intros k Ntw Ne Na. unfold s3, s2, s1.
      rewrite !freeze_original_lookup_other by done.
      by rewrite set_town_website_lookup_other. }
    assert (C1 : exists b1 : bool,
               s1.2 = (n + Nat.b2n b1)%nat
               /\ if b1 then s3.1 !! "Town Website" <> rec !! "Town Website"
                  else s3.1 !! "Town Website" = rec !! "Town Website").
    { destruct H1 as [E1|[E1 N1]].
      - exists false. rewrite Htw, E1. simpl. split; [lia|done].
      - exists true. rewrite Htw, E1. simpl. split; [lia|done]. }
    assert (C2 : exists b2 : bool,
               s2.2 = (s1.2 + Nat.b2n b2)%nat
               /\ if b2 then s3.1 !! "Employment Page URL (original)"
                             <> rec !! "Employment Page URL (original)"
                  else s3.1 !! "Employment Page URL (original)"
                       = rec !! "Employment Page URL (original)").
    { destruct H2 as [E2|(E2 & N2 & S2)].
      - exists false. rewrite He, E2, He1. simpl. split; [lia|done].
      - exists true. rewrite He, E2. simpl. split; [lia|].
        rewrite <- He1, N2. intros Heq. rewrite Heq in S2. by destruct S2. }
    assert (C3 : exists b3 : bool,
               s3.2 = (s2.2 + Nat.b2n b3)%nat
               /\ if b3 then s3.1 !! "Application Form URL (original)"
                             <> rec !! "Application Form URL (original)"
                  else s3.1 !! "Application Form URL (original)"
                       = rec !! "Application Form URL (original)").
    { destruct H3 as [E3|(E3 & N3 & S3)].
      - exists false. rewrite E3, Ha2. simpl. split; [lia|done].
      - exists true. rewrite E3. simpl. split; [lia|].
        rewrite <- Ha2, N3. intros Heq. rewrite Heq in S3. by destruct S3. }
    destruct C1 as (b1 & Hc1 & Hk1), C2 as (b2 & Hc2 & Hk2), C3 as (b3 & Hc3 & Hk3).
    destruct (changed_keys rec s3.1 "Town Website" "Employment Page URL (original)"
                "Application Form URL (original)" b1 b2 b3)
      as (ks & Hnd & Hin & Hlen); try done.
    exists ks. split; [done|]. split; [done|]. rewrite Hlen. lia. }
  split.
  - destruct H1 as [E1|[E1 _]], H2 as [E2|[E2 _]], H3 as [E3|[E3 _]];
      rewrite ?E3, ?E2, ?E1; simpl; lia.
  - split.
    + intros Hc.
      destruct H1 as [E1|[E1 _]], H2 as [E2|[E2 _]], H3 as [E3|[E3 _]];
        rewrite ?E3, ?E2, ?E1 in Hc; simpl in Hc; try lia.
      by rewrite E3, E2, E1.
    + intros Hrec.
      destruct H1 as [E1|[_ N1]].
      2:{ exfalso. apply N1. by rewrite <- Htw, Hrec. }
      destruct H2 as [E2|(_ & N2 & S2)].
      2:{ exfalso. rewrite He1 in N2. rewrite <- He, Hrec, N2 in S2.
          by destruct S2. }
      destruct H3 as [E3|(_ & N3 & S3)].
      2:{ exfalso. rewrite Ha2 in N3. rewrite Hrec, N3 in S3. by destruct S3. }
      by rewrite E3, E2, E1.
Qed.

Lemma derive_home_ext (r r' : gmap string value) :
  get r' "Town Website" = get r "Town Website" ->
  get r' "Employment Page URL" = get r "Employment Page URL" ->
  get r' "Application Form URL" = get r "Application Form URL" ->
  derive_home r' = derive_home r.
Proof. unfold derive_home. by intros -> -> ->. Qed.

Lemma derive_home_read_back (r : gmap string value) (h : string) :
  r !! "Town Website" = Some (VStr h) ->
  homepage_from_url (VStr h) = Some h ->
  derive_home r = Some h.
Proof.
  intros Htw Hh. unfold derive_home. rewrite (get_lookup _ _ _ Htw), Hh.
  simpl. by rewrite (homepage_from_url_truthy _ _ Hh).
Qed.

Lemma freeze_original_settled field (s : gmap string value * nat) :
  (s.1 !! (field ++ " (original)") = None -> forall url, get s.1 field <> VStr url) ->
  freeze_original field s = s.
Proof.
  intros Hs. unfold freeze_original.
  destruct (s.1 !! (field ++ " (original)")) eqn:E; [done|].
  destruct (get s.1 field) eqn:Eg; try done. by destruct (Hs eq_refl s0).
Qed.

(** A record that went through the migration goes through it again
    unchanged, when [urlparse] reads its homepage back. *)
Lemma migrate_record_again (rec : gmap string value) (n m : nat) :
  (forall h, derive_home rec = Some h -> homepage_from_url (VStr h) = Some h) ->
  migrate_record ((migrate_record (rec, n)).1, m) = ((migrate_record (rec, n)).1, m).
Proof.
  intros Hback. set (rec' := (migrate_record (rec, n)).1).
  assert (Htw : rec' !! "Town Website"
                = match derive_home rec with
                  | Some h => Some (VStr h)
                  | None => rec !! "Town Website"
                  end) by apply migrate_record_town_website.
  assert (Hurl : forall field,
            field = "Employment Page URL" \/ field = "Application Form URL" ->
            rec' !! field = rec !! field)
    by (intros field Hf; by apply (migrate_record_url field (rec, n))).
  assert (Horig : forall field,
            field = "Employment Page URL" \/ field = "Application Form URL" ->
            rec' !! (field ++ " (original)") = None ->
            forall url, get rec' field <> VStr url).
  { intros field Hf Hnone url. unfold get. rewrite (Hurl field Hf).
    fold (get rec field). unfold rec' in Hnone.
    rewrite (migrate_record_original field (rec, n) Hf) in Hnone. simpl in Hnone.
    destruct (rec !! (field ++ " (original)")); [done|].
    by destruct (get rec field). }
  unfold migrate_record. simpl.
  assert (Hset : set_town_website (derive_home rec') (rec', m) = (rec', m)).
  { destruct (derive_home rec) as [h|] eqn:Eh.
    - rewrite (derive_home_read_back rec' h Htw (Hback h eq_refl)).
      unfold set_town_website. simpl. rewrite (get_lookup _ _ _ Htw). simpl.
      by rewrite String.eqb_refl, andb_false_r.
    - rewrite (derive_home_ext rec rec'), Eh; [done|..]; unfold get.
      + by rewrite Htw.
      + rewrite Hurl; auto.
      + rewrite Hurl; auto. }
  rewrite Hset.
  rewrite (freeze_original_settled "Employment Page URL" (rec', m))
    by (apply (Horig "Employment Page URL"); auto).
  by rewrite (freeze_original_settled "Application Form URL" (rec', m))
    by (apply (Horig "Application Form URL"); auto).
Qed.

Lemma migrate_all_cons_counter (v : value) (data : list value) (n : nat) :
  (migrate_all (v :: data) n).2
  = match v with
    | VObj r => (migrate_all data (migrate_record (r, n)).2).2
    | _ => (migrate_all data n).2
    end.
Proof.
  simpl. destruct v; try by destruct (migrate_all data n).
  destruct (migrate_record (fields, n)) as [r1 c1]. simpl.
  by destruct (migrate_all data c1).
Qed.

(** X3.  A second migration changes nothing and counts nothing, for a
    record and for a dataset, provided [urlparse] reads back the homepage
    the first migration derived (the homepage of that homepage is itself). *)
Theorem migrate_twice (rec : gmap string value) (data : list value) (n m : nat) :
  (forall h, derive_home rec = Some h -> homepage_from_url (VStr h) = Some h) ->
  (forall r h, VObj r ∈ data -> derive_home r = Some h ->
               homepage_from_url (VStr h) = Some h) ->
  migrate_record ((migrate_record (rec, n)).1, m) = ((migrate_record (rec, n)).1, m)
  /\ migrate_all (migrate_all data n).1 m = ((migrate_all data n).1, m).
Proof.
  intros Hrec Hdata. split; [by apply migrate_record_again|].
  clear Hrec. revert n m. induction data as [|v data IH]; intros n m; [done|].
  assert (IH' : forall n m, migrate_all (migrate_all data n).1 m
                            = ((migrate_all data n).1, m)).
  { apply IH. intros r h Hin. apply Hdata. by right. }
  assert (Hpair : forall (l : list value) (k : nat),
            migrate_all l k = ((migrate_all l k).1, (migrate_all l k).2))
    by (intros l k; by destruct (migrate_all l k)).
  rewrite (Hpair (migrate_all (v :: data) n).1 m).
  rewrite (migrate_all_cons v data n).
  destruct v as [| | | | | |r];
    try (rewrite migrate_all_cons, migrate_all_cons_counter, IH'; done).
  rewrite migrate_all_cons, migrate_all_cons_counter.
  rewrite migrate_record_again by (intros h; apply Hdata; by left).
  simpl. by rewrite IH'.
Qed.

Lemma set_town_website_shift home (r : gmap string value) (n : nat) :
  set_town_website home (r, n)
  = ((set_town_website home (r, O)).1, ((set_town_website home (r, O)).2 + n)%nat).
Proof.
  unfold set_town_website. destruct home as [h|]; [|done].
  simpl. by destruct (_ && _).
Qed.

Lemma freeze_original_shift field (r : gmap string value) (n : nat) :
  freeze_original field (r, n)
  = ((freeze_original field (r, O)).1, ((freeze_original field (r, O)).2 + n)%nat).
Proof.
  unfold freeze_original. simpl.
  destruct (r !! (field ++ " (original)")); [done|]. by destruct (get r field).
Qed.

(** The record a migration leaves does not depend on the counter. *)
Lemma migrate_record_shift (r : gmap string value) (n : nat) :
  migrate_record (r, n)
  = ((migrate_record (r, O)).1, ((migrate_record (r, O)).2 + n)%nat).
Proof.
  unfold migrate_record. simpl.
  rewrite (set_town_website_shift _ r n).
  destruct (set_town_website (derive_home r) (r, O)) as [r1 c1]. simpl.
  rewrite (freeze_original_shift _ r1 (c1 + n)), (freeze_original_shift _ r1 c1).
  destruct (freeze_original "Employment Page URL" (r1, O)) as [r2 c2]. simpl.
  rewrite (freeze_original_shift _ r2 (c2 + (c1 + n))),
          (freeze_original_shift _ r2 (c2 + c1)).
  destruct (freeze_original "Application Form URL" (r2, O)) as [r3 c3]. simpl.
  f_equal. lia.
Qed.

Lemma migrate_record_bounds (r : gmap string value) (n : nat) :
  (n <= (migrate_record (r, n)).2 <= n + 3)%nat.
Proof.
  unfold migrate_record.
  destruct (set_town_website_counter (derive_home (r, n).1) (r, n))
    as [E1|(E1 & _)];
    destruct (freeze_original_counter "Employment Page URL"
                (set_town_website (derive_home (r, n).1) (r, n))) as [E2|(E2 & _)];
    destruct (freeze_original_counter "Application Form URL"
                (freeze_original "Employment Page URL"
                   (set_town_website (derive_home (r, n).1) (r, n))))
      as [E3|(E3 & _)];
    rewrite ?E3, ?E2, ?E1; simpl; lia.
Qed.

(** X4.  The migration of a dataset handles its elements one by one and in
    place: every object is replaced by its migration, whatever came before
    it, every other element is passed through, the length is kept, and the
    counter grows by at most three for each element. *)
Theorem migrate_all_pointwise (data : list value) (n : nat) :
  (migrate_all data n).1 = Frame.migrate_value <$> data
  /\ length (migrate_all data n).1 = length data
  /\ (n <= (migrate_all data n).2 <= n + 3 * length data)%nat.
Proof.
  assert (Hmap : forall n, (migrate_all data n).1 = Frame.migrate_value <$> data).
  { induction data as [|v data IH]; intros k; [done|].
    rewrite migrate_all_cons, fmap_cons.
    destruct v; rewrite IH; try done.
    simpl. by rewrite (migrate_record_shift fields k). }
  split; [apply Hmap|]. split; [by rewrite Hmap, length_fmap|].
  clear Hmap. revert n. induction data as [|v data IH]; intros n; [simpl; lia|].
  rewrite migrate_all_cons_counter.
  destruct v as [| | | | | |r];
    try (specialize (IH n); simpl length; lia).
  pose proof (migrate_record_bounds r n) as Hb.
  specialize (IH (migrate_record (r, n)).2). simpl length. lia.
Qed.

End MigrateMore.

(** ** apply_url_check_summary.py: what a row does to a record *)

Section ApplyMore.
Context `{Runtime}.
Import ApplyUrlCheckSummary.

Lemma stamp_metadata_is_Some prefix status final_url checked_at soft404 err
    (rec : gmap string value) (k : string) :
  is_Some (rec !! k) ->
  is_Some (stamp_metadata prefix status final_url checked_at soft404 err rec !! k).
Proof. intros Hk. unfold stamp_metadata. by do 5 apply is_Some_insert. Qed.

Lemma redirect_rule_is_Some field prefix cur fin st (s : gmap string value * nat) k :
  is_Some (s.1 !! k) -> is_Some ((redirect_rule field prefix cur fin st s).1 !! k).
Proof.
  intros Hk. unfold redirect_rule. destruct (_ && _); [|done].
  simpl. by do 3 apply is_Some_insert.
Qed.

Lemma civicplus_rule_is_Some field prefix cur fin st (s : gmap string value * nat) k :
  is_Some (s.1 !! k) -> is_Some ((civicplus_rule field prefix cur fin st s).1 !! k).
Proof.
  intros Hk. unfold civicplus_rule. destruct (_ && _ && _); [|done].
  destruct (_ && _); [|done]. simpl. by do 3 apply is_Some_insert.
Qed.

Lemma canonicalize_is_Some field prefix final_url status soft404
    (s : gmap string value * nat) k :
  is_Some (s.1 !! k) ->
  is_Some ((canonicalize field prefix final_url status soft404 s).1 !! k).
Proof.
  intros Hk. unfold canonicalize.
  destruct (rewrite_branch _ _ _ _) as [[[cur fin] st]|]; [|done].
  by apply civicplus_rule_is_Some, redirect_rule_is_Some.
Qed.

Lemma row_prepare_is_Some now field prefix row (rec rec2 : gmap string value) k :
  row_prepare now field prefix row rec = Ok rec2 ->
  is_Some (rec !! k) -> is_Some (rec2 !! k).
Proof.
  unfold row_prepare. intros [->|[v ->]]%ensure_town_website_Ok Hk.
  - by apply stamp_metadata_is_Some.
  - by apply is_Some_insert, stamp_metadata_is_Some.
Qed.

(** The body of the loop ends in the state the two rules leave. *)
Lemma row_body_after_rules now field prefix row (rec rec2 : gmap string value) (u : nat) :
  row_prepare now field prefix row rec = Ok rec2 ->
  row_body now field prefix row (rec, u)
  = Ok (Frame.after_rules field prefix row rec2 u).
Proof. intros Hok. unfold row_body. simpl. by rewrite Hok. Qed.

(** X5.  A row applied to a record removes no key and assigns at most nine:
    the Town Website, the URL field the row is about, and the seven
    metadata keys of that field.  Every other key (the town name, the frozen
    originals, the other URL field and its metadata) holds what it held
    before the row. *)
Theorem row_keeps_other_keys now field prefix row (rec rec2 : gmap string value)
    (u : nat) :
  field_to_prefix field = Some prefix ->
  row_prepare now field prefix row rec = Ok rec2 ->
  exists s' : gmap string value * nat,
    row_body now field prefix row (rec, u) = Ok s'
    /\ (forall k, k ∉ Frame.row_keys field prefix -> s'.1 !! k = rec !! k)
    /\ (forall k, is_Some (rec !! k) -> is_Some (s'.1 !! k)).
Proof.
  intros Hp Hok. eexists. split; [by apply row_body_after_rules|].
  unfold Frame.after_rules. split.
  - intros k. unfold Frame.row_keys. rewrite !not_elem_of_cons.
    intros (Htw & Hf & K1 & K2 & K3 & K4 & K5 & K6 & K7 & _).
    rewrite canonicalize_lookup_other by done.
    by apply (row_prepare_lookup_other now field prefix row).
  - intros k Hk. apply canonicalize_is_Some. simpl.
    by apply (row_prepare_is_Some now field prefix row rec).
Qed.

(** X6.  Every row applied to a record, whether it rewrites the URL or not,
    leaves the five metadata keys of its URL field holding the row's status
    (null when absent), final URL (null when empty), time of the check,
    soft-404 flag and error (null when empty), whatever they held before. *)
Theorem row_stamps_always now field prefix row (rec rec2 : gmap string value)
    (u : nat) :
  field_to_prefix field = Some prefix ->
  row_prepare now field prefix row rec = Ok rec2 ->
  exists s' : gmap string value * nat,
    row_body now field prefix row (rec, u) = Ok s'
    /\ s'.1 !! (prefix ++ "_url_status_code") = Some (of_opt_int (row_status row))
    /\ s'.1 !! (prefix ++ "_url_final") = Some (of_opt_str (row_final_url row))
    /\ s'.1 !! (prefix ++ "_url_last_checked_at") = Some (VStr (row_checked_at row now))
    /\ s'.1 !! (prefix ++ "_url_soft404") = Some (VBool (row_soft404 row))
    /\ s'.1 !! (prefix ++ "_url_error") = Some (of_opt_str (row_error row)).
Proof.
  intros Hp Hok. eexists. split; [by apply row_body_after_rules|].
  destruct (row_prepare_stamps _ _ _ _ _ _ Hp Hok) as (S1 & S2 & S3 & S4 & S5).
  unfold Frame.after_rules.
  destruct (field_to_prefix_Some _ _ Hp) as [[-> ->]|[-> ->]];
    by rewrite !canonicalize_lookup_other.
Qed.

(** The CivicPlus rule cannot fire on a URL equal to the final URL. *)
Lemma civicplus_rule_same field prefix fin st (s : gmap string value * nat) :
  civicplus_rule field prefix fin fin st s = s.
Proof.
  unfold civicplus_rule. destruct (_ && _ && _); [|done].
  by destruct (bool_decide (is_Some (civicplus_pageid_path fin))).
Qed.

(** What the two rules can make of a state: nothing, the redirect rewrite,
    or the redirect rewrite with the CivicPlus rewrite over it. *)
Lemma canonicalize_cases field prefix final_url status soft404
    (r : gmap string value) (u : nat) :
  canonicalize field prefix final_url status soft404 (r, u) = (r, u)
  \/ exists cur fin st,
       rewrite_branch (get r field) final_url status soft404 = Some (cur, fin, st)
       /\ st < 400 /\ fin <> cur
       /\ let r1 := <[prefix ++ "_url_confidence" := VInt 95]>
                      (<[prefix ++ "_url_change_reason" := VStr "redirect_canonicalized"]>
                        (<[field := VStr fin]> r)) in
          canonicalize field prefix final_url status soft404 (r, u) = (r1, S u)
          \/ canonicalize field prefix final_url status soft404 (r, u)
             = (<[prefix ++ "_url_confidence" := VInt 95]>
                  (<[prefix ++ "_url_change_reason" :=
                       VStr "civicplus_pageid_canonicalized"]>
                    (<[field := VStr fin]> r1)), S (S u)).
Proof.
  unfold canonicalize. simpl.
  destruct (rewrite_branch _ _ _ _) as [[[cur fin] st]|] eqn:Eb; [|by left].
  unfold redirect_rule, UPDATE_CANONICAL_ON_REDIRECT. simpl.
  destruct (Z.ltb_spec st 400) as [Hlt|Hge]; simpl.
  - destruct (String.eqb_spec fin cur) as [->|Hne]; simpl.
    + left. apply civicplus_rule_same.
    + right. exists cur, fin, st. repeat split; try done.
      unfold civicplus_rule. destruct (_ && _ && _); [|by left].
      destruct (_ && _); [by right|by left].
  - left. unfold civicplus_rule, UPDATE_CANONICAL_ON_CIVICPLUS_PAGEID.
    by rewrite (proj2 (Z.ltb_ge st 400)) by lia.
Qed.

(** X7.  A row applied to a record has one of three outcomes.  Either no
    rule fires: the record is the one of line 139 and nothing is counted.
    Or the redirect rule fires alone: one rewrite is counted and the reason
    is [redirect_canonicalized].  Or both rules fire: two rewrites are
    counted for the one URL and the reason is
    [civicplus_pageid_canonicalized]; the CivicPlus rule never fires alone.
    Whenever a rule fires, the URL field differed from the row's final URL
    and now equals it, as does the stamped final URL, and the confidence
    is 95. *)
Theorem row_outcomes now field prefix row (rec rec2 : gmap string value) (u : nat) :
  field_to_prefix field = Some prefix ->
  row_prepare now field prefix row rec = Ok rec2 ->
  exists s' : gmap string value * nat,
    row_body now field prefix row (rec, u) = Ok s'
    /\ (s' = (rec2, u)
        \/ exists fin reason,
             row_final_url row = Some fin
             /\ rec !! field <> Some (VStr fin)
             /\ ((s'.2 = S u /\ reason = "redirect_canonicalized")
                 \/ (s'.2 = S (S u) /\ reason = "civicplus_pageid_canonicalized"))
             /\ s'.1 !! field = Some (VStr fin)
             /\ s'.1 !! (prefix ++ "_url_final") = Some (VStr fin)
             /\ s'.1 !! (prefix ++ "_url_change_reason") = Some (VStr reason)
             /\ s'.1 !! (prefix ++ "_url_confidence") = Some (VInt 95)).
Proof.
  intros Hp Hok. eexists. split; [by apply row_body_after_rules|].
  unfold Frame.after_rules.
  destruct (canonicalize_cases field prefix (row_final_url row) (row_status row)
              (row_soft404 row) rec2 u)
    as [Hidle|(cur & fin & st & Hb & Hlt & Hne & Hfired)]; [by left|].
  right. apply rewrite_branch_Some in Hb as (Hcur & Hfin & _).
  destruct (row_prepare_canonical _ _ _ _ _ _ Hp Hok) as (Hfield & _ & _).
  destruct (row_prepare_stamps _ _ _ _ _ _ Hp Hok) as (_ & Hstamp & _).
  rewrite Hfin in Hstamp. simpl in Hstamp.
  apply get_VStr in Hcur. rewrite Hfield in Hcur.
  assert (Hfinal : forall s'' : gmap string value * nat,
            s'' = canonicalize field prefix (row_final_url row) (row_status row)
                    (row_soft404 row) (rec2, u) ->
            s''.1 !! (prefix ++ "_url_final") = Some (VStr fin)).
  { intros s'' ->.
    destruct (field_to_prefix_Some _ _ Hp) as [[-> ->]|[-> ->]];
      by rewrite canonicalize_lookup_other. }
  simpl in Hfired. destruct Hfired as [Hred|Hboth].
  - exists fin, "redirect_canonicalized".
    split; [done|]. split; [congruence|]. split; [left; by rewrite Hred|].
    split; [|split; [by apply Hfinal|]]; rewrite Hred; simpl;
      by apply (rewritten_lookups field prefix fin "redirect_canonicalized" rec2).
  - exists fin, "civicplus_pageid_canonicalized".
    split; [done|]. split; [congruence|]. split; [right; by rewrite Hboth|].
    split; [|split; [by apply Hfinal|]]; rewrite Hboth; simpl;
      by apply (rewritten_lookups field prefix fin "civicplus_pageid_canonicalized").
Qed.

(** X8.  A row never rewrites the URL, and counts nothing, when the record
    holds no string under the URL field (the key is absent or holds null:
    the row does not create it), when the row has no final URL, when it is
    flagged as a soft 404, or when its status is 400 or above: the body of
    the loop ends with the record of line 139, in which the URL field, its
    change reason and its confidence are as before the row. *)
Theorem row_never_rewrites now field prefix row (rec rec2 : gmap string value)
    (u : nat) :
  field_to_prefix field = Some prefix ->
  row_prepare now field prefix row rec = Ok rec2 ->
  (forall cur, rec !! field <> Some (VStr cur))
  \/ row_final_url row = None
  \/ row_soft404 row = true
  \/ (exists st, row_status row = Some st /\ 400 <= st) ->
  row_body now field prefix row (rec, u) = Ok (rec2, u)
  /\ rec2 !! field = rec !! field
  /\ rec2 !! (prefix ++ "_url_change_reason") = rec !! (prefix ++ "_url_change_reason")
  /\ rec2 !! (prefix ++ "_url_confidence") = rec !! (prefix ++ "_url_confidence").
Proof.
  intros Hp Hok Hcase.
  split; [|by apply (row_prepare_canonical now field prefix row)].
  rewrite (row_body_after_rules _ _ _ _ _ _ _ Hok). f_equal.
  unfold Frame.after_rules.
  destruct (canonicalize_cases field prefix (row_final_url row) (row_status row)
              (row_soft404 row) rec2 u)
    as [Hidle|(cur & fin & st & Hb & Hlt & _)]; [done|].
  exfalso. apply rewrite_branch_Some in Hb as (Hcur & Hfin & _ & Hst & _ & _ & Hsoft).
  destruct (row_prepare_canonical _ _ _ _ _ _ Hp Hok) as (Hfield & _ & _).
  apply get_VStr in Hcur. rewrite Hfield in Hcur.
  destruct Hcase as [Hno|[Hnone|[Hs|(st' & Hst' & Hge)]]].
  - by destruct (Hno cur).
  - congruence.
  - congruence.
  - rewrite Hst in Hst'. injection Hst' as <-. lia.
Qed.

(** The two rules leave alone a record whose URL field is the final URL. *)
Lemma canonicalize_at_final field prefix (fin : string) status soft404
    (r : gmap string value) (u : nat) :
  get r field = VStr fin ->
  canonicalize field prefix (Some fin) status soft404 (r, u) = (r, u).
Proof.
  intros Hget.
  destruct (canonicalize_cases field prefix (Some fin) status soft404 r u)
    as [Hidle|(cur & fin' & st & Hb & _ & Hne & _)]; [done|].
  apply rewrite_branch_Some in Hb as (Hcur & [= <-] & _). congruence.
Qed.

(** Whether the two rules fire depends on the record through its URL field
    only. *)
Lemma canonicalize_idle_transfer field prefix final_url status soft404
    (r r' : gmap string value) (u u' : nat) :
  canonicalize field prefix final_url status soft404 (r, u) = (r, u) ->
  get r' field = get r field ->
  canonicalize field prefix final_url status soft404 (r', u') = (r', u').
Proof.
  intros Hidle Hget.
  destruct (canonicalize_cases field prefix final_url status soft404 r' u')
    as [Hidle'|(cur & fin & st & Hb & Hlt & Hne & _)]; [done|].
  exfalso. rewrite Hget in Hb.
  unfold canonicalize in Hidle. simpl in Hidle. rewrite Hb in Hidle.
  unfold redirect_rule, UPDATE_CANONICAL_ON_REDIRECT in Hidle. simpl in Hidle.
  rewrite (proj2 (Z.ltb_lt st 400)), (proj2 (String.eqb_neq fin cur)) in Hidle by done.
  simpl in Hidle. apply (f_equal snd) in Hidle.
  assert (Hmono : forall s : gmap string value * nat,
            (s.2 <= (civicplus_rule field prefix cur fin st s).2)%nat).
  { intros s. unfold civicplus_rule. destruct (_ && _ && _); [|done].
    destruct (_ && _); simpl; lia. }
  match type of Hidle with
  | (civicplus_rule _ _ _ _ _ ?s).2 = _ => specialize (Hmono s)
  end.
  rewrite Hidle in Hmono. simpl in Hmono. lia.
Qed.

(** X9.  Applying a row a second time to the record it left never rewrites
    again: the second application only stamps the metadata and ensures the
    Town Website, it counts nothing, and the URL field, its change reason
    and its confidence stay as the first application left them. *)
Theorem row_applied_twice now now' field prefix row (rec rec2 : gmap string value)
    (u : nat) :
  field_to_prefix field = Some prefix ->
  row_prepare now field prefix row rec = Ok rec2 ->
  let s1 := Frame.after_rules field prefix row rec2 u in
  row_body now field prefix row (rec, u) = Ok s1
  /\ row_body now' field prefix row s1
     = (rec3 ← row_prepare now' field prefix row s1.1; Ok (rec3, s1.2))
  /\ forall s2, row_body now' field prefix row s1 = Ok s2 ->
       s2.2 = s1.2
       /\ s2.1 !! field = s1.1 !! field
       /\ s2.1 !! (prefix ++ "_url_change_reason")
          = s1.1 !! (prefix ++ "_url_change_reason")
       /\ s2.1 !! (prefix ++ "_url_confidence") = s1.1 !! (prefix ++ "_url_confidence").
Proof.
  intros Hp Hok s1.
  assert (Hsecond : row_body now' field prefix row s1
                    = (rec3 ← row_prepare now' field prefix row s1.1;
                       Ok (rec3, s1.2))).
  { unfold row_body.
    destruct (row_prepare now' field prefix row s1.1) as [rec3|e] eqn:Ok3; [|done].
    simpl. f_equal.
    destruct (row_prepare_canonical _ _ _ _ _ _ Hp Ok3) as (Hfield3 & _ & _).
    assert (Hget3 : get rec3 field = get s1.1 field) by (unfold get; by rewrite Hfield3).
    subst s1. unfold Frame.after_rules in *.
    destruct (canonicalize_cases field prefix (row_final_url row) (row_status row)
                (row_soft404 row) rec2 u)
      as [Hidle|(cur & fin & st & Hb & Hlt & Hne & Hfired)].
    - rewrite Hidle in *. simpl in *.
      by apply (canonicalize_idle_transfer _ _ _ _ _ rec2 rec3 u u).
    - apply rewrite_branch_Some in Hb as (_ & Hfin & _).
      rewrite Hfin. apply canonicalize_at_final. rewrite Hget3.
      simpl in Hfired. destruct Hfired as [-> | ->]; simpl; apply get_lookup.
      + by apply (rewritten_lookups field prefix fin "redirect_canonicalized").
      + by apply (rewritten_lookups field prefix fin "civicplus_pageid_canonicalized"). }
  split; [by apply row_body_after_rules|]. split; [exact Hsecond|].
  intros s2 Hs2. rewrite Hsecond in Hs2.
  destruct (row_prepare now' field prefix row s1.1) as [rec3|e] eqn:Ok3;
    simpl in Hs2; [|discriminate].
  injection Hs2 as <-. simpl. split; [done|].
  by apply (row_prepare_canonical now' field prefix row).
Qed.

(** X10.  Applying a row to a record raises exactly when [urlparse] raises
    in [homepage], which has no guard around it: on the stored Town Website
    when that is a string that is not blank, and, when the Town Website is
    no string, on the record's URL field when that is a string that is not
    blank.  In every other case the body of the loop completes. *)
Theorem row_raises_iff now field prefix row (rec : gmap string value) (u : nat) :
  field_to_prefix field = Some prefix ->
  let unparsed (s : string) :=
    PyStr.strip s <> EmptyString /\ urlparse (PyStr.strip s) = None in
  ((exists e, row_body now field prefix row (rec, u) = Raise e)
   <-> (exists tw, get rec "Town Website" = VStr tw /\ unparsed tw)
       \/ ((forall tw, get rec "Town Website" <> VStr tw)
           /\ exists cur, get rec field = VStr cur /\ unparsed cur))
  /\ ((exists s', row_body now field prefix row (rec, u) = Ok s')
      \/ row_body now field prefix row (rec, u) = Raise (ValueError "urlparse")).
Proof.
  intros Hp unparsed.
  assert (Hhome : forall s e, homepage (VStr s) = Raise e <-> unparsed s /\ e = ValueError "urlparse").
  { intros s e. unfold homepage, unparsed.
    destruct (PyStr.truthy (PyStr.strip s)) eqn:Et; simpl.
    - apply truthy_true in Et.
      destruct (urlparse (PyStr.strip s)) as [p|].
      + destruct (_ || _); split; try done; by intros [[_ ?] _].
      + split; [intros [= <-]; done|]. by intros [_ ->].
    - apply truthy_false in Et. split; [done|]. by intros [[? _] _]. }
  assert (Hbody : forall e, row_body now field prefix row (rec, u) = Raise e
                            <-> ensure_town_website field rec = Raise e).
  { intros e. rewrite row_body_raise. simpl. rewrite row_prepare_ensure by done.
    destruct (ensure_town_website field rec); simpl; split; congruence. }
  assert (Hens : forall e, ensure_town_website field rec = Raise e
                 <-> ((exists tw, get rec "Town Website" = VStr tw /\ unparsed tw)
                      \/ ((forall tw, get rec "Town Website" <> VStr tw)
                          /\ exists cur, get rec field = VStr cur /\ unparsed cur))
                     /\ e = ValueError "urlparse").
  { intros e. unfold ensure_town_website, mbind, result_bind, rbind.
    destruct (get rec "Town Website") as [| | | |tw| |] eqn:Etw.
    5:{ destruct (homepage (VStr tw)) as [h|e'] eqn:Eh.
        - split; [done|]. intros [[(tw' & [= <-] & Hu)|[Hno _]] ->].
          + assert (homepage (VStr tw) = Raise (ValueError "urlparse"))
              by by apply Hhome.
            congruence.
          + by destruct (Hno tw).
        - apply Hhome in Eh as [Hu ->]. split.
          + intros [= <-]. split; [|done]. left. by exists tw.
          + by intros [_ ->]. }
    all: destruct (get rec field) as [| | | |cur| |] eqn:Ecur;
      try (split; [done|];
           intros [[(tw' & ? & _)|[_ (cur' & ? & _)]] _]; discriminate).
    all: destruct (homepage (VStr cur)) as [h|e'] eqn:Eh;
      [ split; [done|];
        intros [[(tw' & ? & _)|[_ (cur' & [= <-] & Hu)]] ->]; [discriminate|];
        assert (homepage (VStr cur) = Raise (ValueError "urlparse"))
          by (by apply Hhome); congruence
      | apply Hhome in Eh as [Hu ->]; split;
        [ intros [= <-]; split; [|done]; right; split; [done|]; by exists cur
        | by intros [_ ->] ] ]. }
  split.
  - split.
    + intros [e He]. apply Hbody, Hens in He. tauto.
    + intros Hcond. exists (ValueError "urlparse"). apply Hbody, Hens. tauto.
  - destruct (row_body now field prefix row (rec, u)) as [s'|e] eqn:Eb; [eauto|].
    right. by destruct (proj1 (Hens e) (proj1 (Hbody e) eq_refl)) as [_ ->].
Qed.

End ApplyMore.

(** ** apply_url_check_summary.py: the loop over the rows and [main] *)

Section ApplyLoop.
Context `{Runtime}.
Import ApplyUrlCheckSummary.

Lemma row_body_counter now field prefix row (rec : gmap string value) (u : nat)
    (s' : gmap string value * nat) :
  row_body now field prefix row (rec, u) = Ok s' -> (u <= s'.2 <= u + 2)%nat.
Proof.
  unfold row_body. simpl.
  destruct (row_prepare now field prefix row rec) as [rec2|e]; simpl; [|done].
  intros [= <-].
  destruct (canonicalize_cases field prefix (row_final_url row) (row_status row)
              (row_soft404 row) rec2 u)
    as [->|(cur & fin & st & _ & _ & _ & [-> | ->])]; simpl; lia.
Qed.

(** One iteration of the loop changes at most the record the row's town is
    indexed to, which stays an object. *)
Lemma process_row_data by_town now row (data data' : list value) (u u' : nat) :
  process_row by_town now row (data, u) = Ok (data', u') ->
  length data' = length data
  /\ (u <= u' <= u + 2)%nat
  /\ forall j, data' !! j = data !! j
               \/ (by_town !! row_town row = Some j
                   /\ exists r r', data !! j = Some (VObj r)
                                   /\ data' !! j = Some (VObj r')).
Proof.
  unfold process_row. simpl.
  destruct (field_to_prefix (row_field row)) as [prefix|];
    [|intros [= <- <-]; repeat split; [lia..|by left]].
  destruct (_ || _); [intros [= <- <-]; repeat split; [lia..|by left]|].
  destruct (by_town !! row_town row) as [i|] eqn:Ei;
    [|intros [= <- <-]; repeat split; [lia..|by left]].
  destruct (data !! i) as [v|] eqn:Ed;
    [|intros [= <- <-]; repeat split; [lia..|by left]].
  destruct v as [| | | | | |r0];
    try (intros [= <- <-]; repeat split; [lia..|by left]).
  case_bool_decide; [intros [= <- <-]; repeat split; [lia..|by left]|].
  destruct (row_body now (row_field row) prefix row (r0, u)) as [[r1 u1]|e] eqn:Eb;
    simpl; [|done].
  intros [= <- <-]. apply row_body_counter in Eb. simpl in Eb.
  split; [by rewrite length_insert|]. split; [lia|].
  intros j. destruct (decide (i = j)) as [<-|Hne].
  - right. split; [done|]. exists r0, r1. split; [done|].
    apply list_lookup_insert_eq. by eapply lookup_lt_Some.
  - left. by apply list_lookup_insert_ne.
Qed.

(** The loop changes at most the records the towns of its rows are indexed
    to, which stay objects. *)
Lemma rows_frame by_town (rows : list (gmap string string))
    (n : nat) (data data' : list value) (u u' : nat) :
  process_rows by_town n rows (data, u) = Ok (data', u') ->
  length data' = length data
  /\ (u <= u' <= u + 2 * length rows)%nat
  /\ forall j, data' !! j = data !! j
               \/ exists row r r',
                    row ∈ rows /\ by_town !! row_town row = Some j
                    /\ data !! j = Some (VObj r) /\ data' !! j = Some (VObj r').
Proof.
  revert n data u. induction rows as [|row rows IH]; intros n data u.
  - simpl. intros [= <- <-]. repeat split; [lia..|by left].
  - simpl. unfold mbind, result_bind, rbind.
    destruct (process_row by_town (now_isoformat n) row (data, u)) as [[d1 u1]|e] eqn:E1;
      [|done].
    intros Hrest. apply process_row_data in E1 as (L1 & C1 & F1).
    apply IH in Hrest as (L2 & C2 & F2).
    split; [congruence|]. split; [simpl length; lia|].
    intros j. destruct (F2 j) as [E2|(row' & r & r' & Hin & Hi & Hd & Hd')].
    + destruct (F1 j) as [E1|(Hi & r & r' & Hd & Hd')].
      * left. congruence.
      * right. exists row, r, r'. rewrite E2. repeat split; try done. by left.
    + right. destruct (F1 j) as [E1|(Hi1 & r1 & r1' & Hd1 & Hd1')].
      * exists row', r, r'. rewrite <- E1. repeat split; try done. by right.
      * exists row, r1, r'. repeat split; try done. by left.
Qed.

(** X11.  The loop over the rows keeps the length and the order of the
    dataset and counts at most two rewrites for each row.  An element that
    is no object comes out as it went in, so does every element the index
    maps the town of no row to, and an object comes out as an object. *)
Theorem rows_change_indexed_records_only by_town (rows : list (gmap string string))
    (n : nat) (data data' : list value) (u u' : nat) :
  process_rows by_town n rows (data, u) = Ok (data', u') ->
  length data' = length data
  /\ (u <= u' <= u + 2 * length rows)%nat
  /\ (forall j v, data !! j = Some v -> (forall r, v <> VObj r) ->
                  data' !! j = Some v)
  /\ (forall j, (forall row, row ∈ rows -> by_town !! row_town row <> Some j) ->
                data' !! j = data !! j)
  /\ (forall j r, data !! j = Some (VObj r) -> exists r', data' !! j = Some (VObj r')).
Proof.
  intros Hrun. apply rows_frame in Hrun as (Hlen & Hcount & Hframe).
  split; [done|]. split; [done|]. split; [|split].
  - intros j v Hv Hno.
    destruct (Hframe j) as [->|(row & r & r' & _ & _ & Hd & _)]; [done|].
    rewrite Hv in Hd. injection Hd as ->. by destruct (Hno r).
  - intros j Hno.
    destruct (Hframe j) as [Hsame|(row & r & r' & Hin & Hi & _)]; [done|].
    by destruct (Hno row Hin).
  - intros j r Hr.
    destruct (Hframe j) as [Hsame|(row & r0 & r' & _ & _ & _ & Hd')].
    + exists r. by rewrite Hsame.
    + by exists r'.
Qed.

(** The index built over the dataset, from any start. *)
Lemma index_by_town_lookup (data : list value) (k : nat) (acc : gmap string nat)
    (t : string) (j : nat) :
  index_by_town data k acc !! t = Some j
  <-> ((k <= j)%nat
       /\ (exists r, data !! (j - k)%nat = Some (VObj r) /\ get r "Town" = VStr t)
       /\ forall i r', (j - k < i)%nat -> data !! i = Some (VObj r') ->
                       get r' "Town" <> VStr t)
      \/ (acc !! t = Some j
          /\ forall i r', data !! i = Some (VObj r') -> get r' "Town" <> VStr t).
Proof.
  revert k acc. induction data as [|v data IH]; intros k acc.
  - simpl. split.
    + intros Hacc. right. split; [done|]. by intros i r' Hi.
    + intros [(_ & (r & Hr & _) & _)|[Hacc _]]; [done|done].
  - assert (Hskip : (forall r t', v = VObj r -> get r "Town" <> VStr t') ->
              index_by_town (v :: data) k acc = index_by_town data (S k) acc).
    { intros Hv. simpl. destruct v as [| | | | | |r]; try done.
      destruct (get r "Town") as [| | | |t'| |] eqn:Et; try done.
      by destruct (Hv r t' eq_refl). }
    assert (Hshift : forall i, (S k <= j)%nat -> (j - S k < i)%nat ->
              (j - k < S i)%nat) by (intros; lia).
    assert (Hcons :
      forall acc' : gmap string nat,
        (forall r, v = VObj r -> get r "Town" <> VStr t) ->
        acc' !! t = acc !! t ->
        (index_by_town data (S k) acc' !! t = Some j
         <-> ((k <= j)%nat
              /\ (exists r, (v :: data) !! (j - k)%nat = Some (VObj r)
                            /\ get r "Town" = VStr t)
              /\ forall i r', (j - k < i)%nat -> (v :: data) !! i = Some (VObj r') ->
                              get r' "Town" <> VStr t)
             \/ (acc !! t = Some j
                 /\ forall i r', (v :: data) !! i = Some (VObj r') ->
                                 get r' "Town" <> VStr t))).
    { intros acc' Hv Hacc. rewrite IH, Hacc. split.
      - intros [(Hle & (r & Hr & Ht) & Hlast)|[Ha Hnone]].
        + left. split; [lia|]. split.
          * exists r. replace (j - k)%nat with (S (j - S k)) by lia. done.
          * intros [|i] r' Hlt Hi; [lia|]. apply (Hlast i); [lia|done].
        + right. split; [done|]. intros [|i] r' Hi.
          * simpl in Hi. injection Hi as ->. by apply Hv.
          * by apply (Hnone i).
      - intros [(Hle & (r & Hr & Ht) & Hlast)|[Ha Hnone]].
        + destruct (decide (j = k)) as [->|Hne].
          * rewrite Nat.sub_diag in Hr. simpl in Hr. injection Hr as ->.
            by destruct (Hv r eq_refl).
          * left. split; [lia|]. split.
            -- exists r. by replace (j - k)%nat with (S (j - S k)) in Hr by lia.
            -- intros i r' Hlt Hi. apply (Hlast (S i)); [lia|done].
        + right. split; [done|]. intros i r' Hi. by apply (Hnone (S i)). }
    destruct v as [| | | | | |r];
      try (rewrite Hskip by done; by apply Hcons).
    destruct (get r "Town") as [| | | |t'| |] eqn:Et;
      try (rewrite Hskip by (intros ? ? [= <-]; congruence);
           apply Hcons; [intros ? [= <-]; congruence|done]).
    destruct (decide (t' = t)) as [->|Hnt].
    + simpl. rewrite Et, IH, lookup_insert_eq. split.
      * intros [(Hle & (r1 & Hr1 & Ht1) & Hlast)|[[= <-] Hnone]].
        -- left. split; [lia|]. split.
           ++ exists r1. replace (j - k)%nat with (S (j - S k)) by lia. done.
           ++ intros [|i] r' Hlt Hi; [lia|]. apply (Hlast i); [lia|done].
        -- left. split; [lia|]. rewrite Nat.sub_diag. split; [by exists r|].
           intros [|i] r' Hlt Hi; [lia|]. by apply (Hnone i).
      * intros [(Hle & (r1 & Hr1 & Ht1) & Hlast)|[_ Hnone]].
        -- destruct (decide (j = k)) as [->|Hne].
           ++ right. split; [done|]. intros i r' Hi.
              apply (Hlast (S i)); [lia|done].
           ++ left. split; [lia|]. split.
              ** exists r1. by replace (j - k)%nat with (S (j - S k)) in Hr1 by lia.
              ** intros i r' Hlt Hi. apply (Hlast (S i)); [lia|done].
        -- by destruct (Hnone O r eq_refl).
    + simpl. rewrite Et. apply Hcons; [intros ? [= <-]; congruence|].
      apply lookup_insert_ne. congruence.
Qed.

(** X12.  The index of lines 93-96 maps a town name to the last record of
    the dataset that carries it, and to nothing when no record does.  So of
    several records with the same Town the rows reach the last one only: a
    record followed by another record with the same Town value comes out of
    the loop as it went in. *)
Theorem last_record_of_town (data : list value) :
  (forall t j,
     index_by_town data 0 ∅ !! t = Some j
     <-> (exists r, data !! j = Some (VObj r) /\ get r "Town" = VStr t)
         /\ forall j' r', (j < j')%nat -> data !! j' = Some (VObj r') ->
                          get r' "Town" <> VStr t)
  /\ (forall rows n u data' u' j j' r r',
        process_rows (index_by_town data 0 ∅) n rows (data, u) = Ok (data', u') ->
        (j < j')%nat ->
        data !! j = Some (VObj r) -> data !! j' = Some (VObj r') ->
        get r "Town" = get r' "Town" ->
        data' !! j = data !! j).
Proof.
  assert (Hindex : forall t j,
            index_by_town data 0 ∅ !! t = Some j
            <-> (exists r, data !! j = Some (VObj r) /\ get r "Town" = VStr t)
                /\ forall j' r', (j < j')%nat -> data !! j' = Some (VObj r') ->
                                 get r' "Town" <> VStr t).
  { intros t j. rewrite index_by_town_lookup, lookup_empty, Nat.sub_0_r. split.
    - intros [(_ & Hr & Hlast)|[? _]]; [|done]. done.
    - intros [Hr Hlast]. left. split; [lia|done]. }
  split; [exact Hindex|].
  intros rows n u data' u' j j' r r' Hrun Hlt Hj Hj' Htown.
  apply rows_frame in Hrun as (_ & _ & Hframe).
  destruct (Hframe j) as [Hsame|(row & r1 & r1' & _ & Hi & Hd & _)]; [done|].
  exfalso. apply Hindex in Hi as [(r0 & Hr0 & Ht0) Hlast].
  rewrite Hj in Hr0. injection Hr0 as <-.
  apply (Hlast j' r' Hlt Hj'). congruence.
Qed.

Lemma process_rows_app by_town (rows1 rows2 : list (gmap string string)) (n : nat)
    (s : list value * nat) :
  process_rows by_town n (rows1 ++ rows2)%list s
  = (s1 ← process_rows by_town n rows1 s;
     process_rows by_town (n + length rows1)%nat rows2 s1).
Proof.
  revert n s. induction rows1 as [|row rows1 IH]; intros n s; simpl.
  - by rewrite Nat.add_0_r.
  - unfold mbind, result_bind, rbind.
    destruct (process_row by_town (now_isoformat n) row s) as [s'|e]; [|done].
    rewrite IH. unfold mbind, result_bind, rbind.
    by replace (n + S (length rows1))%nat with (S n + length rows1)%nat by lia.
Qed.

(** X13.  When the application of a row raises, the run ends there: the
    rows after it are not applied, the exception leaves [main], so that the
    exit status is not zero, and no file is written, which also discards
    what the rows before it had changed in memory. *)
Theorem raising_row_aborts_run (prog json_in csv_in json_out text csv_text : string)
    (data : list value) (before rest : list (gmap string string))
    (row : gmap string string) (s1 : list value * nat) (e : exn) (w : IO.world) :
  IO.files w !! json_in = Some text ->
  json_loads text = Some (VArr data) ->
  IO.files w !! csv_in = Some csv_text ->
  csv_rows csv_text = (before ++ row :: rest)%list ->
  process_rows (index_by_town data 0 ∅) 0 before (data, O) = Ok s1 ->
  process_row (index_by_town data 0 ∅) (now_isoformat (length before)) row s1
  = Raise e ->
  exists w' : IO.world,
    main [prog; json_in; csv_in; json_out] w = (IO.Uncaught e, w')
    /\ IO.exit_status (IO.Uncaught e) <> 0
    /\ IO.files w' = IO.files w
    /\ IO.writes w' = IO.writes w.
Proof.
  intros Hfile Hjson Hcsv Hrows Hbefore Hrow.
  assert (Hrun : process_rows (index_by_town data 0 ∅) 0 (csv_rows csv_text) (data, O)
                 = Raise e).
  { rewrite Hrows, process_rows_app, Hbefore. simpl.
    unfold mbind, result_bind, rbind. by rewrite Hrow. }
  unfold main, IO.read_text. rewrite Hfile, Hjson. simpl. rewrite Hcsv, Hrun.
  by eexists.
Qed.

(** X14.  The two scripts derive the same homepage from a value whenever
    [urlparse] does not raise on it: the same string, or nothing for a value
    that is no string, is blank, or has no scheme or no host.  They differ
    only when [urlparse] raises: [homepage_from_url] of [migrate_schema.py]
    then gives nothing, [homepage] of [apply_url_check_summary.py] lets the
    exception through. *)
Theorem homepage_functions_agree (v : value) :
  match homepage v with
  | Ok h => MigrateSchema.homepage_from_url v = h
  | Raise e =>
      MigrateSchema.homepage_from_url v = None
      /\ e = ValueError "urlparse"
      /\ exists s, v = VStr s /\ PyStr.strip s <> EmptyString
                   /\ urlparse (PyStr.strip s) = None
  end.
Proof.
  unfold homepage, MigrateSchema.homepage_from_url.
  destruct v as [| | | |s| |]; try done.
  destruct (PyStr.truthy (PyStr.strip s)) eqn:Et; simpl; [|done].
  destruct (urlparse (PyStr.strip s)) as [p|] eqn:Ep.
  - by destruct (_ || _).
  - split; [done|]. split; [done|]. exists s. by rewrite <- truthy_true.
Qed.

(** X16.  Neither script writes a file when its input cannot be loaded: a
    missing dataset ends [main] by [FileNotFoundError], a dataset that is no
    JSON by [JSONDecodeError], and for [apply_url_check_summary.py] a missing
    report of URL checks, which is opened only once the dataset is loaded
    and found to be a list, by [FileNotFoundError] too. *)
Theorem unreadable_input_writes_nothing (prog in_path out_path csv_in : string)
    (w : IO.world) :
  let untouched (r : IO.outcome * IO.world) (e : exn) :=
    r.1 = IO.Uncaught e /\ IO.exit_status r.1 <> 0
    /\ IO.files r.2 = IO.files w /\ IO.writes r.2 = IO.writes w in
  (IO.files w !! in_path = None ->
   untouched (MigrateSchema.main [prog; in_path; out_path] w)
     (FileNotFoundError in_path)
   /\ untouched (main [prog; in_path; csv_in; out_path] w)
        (FileNotFoundError in_path))
  /\ (forall text, IO.files w !! in_path = Some text -> json_loads text = None ->
       untouched (MigrateSchema.main [prog; in_path; out_path] w) JSONDecodeError
       /\ untouched (main [prog; in_path; csv_in; out_path] w) JSONDecodeError)
  /\ (forall text data, IO.files w !! in_path = Some text ->
       json_loads text = Some (VArr data) ->
       IO.files w !! csv_in = None ->
       untouched (main [prog; in_path; csv_in; out_path] w)
         (FileNotFoundError csv_in)).
Proof.
  intros untouched. unfold untouched, MigrateSchema.main, main, IO.read_text.
  split; [|split].
  - by intros ->.
  - by intros text -> ->.
  - intros text data -> ->. simpl. by intros ->.
Qed.

(** X17.  The two scripts compose: when the migration has frozen the URL a
    record held, a row applied afterwards leaves the frozen copy holding
    that URL, also when it rewrites the URL field itself. *)
Theorem frozen_original_survives now field prefix row
    (rec rec2 : gmap string value) (n u : nat) (cur : string) :
  field_to_prefix field = Some prefix ->
  rec !! field = Some (VStr cur) ->
  rec !! (field ++ " (original)") = None ->
  row_prepare now field prefix row (MigrateSchema.migrate_record (rec, n)).1
  = Ok rec2 ->
  exists s' : gmap string value * nat,
    row_body now field prefix row ((MigrateSchema.migrate_record (rec, n)).1, u)
    = Ok s'
    /\ s'.1 !! (field ++ " (original)") = Some (VStr cur)
    /\ (s' = (rec2, u) \/ exists fin, s'.1 !! field = Some (VStr fin) /\ fin <> cur).
Proof.
  intros Hp Hcur Hnone Hok.
  assert (Hfield : field = "Employment Page URL" \/ field = "Application Form URL")
    by (destruct (field_to_prefix_Some _ _ Hp) as [[-> _]|[-> _]]; auto).
  assert (Hfrozen : (MigrateSchema.migrate_record (rec, n)).1 !! (field ++ " (original)")
                    = Some (VStr cur)).
  { rewrite (migrate_record_original field (rec, n) Hfield). simpl.
    by rewrite Hnone, (get_lookup _ _ _ Hcur). }
  assert (Hkept : (MigrateSchema.migrate_record (rec, n)).1 !! field = Some (VStr cur))
    by (by rewrite (migrate_record_url field (rec, n) Hfield)).
  exists (canonicalize field prefix (row_final_url row) (row_status row)
            (row_soft404 row) (rec2, u)).
  split; [exact (row_body_after_rules _ _ _ _ _ _ _ Hok)|]. split.
  - destruct (field_to_prefix_Some _ _ Hp) as [[-> ->]|[-> ->]];
      rewrite canonicalize_lookup_other by done;
      by rewrite (row_prepare_lookup_other _ _ _ _ _ _ _ Hok).
  - destruct (row_prepare_canonical _ _ _ _ _ _ Hp Hok) as (Hf2 & _ & _).
    destruct (canonicalize_cases field prefix (row_final_url row) (row_status row)
                (row_soft404 row) rec2 u)
      as [Hidle|(c & fin & st & Hb & _ & Hne & Hfired)]; [by left|].
    right. exists fin.
    apply rewrite_branch_Some in Hb as (Hc & _).
    apply get_VStr in Hc. rewrite Hf2, Hkept in Hc. injection Hc as <-.
    split; [|done]. simpl in Hfired.
    destruct Hfired as [-> | ->]; simpl.
    + by apply (rewritten_lookups field prefix fin "redirect_canonicalized").
    + by apply (rewritten_lookups field prefix fin "civicplus_pageid_canonicalized").
Qed.

End ApplyLoop.

(** ** apply_url_check_summary.py: the page-id pattern *)

Section PageIdMore.
Import ApplyUrlCheckSummary.

Lemma pageid_path_extend (ds rest q : string) (c : ascii) :
  String "/" (ds ++ String "/" (String c rest)) ++ q
  = String "/" (ds ++ String "/" (String c (rest ++ q))).
Proof.
  change (String "/" ((ds ++ String "/" (String c rest)) ++ q)
          = String "/" (ds ++ String "/" (String c (rest ++ q)))).
  f_equal. induction ds as [|a ds IH]; [reflexivity|].
  change (String a ((ds ++ String "/" (String c rest)) ++ q)
          = String a (ds ++ String "/" (String c (rest ++ q)))).
  by rewrite IH.
Qed.

(** X15.  Among the paths of the model, whose code points are below 256 so
    that the class [\d] holds [0]..[9] and nothing else, those that
    [CIVICPLUS_PAGEID_RE] matches are exactly the ones made of a slash, a run
    of two to six digits, a slash and at least one character that is no
    slash, followed by anything: one digit or seven digits, a missing leading
    slash and an empty segment are rejected, and every extension of a
    matching path matches, so that pages below a page-id page count as
    page-id pages.  (A path with a decimal digit of another script, which
    [\d] accepts as well, is not a string of the model.) *)
Theorem pageid_match_exact (p : string) :
  (CIVICPLUS_PAGEID_RE_match p = true <-> Spec.pageid_pattern p)
  /\ (forall q, CIVICPLUS_PAGEID_RE_match p = true ->
                CIVICPLUS_PAGEID_RE_match (p ++ q) = true)
  /\ (forall a s, a <> "/"%char -> CIVICPLUS_PAGEID_RE_match (String a s) = false)
  /\ (forall ds rest,
        PyStr.all_chars PyStr.is_digit ds = true ->
        (String.length ds < 2 \/ 6 < String.length ds)%nat ->
        CIVICPLUS_PAGEID_RE_match (String "/" (ds ++ String "/" rest)) = false)
  /\ (forall ds,
        PyStr.all_chars PyStr.is_digit ds = true ->
        CIVICPLUS_PAGEID_RE_match (String "/" (ds ++ String "/" EmptyString)) = false).
Proof.
  split; [apply CIVICPLUS_PAGEID_RE_match_spec|]. split; [|split; [|split]].
  - intros q Hm. apply CIVICPLUS_PAGEID_RE_match_spec in Hm
      as (ds & c & rest & -> & Hd & Hlen & Hc).
    apply CIVICPLUS_PAGEID_RE_match_spec. exists ds, c, (rest ++ q).
    split; [|done]. apply pageid_path_extend.
  - intros a s Ha. unfold CIVICPLUS_PAGEID_RE_match.
    destruct (span_digits s) as [n r]. by rewrite (proj2 (Ascii.eqb_neq a "/")).
  - intros ds rest Hd Hlen. unfold CIVICPLUS_PAGEID_RE_match.
    rewrite (span_digits_run ds (String "/" rest) Hd) by done.
    destruct Hlen as [Hlt|Hgt].
    + rewrite (proj2 (Nat.leb_gt 2 _)) by done. by rewrite andb_false_r.
    + rewrite (proj2 (Nat.leb_gt _ 6)) by done. by rewrite !andb_false_r.
  - intros ds Hd. unfold CIVICPLUS_PAGEID_RE_match.
    rewrite (span_digits_run ds (String "/" EmptyString) Hd) by done.
    by rewrite andb_false_r.
Qed.

End PageIdMore.

(** ** The further properties on sample data *)

Section MoreSamples.
Local Existing Instance RefRuntime.runtime.
Import ApplyUrlCheckSummary.

Lemma sample_reads_back (r : gmap string value) (h : string) :
  VObj r ∈ Example.dataset ->
  MigrateSchema.derive_home r = Some h ->
  MigrateSchema.homepage_from_url (VStr h) = Some h.
Proof.
  unfold Example.dataset. rewrite !elem_of_cons, elem_of_nil.
  intros [[= ->]|[[= ->]|[[= ->]|[]]]] Hh; vm_compute in Hh;
    [injection Hh as <-|discriminate|injection Hh as <-]; vm_compute; reflexivity.
Qed.

Lemma migrate_counter_witness :
  exists assigned : list string,
    NoDup assigned
    /\ (forall k, k ∈ assigned
                  <-> (MigrateSchema.migrate_record (Frame.egremont, O)).1 !! k
                      <> Frame.egremont !! k)
    /\ (MigrateSchema.migrate_record (Frame.egremont, O)).2 = (0 + length assigned)%nat
    /\ length assigned = 2%nat.
Proof.
  destruct (migrate_counter Frame.egremont O)
    as ((assigned & Hnd & Hin & Hlen) & _ & _).
  exists assigned. split; [exact Hnd|]. split; [exact Hin|].
  split; [exact Hlen|].
  assert (Hrun : (MigrateSchema.migrate_record (Frame.egremont, O)).2 = 2%nat)
    by (vm_compute; reflexivity).
  rewrite Hrun in Hlen. simpl in Hlen. by symmetry.
Defined.

Lemma migrate_twice_witness :
  (forall h, MigrateSchema.derive_home Example.ashford = Some h ->
             MigrateSchema.homepage_from_url (VStr h) = Some h)
  /\ (forall r h, VObj r ∈ Example.dataset ->
                  MigrateSchema.derive_home r = Some h ->
                  MigrateSchema.homepage_from_url (VStr h) = Some h)
  /\ MigrateSchema.migrate_record
       ((MigrateSchema.migrate_record (Example.ashford, O)).1, O)
     = ((MigrateSchema.migrate_record (Example.ashford, O)).1, O)
  /\ MigrateSchema.migrate_all (MigrateSchema.migrate_all Example.dataset O).1 O
     = ((MigrateSchema.migrate_all Example.dataset O).1, O).
Proof.
  assert (H1 : forall h, MigrateSchema.derive_home Example.ashford = Some h ->
                         MigrateSchema.homepage_from_url (VStr h) = Some h).
  { intros h. apply sample_reads_back. unfold Example.dataset. by left. }
  split; [exact H1|]. split; [exact sample_reads_back|].
  exact (migrate_twice Example.ashford Example.dataset O O H1 sample_reads_back).
Defined.

Lemma row_keeps_other_keys_witness :
  field_to_prefix "Employment Page URL" = Some "employment"
  /\ row_prepare Example.checked_at "Employment Page URL" "employment"
       Example.row_pageid Example.ashford
     = Ok (Example.prepared (Some 200)
             "http://ashford.gov/354/Employment-Opportunities" Example.ashford)
  /\ exists s' : gmap string value * nat,
       row_body Example.checked_at "Employment Page URL" "employment"
         Example.row_pageid (Example.ashford, O) = Ok s'
       /\ s'.1 !! "Town" = Some (VStr "Ashford")
       /\ s'.1 !! "Employment Page URL (original)" = None.
Proof.
  assert (Hp : field_to_prefix "Employment Page URL" = Some "employment")
    by reflexivity.
  assert (Hok : row_prepare Example.checked_at "Employment Page URL" "employment"
                  Example.row_pageid Example.ashford
                = Ok (Example.prepared (Some 200)
                        "http://ashford.gov/354/Employment-Opportunities"
                        Example.ashford))
    by (apply sample_prepare; vm_compute; reflexivity).
  split; [exact Hp|]. split; [exact Hok|].
  destruct (row_keeps_other_keys Example.checked_at _ _ _ _ _ O Hp Hok)
    as (s' & Hbody & Hframe & _).
  exists s'. split; [exact Hbody|]. split.
  - rewrite Hframe; [vm_compute; reflexivity|].
    apply (bool_decide_unpack _). vm_compute. exact I.
  - rewrite Hframe; [vm_compute; reflexivity|].
    apply (bool_decide_unpack _). vm_compute. exact I.
Defined.

Lemma row_stamps_always_witness :
  field_to_prefix "Employment Page URL" = Some "employment"
  /\ row_prepare Example.checked_at "Employment Page URL" "employment"
       Example.row_pageid Example.ashford
     = Ok (Example.prepared (Some 200)
             "http://ashford.gov/354/Employment-Opportunities" Example.ashford)
  /\ exists s' : gmap string value * nat,
       row_body Example.checked_at "Employment Page URL" "employment"
         Example.row_pageid (Example.ashford, O) = Ok s'
       /\ s'.1 !! "employment_url_status_code" = Some (VInt 200)
       /\ s'.1 !! "employment_url_error" = Some VNone.
Proof.
  assert (Hp : field_to_prefix "Employment Page URL" = Some "employment")
    by reflexivity.
  assert (Hok : row_prepare Example.checked_at "Employment Page URL" "employment"
                  Example.row_pageid Example.ashford
                = Ok (Example.prepared (Some 200)
                        "http://ashford.gov/354/Employment-Opportunities"
                        Example.ashford))
    by (apply sample_prepare; vm_compute; reflexivity).
  split; [exact Hp|]. split; [exact Hok|].
  destruct (row_stamps_always Example.checked_at _ _ _ _ _ O Hp Hok)
    as (s' & Hbody & Hcode & _ & _ & _ & Herr).
  exists s'. split; [exact Hbody|].
  replace (row_status Example.row_pageid) with (Some 200) in Hcode
    by (vm_compute; reflexivity).
  replace (row_error Example.row_pageid) with (@None string) in Herr
    by (vm_compute; reflexivity).
  split; [exact Hcode|exact Herr].
Defined.

Lemma row_outcomes_witness :
  field_to_prefix "Employment Page URL" = Some "employment"
  /\ row_prepare Example.checked_at "Employment Page URL" "employment"
       Example.row_redirect Example.ashford
     = Ok (Example.prepared (Some 200) "https://www.ashford.gov/home/pages/jobs"
             Example.ashford)
  /\ exists s' : gmap string value * nat,
       row_body Example.checked_at "Employment Page URL" "employment"
         Example.row_redirect (Example.ashford, O) = Ok s'
       /\ (s'.2 <= 2)%nat.
Proof.
  assert (Hp : field_to_prefix "Employment Page URL" = Some "employment")
    by reflexivity.
  assert (Hok : row_prepare Example.checked_at "Employment Page URL" "employment"
                  Example.row_redirect Example.ashford
                = Ok (Example.prepared (Some 200)
                        "https://www.ashford.gov/home/pages/jobs" Example.ashford))
    by (apply sample_prepare; vm_compute; reflexivity).
  split; [exact Hp|]. split; [exact Hok|].
  destruct (row_outcomes Example.checked_at _ _ _ _ _ O Hp Hok)
    as (s' & Hbody & [Hidle|(fin & reason & _ & _ & [[Hone _]|[Htwo _]] & _)]);
    exists s'; (split; [exact Hbody|]).
  - rewrite Hidle. simpl. lia.
  - rewrite Hone. lia.
  - rewrite Htwo. lia.
Defined.

Lemma row_never_rewrites_witness :
  field_to_prefix "Employment Page URL" = Some "employment"
  /\ row_prepare Example.checked_at "Employment Page URL" "employment"
       Frame.row_dead Example.ashford
     = Ok (Example.prepared (Some 404) "https://www.ashford.gov/home/pages/jobs"
             Example.ashford)
  /\ (exists st, row_status Frame.row_dead = Some st /\ 400 <= st)
  /\ row_body Example.checked_at "Employment Page URL" "employment"
       Frame.row_dead (Example.ashford, O)
     = Ok (Example.prepared (Some 404) "https://www.ashford.gov/home/pages/jobs"
             Example.ashford, O).
Proof.
  assert (Hp : field_to_prefix "Employment Page URL" = Some "employment")
    by reflexivity.
  assert (Hok : row_prepare Example.checked_at "Employment Page URL" "employment"
                  Frame.row_dead Example.ashford
                = Ok (Example.prepared (Some 404)
                        "https://www.ashford.gov/home/pages/jobs" Example.ashford))
    by (apply sample_prepare; vm_compute; reflexivity).
  assert (Hst : exists st, row_status Frame.row_dead = Some st /\ 400 <= st)
    by (exists 404; split; [vm_compute; reflexivity|lia]).
  split; [exact Hp|]. split; [exact Hok|]. split; [exact Hst|].
  destruct (row_never_rewrites Example.checked_at _ _ _ _ _ O Hp Hok) as [Hbody _].
  - right. right. right. exact Hst.
  - exact Hbody.
Defined.

Lemma row_applied_twice_witness :
  field_to_prefix "Employment Page URL" = Some "employment"
  /\ row_prepare Example.checked_at "Employment Page URL" "employment"
       Example.row_redirect Example.ashford
     = Ok (Example.prepared (Some 200) "https://www.ashford.gov/home/pages/jobs"
             Example.ashford)
  /\ forall s2,
       row_body Example.checked_at "Employment Page URL" "employment"
         Example.row_redirect
         (Frame.after_rules "Employment Page URL" "employment" Example.row_redirect
            (Example.prepared (Some 200) "https://www.ashford.gov/home/pages/jobs"
               Example.ashford) O)
       = Ok s2 ->
       s2.2 = (Frame.after_rules "Employment Page URL" "employment"
                 Example.row_redirect
                 (Example.prepared (Some 200)
                    "https://www.ashford.gov/home/pages/jobs" Example.ashford) O).2.
Proof.
  assert (Hp : field_to_prefix "Employment Page URL" = Some "employment")
    by reflexivity.
  assert (Hok : row_prepare Example.checked_at "Employment Page URL" "employment"
                  Example.row_redirect Example.ashford
                = Ok (Example.prepared (Some 200)
                        "https://www.ashford.gov/home/pages/jobs" Example.ashford))
    by (apply sample_prepare; vm_compute; reflexivity).
  split; [exact Hp|]. split; [exact Hok|].
  destruct (row_applied_twice Example.checked_at Example.checked_at _ _ _ _ _ O
              Hp Hok) as (_ & _ & Hagain).
  intros s2 Hs2. by destruct (Hagain s2 Hs2) as [Hcount _].
Defined.

Lemma row_raises_iff_witness :
  field_to_prefix "Employment Page URL" = Some "employment"
  /\ exists e, row_body Example.checked_at "Employment Page URL" "employment"
                 Frame.row_egremont (Frame.egremont, O) = Raise e.
Proof.
  assert (Hp : field_to_prefix "Employment Page URL" = Some "employment")
    by reflexivity.
  split; [exact Hp|].
  destruct (row_raises_iff Example.checked_at _ _ Frame.row_egremont
              Frame.egremont O Hp) as [[_ Hraise] _].
  apply Hraise. left. exists "http://[::1".
  split; [vm_compute; reflexivity|]. split; [discriminate|vm_compute; reflexivity].
Defined.

Lemma rows_change_indexed_records_only_witness :
  exists data' u',
    process_rows (index_by_town Example.dataset 0 ∅) 0
      (csv_rows Example.checks_csv) (Example.dataset, O) = Ok (data', u')
    /\ length data' = 3%nat
    /\ data' !! 2%nat = Example.dataset !! 2%nat.
Proof.
  destruct (process_rows (index_by_town Example.dataset 0 ∅) 0
              (csv_rows Example.checks_csv) (Example.dataset, O))
    as [[data' u']|e] eqn:Erun.
  - exists data', u'. split; [reflexivity|].
    destruct (rows_change_indexed_records_only _ _ _ _ _ _ _ Erun)
      as (Hlen & _ & _ & Hframe & _).
    split; [exact Hlen|]. apply Hframe. intros row Hin.
    assert (Hall : forallb
                     (fun row => negb (bool_decide
                        (index_by_town Example.dataset 0 ∅ !! row_town row
                         = Some 2%nat)))
                     (csv_rows Example.checks_csv) = true)
      by (vm_compute; reflexivity).
    rewrite forallb_forall in Hall. apply list_elem_of_In, Hall in Hin.
    apply negb_true_iff in Hin. by apply bool_decide_eq_false in Hin.
  - apply (f_equal (fun r => match r with Ok _ => true | Raise _ => false end)) in Erun.
    vm_compute in Erun. discriminate.
Defined.

Lemma raising_row_aborts_run_witness :
  let R := Frame.canned [VObj Frame.egremont] [Frame.row_egremont] in
  IO.files Frame.desk !! "towns.json" = Some "(dataset)"
  /\ @json_loads R "(dataset)" = Some (VArr [VObj Frame.egremont])
  /\ IO.files Frame.desk !! "checks.csv" = Some "(rows)"
  /\ @csv_rows R "(rows)" = ([] ++ Frame.row_egremont :: [])%list
  /\ @process_rows R (index_by_town [VObj Frame.egremont] 0 ∅) 0 []
       ([VObj Frame.egremont], O) = Ok ([VObj Frame.egremont], O)
  /\ @process_row R (index_by_town [VObj Frame.egremont] 0 ∅)
       (@now_isoformat R (length (@nil (gmap string string)))) Frame.row_egremont
       ([VObj Frame.egremont], O) = Raise (ValueError "urlparse")
  /\ exists w' : IO.world,
       @main R ["apply_url_check_summary.py"; "towns.json"; "checks.csv"; "out.json"]
         Frame.desk = (IO.Uncaught (ValueError "urlparse"), w')
       /\ IO.files w' = IO.files Frame.desk.
Proof.
  intros R.
  assert (Hfile : IO.files Frame.desk !! "towns.json" = Some "(dataset)")
    by (vm_compute; reflexivity).
  assert (Hcsv : IO.files Frame.desk !! "checks.csv" = Some "(rows)")
    by (vm_compute; reflexivity).
  assert (Hrow : @process_row R (index_by_town [VObj Frame.egremont] 0 ∅)
                   (@now_isoformat R (length (@nil (gmap string string))))
                   Frame.row_egremont ([VObj Frame.egremont], O)
                 = Raise (ValueError "urlparse"))
    by (vm_compute; reflexivity).
  repeat (split; [first [assumption | reflexivity]|]).
  destruct (@raising_row_aborts_run R "apply_url_check_summary.py" "towns.json"
              "checks.csv" "out.json" "(dataset)" "(rows)" [VObj Frame.egremont]
              [] [] Frame.row_egremont ([VObj Frame.egremont], O)
              (ValueError "urlparse") Frame.desk
              Hfile eq_refl Hcsv eq_refl eq_refl Hrow)
    as (w' & Hmain & _ & Hfiles & _).
  exists w'. split; [exact Hmain|exact Hfiles].
Defined.

Lemma frozen_original_survives_witness :
  let migrated := (MigrateSchema.migrate_record (Example.ashford, O)).1 in
  let stamped :=
    stamp_metadata "employment" (row_status Example.row_pageid)
      (row_final_url Example.row_pageid)
      (row_checked_at Example.row_pageid Example.checked_at)
      (row_soft404 Example.row_pageid) (row_error Example.row_pageid) migrated in
  field_to_prefix "Employment Page URL" = Some "employment"
  /\ Example.ashford !! "Employment Page URL"
     = Some (VStr "http://ashford.gov/home/pages/jobs")
  /\ Example.ashford !! "Employment Page URL (original)" = None
  /\ row_prepare Example.checked_at "Employment Page URL" "employment"
       Example.row_pageid migrated = Ok stamped
  /\ exists s' : gmap string value * nat,
       row_body Example.checked_at "Employment Page URL" "employment"
         Example.row_pageid (migrated, O) = Ok s'
       /\ s'.1 !! "Employment Page URL (original)"
          = Some (VStr "http://ashford.gov/home/pages/jobs").
Proof.
  intros migrated stamped.
  assert (Hp : field_to_prefix "Employment Page URL" = Some "employment")
    by reflexivity.
  assert (Hcur : Example.ashford !! "Employment Page URL"
                 = Some (VStr "http://ashford.gov/home/pages/jobs"))
    by (vm_compute; reflexivity).
  assert (Hnone : Example.ashford !! "Employment Page URL (original)" = None)
    by (vm_compute; reflexivity).
  assert (Hok : row_prepare Example.checked_at "Employment Page URL" "employment"
                  Example.row_pageid migrated = Ok stamped).
  { unfold row_prepare. apply (ensure_town_website_fixed _ _ "http://ashford.gov/").
    - unfold stamped. rewrite stamp_metadata_lookup_other by done.
      unfold migrated. vm_compute. reflexivity.
    - vm_compute. reflexivity. }
  split; [exact Hp|]. split; [exact Hcur|]. split; [exact Hnone|].
  split; [exact Hok|].
  destruct (frozen_original_survives Example.checked_at _ _ _ Example.ashford
              stamped O O _ Hp Hcur Hnone Hok) as (s' & Hbody & Hfrozen & _).
  exists s'. split; [exact Hbody|exact Hfrozen].
Defined.

Lemma migrate_keeps_keys_witness :
  ("Town" ∉ Frame.migrate_keys)
  /\ (MigrateSchema.migrate_record (Example.ashford, O)).1 !! "Town"
     = Some (VStr "Ashford")
  /\ is_Some ((MigrateSchema.migrate_record (Example.ashford, O)).1
              !! "Employment Page URL").
Proof.
  assert (Hk : "Town" ∉ Frame.migrate_keys)
    by (apply (bool_decide_unpack _); vm_compute; exact I).
  split; [exact Hk|].
  destruct (migrate_keeps_keys Example.ashford O "Town") as [Hframe _].
  destruct (migrate_keeps_keys Example.ashford O "Employment Page URL")
    as [_ Hkept].
  split.
  - rewrite (Hframe Hk). vm_compute. reflexivity.
  - apply Hkept. vm_compute. eauto.
Defined.

Lemma last_record_of_town_witness :
  index_by_town Frame.twins 0 ∅ !! "Ashford" = Some 2%nat
  /\ (forall j' r', (2 < j')%nat -> Frame.twins !! j' = Some (VObj r') ->
                    get r' "Town" <> VStr "Ashford")
  /\ exists data' u',
       process_rows (index_by_town Frame.twins 0 ∅) 0 [Example.row_redirect]
         (Frame.twins, O) = Ok (data', u')
       /\ data' !! 0%nat = Some (VObj Example.ashford).
Proof.
  assert (Hidx : index_by_town Frame.twins 0 ∅ !! "Ashford" = Some 2%nat)
    by (vm_compute; reflexivity).
  destruct (last_record_of_town Frame.twins) as [Hlast Hfirst].
  split; [exact Hidx|]. split; [exact (proj2 (proj1 (Hlast _ _) Hidx))|].
  destruct (process_rows (index_by_town Frame.twins 0 ∅) 0 [Example.row_redirect]
              (Frame.twins, O)) as [[data' u']|e] eqn:Erun.
  - exists data', u'. split; [reflexivity|].
    assert (H0 : Frame.twins !! 0%nat = Some (VObj Example.ashford))
      by reflexivity.
    assert (H2 : Frame.twins !! 2%nat = Some (VObj Example.ashford))
      by reflexivity.
    assert (Hlt : (0 < 2)%nat) by lia.
    rewrite (Hfirst _ _ _ _ _ 0%nat 2%nat _ _ Erun Hlt H0 H2 eq_refl).
    exact H0.
  - apply (f_equal (fun r => match r with Ok _ => true | Raise _ => false end)) in Erun.
    vm_compute in Erun. discriminate.
Defined.

Lemma pageid_match_exact_witness :
  CIVICPLUS_PAGEID_RE_match "/354/Employment-Opportunities" = true
  /\ CIVICPLUS_PAGEID_RE_match ("/354/Employment-Opportunities" ++ "/2024/clerk")
     = true
  /\ CIVICPLUS_PAGEID_RE_match (String "/" ("1234567" ++ String "/" "jobs")) = false.
Proof.
  assert (Hm : CIVICPLUS_PAGEID_RE_match "/354/Employment-Opportunities" = true)
    by (vm_compute; reflexivity).
  destruct (pageid_match_exact "/354/Employment-Opportunities")
    as (_ & Hext & _ & Hrun & _).
  split; [exact Hm|]. split; [exact (Hext _ Hm)|].
  apply Hrun; [vm_compute; reflexivity|right; vm_compute; lia].
Defined.

Lemma unreadable_input_writes_nothing_witness :
  IO.files Frame.desk !! "missing.json" = None
  /\ (MigrateSchema.main ["migrate_schema.py"; "missing.json"; "out.json"]
        Frame.desk).1 = IO.Uncaught (FileNotFoundError "missing.json")
  /\ IO.writes (main ["apply_url_check_summary.py"; "missing.json"; "checks.csv";
                      "out.json"] Frame.desk).2 = IO.writes Frame.desk.
Proof.
  assert (Hnone : IO.files Frame.desk !! "missing.json" = None)
    by (vm_compute; reflexivity).
  pose proof (unreadable_input_writes_nothing "migrate_schema.py" "missing.json"
                "out.json" "checks.csv" Frame.desk) as Hall.
  cbv zeta in Hall. destruct Hall as (Hmissing & _ & _).
  destruct (Hmissing Hnone) as [(Hm & _) _].
  pose proof (unreadable_input_writes_nothing "apply_url_check_summary.py"
                "missing.json" "out.json" "checks.csv" Frame.desk) as Hall.
  cbv zeta in Hall. destruct Hall as (Hmissing' & _ & _).
  destruct (Hmissing' Hnone) as [_ (_ & _ & _ & Hw)].
  split; [exact Hnone|]. split; [exact Hm|exact Hw].
Defined.

End MoreSamples.
